(** * MediaRecorder: a shallow embedding of source/core/mcu/media/MediaRecorder.cpp

    The recorder receives encoded video and audio frames on producer threads
    ([onFrame]), buffers them in two frame queues, and a dedicated writer
    thread ([recordLoop]) muxes them into a container through libav.

    The embedding keeps the recorder's members as one record and models every
    libav call as an entry appended to a chronological call log.  The
    threads are modelled by interleaving.  A call of [onFrame] is not one
    event: the source reads [m_status], [m_videoStream] and [m_audioStream]
    outside [m_contextMutex], so each of these reads, the call of
    [addVideoStream] or [addAudioStream] (whose body runs under the mutex)
    and the push to the queue are events of their own, and any number of
    producer threads can stand between two of them.  The writer thread
    moves from one test or queue access of [recordLoop] to the next, and the
    owner's [close] is split at the join.  What libav and the clock answer
    is part of the event.

    The streams of a context live inside it: [m_videoStream] and
    [m_audioStream] are pointers to them, and [avformat_write_header] is
    free to change the time base of every stream, which the write paths
    read through the pointer afterwards. *)

From Stdlib Require Import ZArith List Bool String Lia.
Import ListNotations.
Open Scope Z_scope.

(** ** A small error monad

    [None] stands for a run that the C++ program does not survive: a null
    or dangling pointer read, or an integer division by zero. *)

Definition bind {A B : Type} (x : option A) (k : A -> option B) : option B :=
  match x with
  | Some a => k a
  | None => None
  end.

Notation "x <- e ;; k" := (bind e (fun x => k))
  (at level 61, e at next level, right associativity).

(** ** libav data, as far as the recorder touches it *)

Inductive AVCodecID :=
| AV_CODEC_ID_VP8
| AV_CODEC_ID_H264
| AV_CODEC_ID_PCM_MULAW
| AV_CODEC_ID_OPUS.

Inductive AVMediaType :=
| AVMEDIA_TYPE_VIDEO
| AVMEDIA_TYPE_AUDIO.

Inductive AVPixelFormat := AV_PIX_FMT_YUV420P.

Inductive AVSampleFormat := AV_SAMPLE_FMT_S16.

Record AVRational := { num : Z; den : Z }.

(** Flag bits of libavformat and libavcodec. *)
Definition AVFMT_NOFILE : Z := 1.
Definition AVFMT_GLOBALHEADER : Z := 64.
Definition AVFMT_VARIABLE_FPS : Z := 1024.
Definition CODEC_FLAG_GLOBAL_HEADER : Z := 4194304.

Module AVCodecContext.
Record t := {
  codec_id : AVCodecID;
  codec_type : AVMediaType;
  width : Z;
  height : Z;
  channels : Z;
  sample_rate : Z;
  sample_fmt : option AVSampleFormat;
  pix_fmt : option AVPixelFormat;
  time_base : AVRational;
  flags : Z
}.
End AVCodecContext.

Module AVStream.
Record t := {
  index : Z;
  codec : AVCodecContext.t;
  time_base : AVRational
}.
End AVStream.

Module AVOutputFormat.
Record t := {
  flags : Z;
  video_codec : option AVCodecID
}.
End AVOutputFormat.

Module AVFormatContext.
Record t := {
  filename : string;
  oformat : option AVOutputFormat.t;
  pb : bool;
  streams : list AVStream.t
}.
End AVFormatContext.

Record AVPacket := {
  data : list Z;
  size : Z;
  pts : Z;
  stream_index : Z
}.

(** The libav calls the recorder makes.  A call that can fail carries the
    answer it got. *)
Inductive LibCall :=
| avformat_new_stream (ok : bool)
| avio_open (ok : bool)
| av_dump_format
| avformat_write_header (ok : bool)
| av_write_frame (pkt : AVPacket)
| av_write_trailer
| avcodec_close (stream : Z)
| avio_close
| avformat_free_context.

(** ** Frames and payload types *)

(** The RTP payload type macros of rtputils.h; the two switches below only
    need them to be distinct. *)
Inductive PayloadType :=
| VP8_90000_PT
| H264_90000_PT
| PCMU_8000_PT
| OPUS_48000_PT
| OTHER_PT (pt : Z).

Definition payloadType2VideoCodecID (payloadType : PayloadType) : AVCodecID :=
  match payloadType with
  | VP8_90000_PT => AV_CODEC_ID_VP8
  | H264_90000_PT => AV_CODEC_ID_H264
  | _ => AV_CODEC_ID_VP8
  end.

Definition payloadType2AudioCodecID (payloadType : PayloadType) : AVCodecID :=
  match payloadType with
  | PCMU_8000_PT => AV_CODEC_ID_PCM_MULAW
  | OPUS_48000_PT => AV_CODEC_ID_OPUS
  | _ => AV_CODEC_ID_PCM_MULAW
  end.

(** woogeen_base::FrameFormat: [onFrame] tells VP8 and PCMU apart and sends
    every other enumerator to its default case. *)
Inductive FrameFormat :=
| FRAME_FORMAT_VP8
| FRAME_FORMAT_PCMU
| FRAME_FORMAT_OTHER (tag : Z).

Module Frame.
Record VideoInfo := { width : Z; height : Z }.
Record AudioInfo := { channels : Z; sampleRate : Z }.
(** [additionalInfo] is a union in the source; [onFrame] reads the member
    that goes with [format], so both members are kept side by side. *)
Record t := {
  format : FrameFormat;
  payload : list Z;
  length : Z;
  timeStamp : Z;
  video : VideoInfo;
  audio : AudioInfo
}.
End Frame.

Module EncodedFrame.
Record t := {
  m_payloadData : list Z;
  m_payloadSize : Z;
  m_timeStamp : Z
}.
End EncodedFrame.

(** Modelled from the spec: woogeen_base::MediaFrameQueue is not among the
    sources.  The spec gives its contract: the queue is created with the
    recording's start time; [push] appends to the tail; [pop] removes and
    returns the head frame, or a none sentinel if the queue is empty, and
    never blocks; pop order equals push order. *)
Module MediaFrameQueue.
Record t := {
  m_startTimeOffset : Z;
  m_queue : list EncodedFrame.t
}.

Definition create (startTimeOffset : Z) : t :=
  {| m_startTimeOffset := startTimeOffset; m_queue := [] |}.

Definition pushFrame (payload : list Z) (length timeStamp : Z) (q : t) : t :=
  {| m_startTimeOffset := m_startTimeOffset q;
     m_queue := m_queue q ++
       [ {| EncodedFrame.m_payloadData := payload;
            EncodedFrame.m_payloadSize := length;
            EncodedFrame.m_timeStamp := timeStamp |} ] |}.

Definition popFrame (q : t) : option EncodedFrame.t * t :=
  match m_queue q with
  | [] => (None, q)
  | f :: rest =>
      (Some f, {| m_startTimeOffset := m_startTimeOffset q; m_queue := rest |})
  end.
End MediaFrameQueue.

(** ** Clock arithmetic *)

Record timeval := { tv_sec : Z; tv_usec : Z }.

(** The 64-bit signed range, with two's complement wrap-around. *)
Definition wrap64 (z : Z) : Z := (z + 2 ^ 63) mod 2 ^ 64 - 2 ^ 63.

(** [(time.tv_sec * 1000) + (time.tv_usec / 1000)] *)
Definition milliseconds (time : timeval) : Z :=
  wrap64 (wrap64 (tv_sec time * 1000) + Z.quot (tv_usec time) 1000).

(** The two statements that both write paths share:
    [timestampToWrite = now_ms - m_recordStartTime;]
    [timestampToWrite = timestampToWrite / (1000 / time_base.den);]
    [time_base.den] is an [int] and [timestampToWrite] a [long long].
    Either division stops the program when its divisor is zero, and so
    does the second when it divides the least 64-bit integer by -1. *)
Definition timestampToWrite (time : timeval) (recordStartTime : Z)
    (time_base : AVRational) : option Z :=
  let elapsed := wrap64 (milliseconds time - recordStartTime) in
  if den time_base =? 0 then None
  else
    let divisor := Z.quot 1000 (den time_base) in
    if divisor =? 0 then None
    else if (elapsed =? - 2 ^ 63) && (divisor =? -1) then None
    else Some (Z.quot elapsed divisor).

(** ** The recorder *)

(** woogeen_base::MediaMuxer::Status *)
Inductive Status :=
| Context_EMPTY
| Context_READY
| Context_ERROR.

(** Modelled from the spec: woogeen_base::MediaMuxer, the base class that
    declares [m_status] and [m_muxing] and gives them their first values,
    is not among the sources.  The spec has the state start as Empty
    ("Empty (initial): no container writing has occurred") and the writer
    loop "started at construction", which is what [init] does when it
    sets [m_muxing]; before that no writer is running. *)
Definition MediaMuxer_status0 : Status := Context_EMPTY.

Definition MediaMuxer_muxing0 : bool := false.

(** Where the writer thread stands in [recordLoop]. *)
Inductive LoopPc :=
| AtWhile        (* before the test of [while (m_muxing)] *)
| AtSwitch       (* before [switch (m_status)] *)
| AtEmptyCase    (* in case Context_EMPTY, before the test of both streams *)
| AtAudioDrain   (* before [m_audioQueue->popFrame()] *)
| AtVideoDrain   (* before [m_videoQueue->popFrame()] *)
| Returned.      (* recordLoop has returned, or the thread never started *)

(** Where the owning thread stands. *)
Inductive OwnerPc :=
| Outside        (* not inside close() *)
| InJoin.        (* inside close(), waiting in [m_thread.join()] *)


(** Where a call of [onFrame] stands.  The test of [m_status] and the
    switch on the frame's format are behind it; each position is before one
    access to a member that other threads write. *)
Inductive ProducerPc :=
| AtVideoTest (frame : Frame.t)
    (* case FRAME_FORMAT_VP8, before [if (!m_videoStream)] *)
| AtAddVideo (frame : Frame.t)
    (* before the call of [addVideoStream] *)
| AtPushVideo (frame : Frame.t)
    (* before [m_videoQueue->pushFrame] *)
| AtAudioTestVideo (frame : Frame.t)
    (* case FRAME_FORMAT_PCMU, before the read of [m_videoStream] *)
| AtAudioTestAudio (frame : Frame.t)
    (* before the read of [m_audioStream] *)
| AtAddAudio (frame : Frame.t)
    (* before the call of [addAudioStream] *)
| AtPushAudio (frame : Frame.t).
    (* before [m_audioQueue->pushFrame] *)

(** The calls of [onFrame] in progress, by producer thread. *)
Definition Producers := list (Z * ProducerPc).

Fixpoint producer_pc (thread : Z) (ps : Producers) : option ProducerPc :=
  match ps with
  | [] => None
  | (t, pc) :: rest => if t =? thread then Some pc else producer_pc thread rest
  end.

(** The thread returns from [onFrame]. *)
Fixpoint producer_leave (thread : Z) (ps : Producers) : Producers :=
  match ps with
  | [] => []
  | (t, pc) :: rest =>
      if t =? thread then producer_leave thread rest
      else (t, pc) :: producer_leave thread rest
  end.

(** The thread moves to [pc]. *)
Definition producer_at (thread : Z) (pc : ProducerPc) (ps : Producers)
    : Producers :=
  (thread, pc) :: producer_leave thread ps.

(** The members of the recorder, the position of every thread, and the log
    of libav calls.  [m_videoStream] and [m_audioStream] are pointers into
    the streams of the context: [Some p] points to the stream at position
    [p], [None] is the null pointer. *)
Record MediaRecorder := {
  m_status : Status;
  m_muxing : bool;
  m_videoStream : option nat;
  m_audioStream : option nat;
  m_context : option AVFormatContext.t;
  m_recordPath : string;
  m_snapshotInterval : Z;
  m_recordStartTime : Z;
  m_videoQueue : MediaFrameQueue.t;
  m_audioQueue : MediaFrameQueue.t;
  m_thread : LoopPc;
  m_producers : Producers;
  owner : OwnerPc;
  calls : list LibCall
}.

Definition set_m_status (v : Status) (s : MediaRecorder) : MediaRecorder :=
  {| m_status := v; m_muxing := m_muxing s; m_videoStream := m_videoStream s;
     m_audioStream := m_audioStream s; m_context := m_context s;
     m_recordPath := m_recordPath s;
     m_snapshotInterval := m_snapshotInterval s;
     m_recordStartTime := m_recordStartTime s;
     m_videoQueue := m_videoQueue s; m_audioQueue := m_audioQueue s;
     m_thread := m_thread s; m_producers := m_producers s; owner := owner s;
     calls := calls s |}.

Definition set_m_muxing (v : bool) (s : MediaRecorder) : MediaRecorder :=
  {| m_status := m_status s; m_muxing := v; m_videoStream := m_videoStream s;
     m_audioStream := m_audioStream s; m_context := m_context s;
     m_recordPath := m_recordPath s;
     m_snapshotInterval := m_snapshotInterval s;
     m_recordStartTime := m_recordStartTime s;
     m_videoQueue := m_videoQueue s; m_audioQueue := m_audioQueue s;
     m_thread := m_thread s; m_producers := m_producers s; owner := owner s;
     calls := calls s |}.

Definition set_m_videoStream (v : option nat) (s : MediaRecorder)
    : MediaRecorder :=
  {| m_status := m_status s; m_muxing := m_muxing s; m_videoStream := v;
     m_audioStream := m_audioStream s; m_context := m_context s;
     m_recordPath := m_recordPath s;
     m_snapshotInterval := m_snapshotInterval s;
     m_recordStartTime := m_recordStartTime s;
     m_videoQueue := m_videoQueue s; m_audioQueue := m_audioQueue s;
     m_thread := m_thread s; m_producers := m_producers s; owner := owner s;
     calls := calls s |}.

Definition set_m_audioStream (v : option nat) (s : MediaRecorder)
    : MediaRecorder :=
  {| m_status := m_status s; m_muxing := m_muxing s;
     m_videoStream := m_videoStream s; m_audioStream := v;
     m_context := m_context s; m_recordPath := m_recordPath s;
     m_snapshotInterval := m_snapshotInterval s;
     m_recordStartTime := m_recordStartTime s;
     m_videoQueue := m_videoQueue s; m_audioQueue := m_audioQueue s;
     m_thread := m_thread s; m_producers := m_producers s; owner := owner s;
     calls := calls s |}.

Definition set_m_context (v : option AVFormatContext.t) (s : MediaRecorder)
    : MediaRecorder :=
  {| m_status := m_status s; m_muxing := m_muxing s;
     m_videoStream := m_videoStream s; m_audioStream := m_audioStream s;
     m_context := v; m_recordPath := m_recordPath s;
     m_snapshotInterval := m_snapshotInterval s;
     m_recordStartTime := m_recordStartTime s;
     m_videoQueue := m_videoQueue s; m_audioQueue := m_audioQueue s;
     m_thread := m_thread s; m_producers := m_producers s; owner := owner s;
     calls := calls s |}.

Definition set_m_videoQueue (v : MediaFrameQueue.t) (s : MediaRecorder)
    : MediaRecorder :=
  {| m_status := m_status s; m_muxing := m_muxing s;
     m_videoStream := m_videoStream s; m_audioStream := m_audioStream s;
     m_context := m_context s; m_recordPath := m_recordPath s;
     m_snapshotInterval := m_snapshotInterval s;
     m_recordStartTime := m_recordStartTime s; m_videoQueue := v;
     m_audioQueue := m_audioQueue s; m_thread := m_thread s;
     m_producers := m_producers s; owner := owner s; calls := calls s |}.

Definition set_m_audioQueue (v : MediaFrameQueue.t) (s : MediaRecorder)
    : MediaRecorder :=
  {| m_status := m_status s; m_muxing := m_muxing s;
     m_videoStream := m_videoStream s; m_audioStream := m_audioStream s;
     m_context := m_context s; m_recordPath := m_recordPath s;
     m_snapshotInterval := m_snapshotInterval s;
     m_recordStartTime := m_recordStartTime s;
     m_videoQueue := m_videoQueue s; m_audioQueue := v;
     m_thread := m_thread s; m_producers := m_producers s; owner := owner s;
     calls := calls s |}.

Definition set_m_thread (v : LoopPc) (s : MediaRecorder) : MediaRecorder :=
  {| m_status := m_status s; m_muxing := m_muxing s;
     m_videoStream := m_videoStream s; m_audioStream := m_audioStream s;
     m_context := m_context s; m_recordPath := m_recordPath s;
     m_snapshotInterval := m_snapshotInterval s;
     m_recordStartTime := m_recordStartTime s;
     m_videoQueue := m_videoQueue s; m_audioQueue := m_audioQueue s;
     m_thread := v; m_producers := m_producers s; owner := owner s;
     calls := calls s |}.

Definition set_m_producers (v : Producers) (s : MediaRecorder)
    : MediaRecorder :=
  {| m_status := m_status s; m_muxing := m_muxing s;
     m_videoStream := m_videoStream s; m_audioStream := m_audioStream s;
     m_context := m_context s; m_recordPath := m_recordPath s;
     m_snapshotInterval := m_snapshotInterval s;
     m_recordStartTime := m_recordStartTime s;
     m_videoQueue := m_videoQueue s; m_audioQueue := m_audioQueue s;
     m_thread := m_thread s; m_producers := v; owner := owner s;
     calls := calls s |}.

Definition set_owner (v : OwnerPc) (s : MediaRecorder) : MediaRecorder :=
  {| m_status := m_status s; m_muxing := m_muxing s;
     m_videoStream := m_videoStream s; m_audioStream := m_audioStream s;
     m_context := m_context s; m_recordPath := m_recordPath s;
     m_snapshotInterval := m_snapshotInterval s;
     m_recordStartTime := m_recordStartTime s;
     m_videoQueue := m_videoQueue s; m_audioQueue := m_audioQueue s;
     m_thread := m_thread s; m_producers := m_producers s; owner := v;
     calls := calls s |}.

(** Appends one libav call to the log. *)
Definition call (c : LibCall) (s : MediaRecorder) : MediaRecorder :=
  {| m_status := m_status s; m_muxing := m_muxing s;
     m_videoStream := m_videoStream s; m_audioStream := m_audioStream s;
     m_context := m_context s; m_recordPath := m_recordPath s;
     m_snapshotInterval := m_snapshotInterval s;
     m_recordStartTime := m_recordStartTime s;
     m_videoQueue := m_videoQueue s; m_audioQueue := m_audioQueue s;
     m_thread := m_thread s; m_producers := m_producers s; owner := owner s;
     calls := calls s ++ [c] |}.

(** ** Construction *)

(** [MediaRecorder::init].  [alloc_ok] is whether [avformat_alloc_context]
    returned a context and [guess] is what [av_guess_format] returned.  The
    writer thread is started only when both succeeded. *)
Definition init (alloc_ok : bool) (guess : option AVOutputFormat.t)
    (s : MediaRecorder) : MediaRecorder :=
  if alloc_ok then
    let ctx :=
      {| AVFormatContext.filename := substring 0 1024 (m_recordPath s);
         AVFormatContext.oformat := guess;
         AVFormatContext.pb := false;
         AVFormatContext.streams := [] |} in
    let s1 := set_m_context (Some ctx) s in
    match guess with
    | None => s1
    | Some _ => set_m_thread AtWhile (set_m_muxing true s1)
    end
  else s.

(** The constructor.  [time] is what [gettimeofday] returned. *)
Definition MediaRecorder_new (recordUrl : string) (snapshotInterval : Z)
    (time : timeval) (alloc_ok : bool) (guess : option AVOutputFormat.t)
    : MediaRecorder :=
  let recordStartTime := milliseconds time in
  init alloc_ok guess
    {| m_status := MediaMuxer_status0;
       m_muxing := MediaMuxer_muxing0;
       m_videoStream := None;
       m_audioStream := None;
       m_context := None;
       m_recordPath := recordUrl;
       m_snapshotInterval := snapshotInterval;
       m_recordStartTime := recordStartTime;
       m_videoQueue := MediaFrameQueue.create recordStartTime;
       m_audioQueue := MediaFrameQueue.create recordStartTime;
       m_thread := Returned;
       m_producers := [];
       owner := Outside;
       calls := [] |}.

(** ** Streams *)

Definition with_oformat (fmt : AVOutputFormat.t) (ctx : AVFormatContext.t)
    : AVFormatContext.t :=
  {| AVFormatContext.filename := AVFormatContext.filename ctx;
     AVFormatContext.oformat := Some fmt;
     AVFormatContext.pb := AVFormatContext.pb ctx;
     AVFormatContext.streams := AVFormatContext.streams ctx |}.

Definition with_stream (stream : AVStream.t) (ctx : AVFormatContext.t)
    : AVFormatContext.t :=
  {| AVFormatContext.filename := AVFormatContext.filename ctx;
     AVFormatContext.oformat := AVFormatContext.oformat ctx;
     AVFormatContext.pb := AVFormatContext.pb ctx;
     AVFormatContext.streams := AVFormatContext.streams ctx ++ [stream] |}.

Definition with_pb (opened : bool) (ctx : AVFormatContext.t)
    : AVFormatContext.t :=
  {| AVFormatContext.filename := AVFormatContext.filename ctx;
     AVFormatContext.oformat := AVFormatContext.oformat ctx;
     AVFormatContext.pb := opened;
     AVFormatContext.streams := AVFormatContext.streams ctx |}.

(** What [avformat_write_header] does to the streams: the muxer gives
    every stream of the context the time base it will use. *)
Definition with_time_bases (muxer : AVStream.t -> AVRational)
    (ctx : AVFormatContext.t) : AVFormatContext.t :=
  {| AVFormatContext.filename := AVFormatContext.filename ctx;
     AVFormatContext.oformat := AVFormatContext.oformat ctx;
     AVFormatContext.pb := AVFormatContext.pb ctx;
     AVFormatContext.streams :=
       map (fun stream =>
              {| AVStream.index := AVStream.index stream;
                 AVStream.codec := AVStream.codec stream;
                 AVStream.time_base := muxer stream |})
           (AVFormatContext.streams ctx) |}.

(** Reading through a stream pointer.  The streams are freed with the
    context, so the read needs the context to be there still. *)
Definition stream_at (p : nat) (s : MediaRecorder) : option AVStream.t :=
  ctx <- m_context s ;; nth_error (AVFormatContext.streams ctx) p.

(** ** Track registration *)

(** [c->flags |= CODEC_FLAG_GLOBAL_HEADER] under the test of
    [oformat->flags & AVFMT_GLOBALHEADER]. *)
Definition codec_flags (fmt : AVOutputFormat.t) : Z :=
  if Z.land (AVOutputFormat.flags fmt) AVFMT_GLOBALHEADER =? 0 then 0
  else Z.lor 0 CODEC_FLAG_GLOBAL_HEADER.

(** [MediaRecorder::addAudioStream].  The body runs under
    [m_contextMutex]; the one member of the recorder it writes is written
    by its last statement, or by the only one before it returns early.
    [new_stream_ok] is whether [avformat_new_stream] returned a stream; a
    new stream is appended to the streams of the context and gets the next
    free index. *)
Definition addAudioStream (codec_id : AVCodecID) (nbChannels sampleRate : Z)
    (new_stream_ok : bool) (s : MediaRecorder) : option MediaRecorder :=
  ctx <- m_context s ;;
  if new_stream_ok then
    fmt <- AVFormatContext.oformat ctx ;;
    let c :=
      {| AVCodecContext.codec_id := codec_id;
         AVCodecContext.codec_type := AVMEDIA_TYPE_AUDIO;
         AVCodecContext.width := 0;
         AVCodecContext.height := 0;
         AVCodecContext.channels := nbChannels;
         AVCodecContext.sample_rate := sampleRate;
         AVCodecContext.sample_fmt := Some AV_SAMPLE_FMT_S16;
         AVCodecContext.pix_fmt := None;
         AVCodecContext.time_base := {| num := 0; den := 1 |};
         AVCodecContext.flags := codec_flags fmt |} in
    let position := List.length (AVFormatContext.streams ctx) in
    let stream :=
      {| AVStream.index := Z.of_nat position;
         AVStream.codec := c;
         AVStream.time_base := {| num := 1; den := sampleRate |} |} in
    Some (set_m_audioStream (Some position)
           (set_m_context (Some (with_stream stream ctx))
             (call (avformat_new_stream true) s)))
  else
    Some (set_m_status Context_ERROR (call (avformat_new_stream false) s)).

(** [MediaRecorder::addVideoStream], under [m_contextMutex] as well. *)
Definition addVideoStream (codec_id : AVCodecID) (width height : Z)
    (new_stream_ok : bool) (s : MediaRecorder) : option MediaRecorder :=
  ctx <- m_context s ;;
  fmt <- AVFormatContext.oformat ctx ;;
  let fmt1 :=
    {| AVOutputFormat.flags := AVOutputFormat.flags fmt;
       AVOutputFormat.video_codec := Some codec_id |} in
  if new_stream_ok then
    let time_base := {| num := 1; den := 30 |} in
    let c :=
      {| AVCodecContext.codec_id := codec_id;
         AVCodecContext.codec_type := AVMEDIA_TYPE_VIDEO;
         AVCodecContext.width := width;
         AVCodecContext.height := height;
         AVCodecContext.channels := 0;
         AVCodecContext.sample_rate := 0;
         AVCodecContext.sample_fmt := None;
         AVCodecContext.pix_fmt := Some AV_PIX_FMT_YUV420P;
         AVCodecContext.time_base := time_base;
         AVCodecContext.flags := codec_flags fmt1 |} in
    let position := List.length (AVFormatContext.streams ctx) in
    let stream :=
      {| AVStream.index := Z.of_nat position;
         AVStream.codec := c;
         AVStream.time_base := time_base |} in
    let fmt2 :=
      {| AVOutputFormat.flags :=
           Z.lor (AVOutputFormat.flags fmt1) AVFMT_VARIABLE_FPS;
         AVOutputFormat.video_codec := AVOutputFormat.video_codec fmt1 |} in
    Some (set_m_videoStream (Some position)
           (set_m_context (Some (with_stream stream (with_oformat fmt2 ctx)))
             (call (avformat_new_stream true) s)))
  else
    Some (set_m_status Context_ERROR
           (set_m_context (Some (with_oformat fmt1 ctx))
             (call (avformat_new_stream false) s))).

(** ** [onFrame], on a producer thread *)

Definition set_pc (thread : Z) (pc : ProducerPc) (s : MediaRecorder)
    : MediaRecorder :=
  set_m_producers (producer_at thread pc (m_producers s)) s.

Definition leave (thread : Z) (s : MediaRecorder) : MediaRecorder :=
  set_m_producers (producer_leave thread (m_producers s)) s.

(** [MediaRecorder::onFrame] from its entry to the case of the switch: the
    test of [m_status] and the switch on [frame.format]. *)
Definition onFrame (thread : Z) (frame : Frame.t) (s : MediaRecorder)
    : MediaRecorder :=
  match m_status s with
  | Context_ERROR => s
  | _ =>
      match Frame.format frame with
      | FRAME_FORMAT_VP8 => set_pc thread (AtVideoTest frame) s
      | FRAME_FORMAT_PCMU => set_pc thread (AtAudioTestVideo frame) s
      | FRAME_FORMAT_OTHER _ => s
      end
  end.

(** The rest of [MediaRecorder::onFrame], one access at a time.  [pc] is
    where the call stands. *)
Definition onFrame_step (thread : Z) (pc : ProducerPc) (new_stream_ok : bool)
    (s : MediaRecorder) : option MediaRecorder :=
  match pc with
  | AtVideoTest frame =>
      match m_videoStream s with
      | None => Some (set_pc thread (AtAddVideo frame) s)
      | Some _ => Some (set_pc thread (AtPushVideo frame) s)
      end
  | AtAddVideo frame =>
      s1 <- addVideoStream (payloadType2VideoCodecID VP8_90000_PT)
              (Frame.width (Frame.video frame))
              (Frame.height (Frame.video frame)) new_stream_ok s ;;
      Some (set_pc thread (AtPushVideo frame) s1)
  | AtPushVideo frame =>
      Some (leave thread
             (set_m_videoQueue
                (MediaFrameQueue.pushFrame (Frame.payload frame)
                   (Frame.length frame) (Frame.timeStamp frame)
                   (m_videoQueue s)) s))
  | AtAudioTestVideo frame =>
      match m_videoStream s with
      | Some _ => Some (set_pc thread (AtAudioTestAudio frame) s)
      | None => Some (set_pc thread (AtPushAudio frame) s)
      end
  | AtAudioTestAudio frame =>
      match m_audioStream s with
      | None => Some (set_pc thread (AtAddAudio frame) s)
      | Some _ => Some (set_pc thread (AtPushAudio frame) s)
      end
  | AtAddAudio frame =>
      s1 <- addAudioStream (payloadType2AudioCodecID PCMU_8000_PT)
              (Frame.channels (Frame.audio frame))
              (Frame.sampleRate (Frame.audio frame)) new_stream_ok s ;;
      Some (set_pc thread (AtPushAudio frame) s1)
  | AtPushAudio frame =>
      Some (leave thread
             (set_m_audioQueue
                (MediaFrameQueue.pushFrame (Frame.payload frame)
                   (Frame.length frame) (Frame.timeStamp frame)
                   (m_audioQueue s)) s))
  end.

(** ** The write paths *)

(** [MediaRecorder::writeVideoFrame].  [time] is what [gettimeofday]
    returned; the time base is read through [m_videoStream]. *)
Definition writeVideoFrame (time : timeval)
    (encodedVideoFrame : EncodedFrame.t) (s : MediaRecorder)
    : option MediaRecorder :=
  match m_videoStream s with
  | None => Some s
  | Some p =>
      videoStream <- stream_at p s ;;
      ts <- timestampToWrite time (m_recordStartTime s)
              (AVStream.time_base videoStream) ;;
      Some (call (av_write_frame
                    {| data := EncodedFrame.m_payloadData encodedVideoFrame;
                       size := EncodedFrame.m_payloadSize encodedVideoFrame;
                       pts := ts;
                       stream_index := 0 |}) s)
  end.

(** [MediaRecorder::writeAudioFrame].  The guard is on [m_audioStream]; the
    time base that is read is [m_videoStream->time_base]. *)
Definition writeAudioFrame (time : timeval)
    (encodedAudioFrame : EncodedFrame.t) (s : MediaRecorder)
    : option MediaRecorder :=
  match m_audioStream s with
  | None => Some s
  | Some _ =>
      p <- m_videoStream s ;;
      videoStream <- stream_at p s ;;
      ts <- timestampToWrite time (m_recordStartTime s)
              (AVStream.time_base videoStream) ;;
      Some (call (av_write_frame
                    {| data := EncodedFrame.m_payloadData encodedAudioFrame;
                       size := EncodedFrame.m_payloadSize encodedAudioFrame;
                       pts := ts;
                       stream_index := 1 |}) s)
  end.

(** ** The writer loop *)

(** What libav and the clock answer during one step of the writer:
    whether [avio_open] and [avformat_write_header] succeed, the time base
    the muxer gives a stream when it writes the header, and what
    [gettimeofday] returns. *)
Record Answers := {
  avio_open_ok : bool;
  write_header_ok : bool;
  header_time_base : AVStream.t -> AVRational;
  now : timeval
}.

(** Case Context_EMPTY of the switch in [recordLoop].  The case is one
    step of the writer.  What it reads of the members that other threads
    write, the two stream pointers and the AVFMT_NOFILE bit of the
    format's flags, does not change once both streams exist, and what it
    writes, [m_status], is written last: a step that another thread takes
    while the writer is inside the case has the effect it has when taken
    just before the case or just after it. *)
Definition recordLoop_empty (a : Answers) (s : MediaRecorder)
    : option MediaRecorder :=
  match m_audioStream s, m_videoStream s with
  | Some _, Some _ =>
      ctx <- m_context s ;;
      fmt <- AVFormatContext.oformat ctx ;;
      let nofile := negb (Z.land (AVOutputFormat.flags fmt) AVFMT_NOFILE =? 0) in
      if negb nofile && negb (avio_open_ok a) then
        Some (set_m_thread Returned
               (set_m_status Context_ERROR (call (avio_open false) s)))
      else
        let ctx1 := if nofile then ctx else with_pb true ctx in
        let s1 := if nofile then s else call (avio_open true) s in
        let s2 := call av_dump_format s1 in
        if write_header_ok a then
          Some (set_m_thread AtAudioDrain
                 (set_m_status Context_READY
                   (set_m_context
                      (Some (with_time_bases (header_time_base a) ctx1))
                      (call (avformat_write_header true) s2))))
        else
          Some (set_m_thread Returned
                 (set_m_status Context_ERROR
                   (set_m_context (Some ctx1)
                      (call (avformat_write_header false) s2))))
  | _, _ => Some (set_m_thread AtWhile s)
  end.

(** One step of the thread that runs [MediaRecorder::recordLoop]: from one
    test or queue access of the loop to the next. *)
Definition recordLoop_step (a : Answers) (s : MediaRecorder)
    : option MediaRecorder :=
  match m_thread s with
  | AtWhile =>
      Some (set_m_thread (if m_muxing s then AtSwitch else Returned) s)
  | AtSwitch =>
      match m_status s with
      | Context_EMPTY => Some (set_m_thread AtEmptyCase s)
      | Context_READY => Some (set_m_thread AtAudioDrain s)
      | Context_ERROR => Some (set_m_thread Returned s)
      end
  | AtEmptyCase => recordLoop_empty a s
  | AtAudioDrain =>
      match MediaFrameQueue.popFrame (m_audioQueue s) with
      | (Some mediaFrame, q) =>
          writeAudioFrame (now a) mediaFrame (set_m_audioQueue q s)
      | (None, _) => Some (set_m_thread AtVideoDrain s)
      end
  | AtVideoDrain =>
      match MediaFrameQueue.popFrame (m_videoQueue s) with
      | (Some mediaFrame, q) =>
          writeVideoFrame (now a) mediaFrame (set_m_videoQueue q s)
      | (None, _) => Some (set_m_thread AtWhile s)
      end
  | Returned => Some s
  end.

(** ** Closing *)

(** [MediaRecorder::close] up to the join: [m_muxing = false], after which
    the caller waits in [m_thread.join()]. *)
Definition close_enter (s : MediaRecorder) : MediaRecorder :=
  set_owner InJoin (set_m_muxing false s).

(** [if (stream && stream->codec != NULL) avcodec_close(stream->codec);]
    A stream made by [avformat_new_stream] has a codec context. *)
Definition close_codec (stream : option nat) (s : MediaRecorder)
    : option MediaRecorder :=
  match stream with
  | None => Some s
  | Some p =>
      st <- stream_at p s ;;
      Some (call (avcodec_close (AVStream.index st)) s)
  end.

(** [MediaRecorder::close] after the join. *)
Definition close_finalize (s : MediaRecorder) : option MediaRecorder :=
  let s1 :=
    match m_audioStream s, m_videoStream s, m_context s with
    | Some _, Some _, Some _ => call av_write_trailer s
    | _, _, _ => s
    end in
  s2 <- close_codec (m_videoStream s1) s1 ;;
  s3 <- close_codec (m_audioStream s2) s2 ;;
  match m_context s3 with
  | None => Some s3
  | Some ctx =>
      fmt <- AVFormatContext.oformat ctx ;;
      let s4 :=
        if Z.land (AVOutputFormat.flags fmt) AVFMT_NOFILE =? 0
        then call avio_close s3 else s3 in
      Some (set_m_context None (call avformat_free_context s4))
  end.

(** ** Executions *)

Inductive Event :=
| OnFrame (thread : Z) (frame : Frame.t)
    (* a producer thread calls onFrame and reaches the case of the switch *)
| ProducerStep (thread : Z) (new_stream_ok : bool)
    (* the call of onFrame on that thread goes on by one access;
       [new_stream_ok] is what avformat_new_stream answers, if asked *)
| WriterStep (a : Answers)
    (* the writer thread takes one step *)
| Close
    (* the owner calls close() and reaches the join *)
| JoinReturns
    (* the join returns and close() runs to its end *)
| Destroy.
    (* the owner runs the destructor *)

(** An event that a thread cannot take where it stands leaves the state
    as it is: a thread inside [onFrame] does not call it again, a thread
    outside has no step to take, and the join returns only when the writer
    has. *)
Definition step (e : Event) (s : MediaRecorder) : option MediaRecorder :=
  match e with
  | OnFrame thread frame =>
      match producer_pc thread (m_producers s) with
      | Some _ => Some s
      | None => Some (onFrame thread frame s)
      end
  | ProducerStep thread new_stream_ok =>
      match producer_pc thread (m_producers s) with
      | Some pc => onFrame_step thread pc new_stream_ok s
      | None => Some s
      end
  | WriterStep a => recordLoop_step a s
  | Close =>
      match owner s with
      | Outside => Some (close_enter s)
      | InJoin => Some s
      end
  | JoinReturns =>
      match owner s, m_thread s with
      | InJoin, Returned =>
          s1 <- close_finalize s ;; Some (set_owner Outside s1)
      | _, _ => Some s
      end
  | Destroy =>
      match owner s with
      | Outside => if m_muxing s then Some (close_enter s) else Some s
      | InJoin => Some s
      end
  end.

Fixpoint run (events : list Event) (s : MediaRecorder)
    : option MediaRecorder :=
  match events with
  | [] => Some s
  | e :: rest => s1 <- step e s ;; run rest s1
  end.

(** A whole call of [onFrame] on one thread with nothing in between: the
    entry and as many steps as the longest path through the call has. *)
Definition delivery (thread : Z) (frame : Frame.t) (new_stream_ok : bool)
    : list Event :=
  [ OnFrame thread frame;
    ProducerStep thread new_stream_ok; ProducerStep thread new_stream_ok;
    ProducerStep thread new_stream_ok; ProducerStep thread new_stream_ok ].

(** ** Reading the call log *)

Definition is_header (c : LibCall) : bool :=
  match c with
  | avformat_write_header _ => true
  | _ => false
  end.

Definition is_trailer (c : LibCall) : bool :=
  match c with
  | av_write_trailer => true
  | _ => false
  end.

Definition is_free (c : LibCall) : bool :=
  match c with
  | avformat_free_context => true
  | _ => false
  end.

Definition is_new_stream (c : LibCall) : bool :=
  match c with
  | avformat_new_stream _ => true
  | _ => false
  end.

(** How many calls of a kind the log holds. *)
Definition count (kind : LibCall -> bool) (log : list LibCall) : nat :=
  List.length (filter kind log).

Definition header_writes : list LibCall -> nat := count is_header.
Definition trailer_writes : list LibCall -> nat := count is_trailer.
Definition context_frees : list LibCall -> nat := count is_free.

(** The packets handed to [av_write_frame], oldest first. *)
Fixpoint packets (log : list LibCall) : list AVPacket :=
  match log with
  | [] => []
  | av_write_frame pkt :: rest => pkt :: packets rest
  | _ :: rest => packets rest
  end.

(** The frame a queue entry was made from, and the frame a packet carries. *)
Definition encode (frame : Frame.t) : EncodedFrame.t :=
  {| EncodedFrame.m_payloadData := Frame.payload frame;
     EncodedFrame.m_payloadSize := Frame.length frame;
     EncodedFrame.m_timeStamp := Frame.timeStamp frame |}.

(** A state the constructor can return. *)
Definition initial (s : MediaRecorder) : Prop :=
  exists recordUrl snapshotInterval time alloc_ok guess,
    s = MediaRecorder_new recordUrl snapshotInterval time alloc_ok guess.

(** A state some execution of a constructed recorder passes through. *)
Definition reachable (s : MediaRecorder) : Prop :=
  exists s0 events, initial s0 /\ run events s0 = Some s.

(** ** The invariant of the recorder *)

(** The writer stands in one of the two drain loops of [recordLoop]. *)
Definition in_drain (s : MediaRecorder) : bool :=
  match m_thread s with
  | AtAudioDrain | AtVideoDrain => true
  | _ => false
  end.

(** A call of [onFrame] that has seen [m_videoStream] non-null. *)
Definition saw_video (pc : ProducerPc) : bool :=
  match pc with
  | AtAudioTestAudio _ | AtAddAudio _ => true
  | _ => false
  end.

(** While the context is there, a stream pointer points to a stream of
    the context, of the right kind, whose index is its position. *)
Definition points_to (kind : AVMediaType) (pointer : option nat)
    (s : MediaRecorder) : Prop :=
  forall p ctx,
    pointer = Some p -> m_context s = Some ctx ->
    exists stream,
      nth_error (AVFormatContext.streams ctx) p = Some stream /\
      AVStream.index stream = Z.of_nat p /\
      AVCodecContext.codec_type (AVStream.codec stream) = kind.

Record Inv (s : MediaRecorder) : Prop := {
  inv_audio_after_video :
    m_audioStream s <> None -> m_videoStream s <> None;
  inv_producers :
    Forall (fun entry => saw_video (snd entry) = true ->
                         m_videoStream s <> None) (m_producers s);
  inv_ready_streams :
    m_status s = Context_READY ->
    m_audioStream s <> None /\ m_videoStream s <> None;
  inv_drain :
    in_drain s = true ->
    m_audioStream s <> None /\ m_videoStream s <> None /\
    In (avformat_write_header true) (calls s);
  inv_empty_case :
    m_thread s = AtEmptyCase ->
    m_status s <> Context_READY /\ header_writes (calls s) = 0%nat;
  inv_context_live :
    m_thread s <> Returned ->
    exists ctx fmt,
      m_context s = Some ctx /\ AVFormatContext.oformat ctx = Some fmt;
  inv_video_pointer : points_to AVMEDIA_TYPE_VIDEO (m_videoStream s) s;
  inv_audio_pointer : points_to AVMEDIA_TYPE_AUDIO (m_audioStream s) s;
  inv_header :
    match m_status s with
    | Context_EMPTY => header_writes (calls s) = 0%nat
    | Context_READY =>
        header_writes (calls s) = 1%nat /\
        In (avformat_write_header true) (calls s)
    | Context_ERROR => (header_writes (calls s) <= 1)%nat
    end;
  inv_finalized :
    match m_context s with
    | Some _ =>
        trailer_writes (calls s) = 0%nat /\ context_frees (calls s) = 0%nat
    | None =>
        (trailer_writes (calls s) <= 1)%nat /\
        (context_frees (calls s) <= 1)%nat /\
        (trailer_writes (calls s) <= context_frees (calls s))%nat /\
        (m_videoStream s <> None -> m_audioStream s <> None ->
         trailer_writes (calls s) = 1%nat /\
         context_frees (calls s) = 1%nat)
    end;
  inv_join_muxing :
    owner s = InJoin -> m_muxing s = false
}.

(** ** Arrivals and drains *)

(** Whether an event is a call of [onFrame] with a video frame. *)
Definition is_video_arrival (e : Event) : bool :=
  match e with
  | OnFrame _ frame =>
      match Frame.format frame with
      | FRAME_FORMAT_VP8 => true
      | _ => false
      end
  | _ => false
  end.

(** The frame an event hands to [m_audioQueue->pushFrame]: the event is a
    step of a producer that stands before the push. *)
Definition audio_push (e : Event) (s : MediaRecorder) : list EncodedFrame.t :=
  match e with
  | ProducerStep thread _ =>
      match producer_pc thread (m_producers s) with
      | Some (AtPushAudio frame) => [encode frame]
      | _ => []
      end
  | _ => []
  end.

Definition video_push (e : Event) (s : MediaRecorder) : list EncodedFrame.t :=
  match e with
  | ProducerStep thread _ =>
      match producer_pc thread (m_producers s) with
      | Some (AtPushVideo frame) => [encode frame]
      | _ => []
      end
  | _ => []
  end.

(** The audio frames that arrive at the queue while [events] run from
    [s], in their order of arrival. *)
Fixpoint audio_arrivals (events : list Event) (s : MediaRecorder)
    : list EncodedFrame.t :=
  match events with
  | [] => []
  | e :: rest =>
      audio_push e s
      ++ match step e s with
         | Some s1 => audio_arrivals rest s1
         | None => []
         end
  end.

Fixpoint video_arrivals (events : list Event) (s : MediaRecorder)
    : list EncodedFrame.t :=
  match events with
  | [] => []
  | e :: rest =>
      video_push e s
      ++ match step e s with
         | Some s1 => video_arrivals rest s1
         | None => []
         end
  end.

(** Payload and length of a queue entry, and of a packet. *)
Definition queued_frame (f : EncodedFrame.t) : list Z * Z :=
  (EncodedFrame.m_payloadData f, EncodedFrame.m_payloadSize f).

Definition packet_frame (p : AVPacket) : list Z * Z := (data p, size p).


(** The video time base the write paths read in state [s], if the read
    succeeds. *)
Definition video_time_base (s : MediaRecorder) : option AVRational :=
  p <- m_videoStream s ;;
  videoStream <- stream_at p s ;;
  Some (AVStream.time_base videoStream).

(** The packet both write paths build for a queue entry: its payload, and
    the time since the start of the recording divided by [divisor]. *)
Definition packet_at (time : timeval) (start : Z) (divisor : Z) (index : Z)
    (f : EncodedFrame.t) : AVPacket :=
  {| data := EncodedFrame.m_payloadData f;
     size := EncodedFrame.m_payloadSize f;
     pts := Z.quot (wrap64 (milliseconds time - start)) divisor;
     stream_index := index |}.

(** Following the spec's words: a time in milliseconds "scaled into the
    track's time base", that is, counted in units of [num / den] seconds. *)
Definition rescale_ms (ms : Z) (time_base : AVRational) : Z :=
  Z.quot (ms * den time_base) (1000 * num time_base).

(** ** Concrete sessions *)

Definition file_format : AVOutputFormat.t :=
  {| AVOutputFormat.flags := AVFMT_GLOBALHEADER;
     AVOutputFormat.video_codec := None |}.

Definition start_time : timeval := {| tv_sec := 1446000000; tv_usec := 0 |}.

Definition recorder0 : MediaRecorder :=
  MediaRecorder_new "/tmp/room.mkv" 0 start_time true (Some file_format).

Definition video_frame (n : Z) : Frame.t :=
  {| Frame.format := FRAME_FORMAT_VP8;
     Frame.payload := [n];
     Frame.length := 1;
     Frame.timeStamp := 90000 + n;
     Frame.video := {| Frame.width := 640; Frame.height := 480 |};
     Frame.audio := {| Frame.channels := 0; Frame.sampleRate := 0 |} |}.

Definition audio_frame (n : Z) : Frame.t :=
  {| Frame.format := FRAME_FORMAT_PCMU;
     Frame.payload := [n];
     Frame.length := 1;
     Frame.timeStamp := 8000 + n;
     Frame.video := {| Frame.width := 0; Frame.height := 0 |};
     Frame.audio := {| Frame.channels := 1; Frame.sampleRate := 8000 |} |}.

(** A muxer that counts every stream in milliseconds, as the Matroska
    muxer does. *)
Definition millisecond_muxer (stream : AVStream.t) : AVRational :=
  {| num := 1; den := 1000 |}.

(** A muxer that counts every stream in units of 1/90000 s, as the
    MPEG transport stream muxer does. *)
Definition mpegts_muxer (stream : AVStream.t) : AVRational :=
  {| num := 1; den := 90000 |}.

(** A muxer whose header write leaves a stream the time base the recorder
    set on it, as the AVI muxer does for these two streams: it takes the
    frame rate of the video codec and the sample rate of PCM audio. *)
Definition keeping_muxer (stream : AVStream.t) : AVRational :=
  AVStream.time_base stream.

(** What the writer is answered [ms] milliseconds after [start_time]. *)
Definition answers (muxer : AVStream.t -> AVRational) (ms : Z)
    (open_ok header_ok : bool) : Answers :=
  {| avio_open_ok := open_ok;
     write_header_ok := header_ok;
     header_time_base := muxer;
     now := {| tv_sec := 1446000000 + Z.quot ms 1000;
               tv_usec := Z.rem ms 1000 * 1000 |} |}.

(** A writer step [ms] milliseconds after [start_time], with the
    millisecond muxer. *)
Definition tick (ms : Z) (open_ok header_ok : bool) : Event :=
  WriterStep (answers millisecond_muxer ms open_ok header_ok).

(** Three video frames, then one audio frame, each call of [onFrame]
    finished before the next starts; then the writer runs one whole
    iteration. *)
Definition video_first_session : list Event :=
  delivery 1 (video_frame 1) true ++ delivery 1 (video_frame 2) true
  ++ delivery 1 (video_frame 3) true ++ delivery 2 (audio_frame 4) true
  ++ [ tick 100 true true; tick 100 true true; tick 100 true true;
       tick 1000 true true; tick 1001 true true;
       tick 1002 true true; tick 1035 true true; tick 1070 true true;
       tick 1071 true true ].

(** Only audio arrives; the session is closed after five seconds. *)
Definition audio_only_session : list Event :=
  delivery 2 (audio_frame 1) true
  ++ [ tick 1 true true; tick 2 true true; tick 3 true true ]
  ++ delivery 2 (audio_frame 2) true
  ++ [ tick 4 true true;
       Close; tick 5000 true true; tick 5001 true true; tick 5002 true true;
       JoinReturns ].

(** Both tracks exist and the header write fails. *)
Definition header_failure_session : list Event :=
  delivery 1 (video_frame 1) true ++ delivery 2 (audio_frame 2) true
  ++ [ tick 1 true true; tick 2 true true; tick 3 true false ].

(** Both tracks exist, and close() is called before the writer has looked
    at them. *)
Definition early_close_session : list Event :=
  delivery 1 (video_frame 1) true ++ delivery 2 (audio_frame 2) true
  ++ [ Close; tick 1 true true; JoinReturns ].

(** The writer has written the header and stands before the audio drain. *)
Definition ready_session : list Event :=
  delivery 1 (video_frame 1) true ++ delivery 1 (video_frame 2) true
  ++ delivery 1 (video_frame 3) true ++ delivery 2 (audio_frame 4) true
  ++ [ tick 100 true true; tick 100 true true; tick 100 true true ].

(** A whole recording: frames, one iteration of the writer, close(). *)
Definition closed_session : list Event :=
  video_first_session ++ [Close; tick 2000 true true; JoinReturns].

(** The state a session ends in ([recorder0] if it does not survive). *)
Definition final_state (events : list Event) : MediaRecorder :=
  match run events recorder0 with
  | Some s => s
  | None => recorder0
  end.

(** ** Further notions *)

(** A call of [onFrame] that has found no video stream: it carries an
    audio frame and stands before the test of [m_videoStream] or before
    the push. *)
Definition waiting_pc (pc : ProducerPc) : bool :=
  match pc with
  | AtAudioTestVideo _ | AtPushAudio _ => true
  | _ => false
  end.

(** No track exists yet and the writer is still waiting for both. *)
Record Waiting (s : MediaRecorder) : Prop := {
  wt_status : m_status s = Context_EMPTY;
  wt_video : m_videoStream s = None;
  wt_audio : m_audioStream s = None;
  wt_thread : in_drain s = false;
  wt_context :
    forall ctx, m_context s = Some ctx -> AVFormatContext.oformat ctx <> None;
  wt_calls : count is_new_stream (calls s) = 0%nat;
  wt_producers :
    Forall (fun entry => waiting_pc (snd entry) = true) (m_producers s)
}.

(** The writer has returned in state Error. *)
Definition halted (s : MediaRecorder) : Prop :=
  m_thread s = Returned /\ m_status s = Context_ERROR.

(** Two producers have both found [m_videoStream] null before either has
    called [addVideoStream]; the first one goes on and an audio frame
    arrives. *)
Definition overlapping_video_calls : list Event :=
  [ OnFrame 1 (video_frame 1); ProducerStep 1 true;
    OnFrame 3 (video_frame 2); ProducerStep 3 true;
    ProducerStep 1 true; ProducerStep 1 true ]
  ++ delivery 2 (audio_frame 3) true.

(** After [overlapping_video_calls] the writer writes the header, and then
    [avformat_new_stream] fails for the second producer. *)
Definition late_failure_session : list Event :=
  overlapping_video_calls
  ++ [ tick 1 true true; tick 2 true true; tick 3 true true;
       ProducerStep 3 false ].

(** After [overlapping_video_calls] the writer gets to the Empty case of
    its switch, and [avformat_new_stream] fails for the second producer
    before the writer writes the header. *)
Definition failure_before_header_session : list Event :=
  overlapping_video_calls
  ++ [ tick 1 true true; tick 2 true true; ProducerStep 3 false ].


(** The time base [addVideoStream] and [addAudioStream] give a stream. *)
Definition set_time_base (stream : AVStream.t) : AVRational :=
  match AVCodecContext.codec_type (AVStream.codec stream) with
  | AVMEDIA_TYPE_VIDEO => {| num := 1; den := 30 |}
  | AVMEDIA_TYPE_AUDIO =>
      {| num := 1;
         den := AVCodecContext.sample_rate (AVStream.codec stream) |}
  end.

(** Every stream of the context has the time base the recorder gave it. *)
Definition time_bases_as_set (s : MediaRecorder) : Prop :=
  forall ctx,
    m_context s = Some ctx ->
    Forall (fun stream => AVStream.time_base stream = set_time_base stream)
      (AVFormatContext.streams ctx).

(** The audio stream the recorder points to, if the read succeeds. *)
Definition audio_stream (s : MediaRecorder) : option AVStream.t :=
  p <- m_audioStream s ;; stream_at p s.

(** The video stream the recorder points to, if the read succeeds. *)
Definition video_stream (s : MediaRecorder) : option AVStream.t :=
  p <- m_videoStream s ;; stream_at p s.

(** A format that has no flag set, and a recorder that writes an AVI
    file. *)
Definition plain_format : AVOutputFormat.t :=
  {| AVOutputFormat.flags := 0; AVOutputFormat.video_codec := None |}.

Definition avi_recorder : MediaRecorder :=
  MediaRecorder_new "/tmp/room.avi" 0 start_time true (Some plain_format).

(** A video and an audio frame, written one second into the recording,
    with the time bases [muxer] gives the streams. *)
Definition one_second_session (muxer : AVStream.t -> AVRational)
    : list Event :=
  delivery 1 (video_frame 1) true ++ delivery 2 (audio_frame 2) true
  ++ [ WriterStep (answers muxer 1 true true);
       WriterStep (answers muxer 2 true true);
       WriterStep (answers muxer 3 true true);
       WriterStep (answers muxer 1000 true true);
       WriterStep (answers muxer 1000 true true);
       WriterStep (answers muxer 1000 true true) ].

(** The writes of one drain loop when no frame arrives: the frames of the
    queue, each written at the clock reading of its own step. *)
Fixpoint write_each (index : Z) (start divisor : Z) (ws : list Answers)
    (fs : list EncodedFrame.t) : list LibCall :=
  match ws, fs with
  | w :: ws', f :: fs' =>
      av_write_frame (packet_at (now w) start divisor index f)
      :: write_each index start divisor ws' fs'
  | _, _ => []
  end.

(** The denominator of the video time base, as the write paths would read
    it, is between 1 and 1000, so that [1000 / den] is not zero. *)
Definition divisor_ok (s : MediaRecorder) : bool :=
  match video_time_base s with
  | Some tb => (1 <=? den tb) && (den tb <=? 1000)
  | None => true
  end.

(** The muxer of this answer gives every stream such a denominator. *)
Definition answer_ok (a : Answers) : Prop :=
  forall stream, 1 <= den (header_time_base a stream) <= 1000.

(** An upper bound on the writer steps left before [recordLoop] returns,
    once the stop flag is down and no frame arrives. *)
Definition steps_to_return (s : MediaRecorder) : nat :=
  let qa := List.length (MediaFrameQueue.m_queue (m_audioQueue s)) in
  let qv := List.length (MediaFrameQueue.m_queue (m_videoQueue s)) in
  match m_thread s with
  | Returned => 0
  | AtWhile => 1
  | AtVideoDrain => qv + 2
  | AtAudioDrain => qa + qv + 3
  | AtEmptyCase => qa + qv + 4
  | AtSwitch => qa + qv + 5
  end.

Definition context_live (s : MediaRecorder) : Prop :=
  exists ctx fmt,
    m_context s = Some ctx /\ AVFormatContext.oformat ctx = Some fmt.

(** What the drain loops leave alone: every member but the queues, and
    the position of every thread but the writer. *)
Definition same_session (s s1 : MediaRecorder) : Prop :=
  m_status s1 = m_status s /\ m_muxing s1 = m_muxing s /\
  m_videoStream s1 = m_videoStream s /\ m_audioStream s1 = m_audioStream s /\
  m_context s1 = m_context s /\
  m_recordStartTime s1 = m_recordStartTime s /\
  m_producers s1 = m_producers s /\ owner s1 = owner s.

(** A clock reading [gettimeofday] can return in practice. *)
Definition clock_range (t : timeval) : Prop :=
  0 <= tv_sec t < 2 ^ 40 /\ 0 <= tv_usec t < 1000000.

(** The two reasons for which [recordLoop] returns. *)
Definition stopped_or_failed (s : MediaRecorder) : Prop :=
  m_muxing s = false \/ m_status s = Context_ERROR.

(** Whether an event is a call of [onFrame] with a frame that is neither
    VP8 nor PCMU. *)
Definition is_other_arrival (e : Event) : bool :=
  match e with
  | OnFrame _ frame =>
      match Frame.format frame with
      | FRAME_FORMAT_OTHER _ => true
      | _ => false
      end
  | _ => false
  end.

(** The packets of one track, oldest first. *)
Definition track_packets (index : Z) (log : list LibCall) : list AVPacket :=
  filter (fun p => stream_index p =? index) (packets log).

(** Every packet in the log comes after a successful header write. *)
Definition header_first (log : list LibCall) : Prop :=
  forall pre pkt post,
    log = pre ++ av_write_frame pkt :: post ->
    In (avformat_write_header true) pre.

(** Where a call of [onFrame] can stand in a recorder that has no video
    stream and cannot make one. *)
Definition stillborn_pc (pc : ProducerPc) : bool :=
  match pc with
  | AtVideoTest _ | AtAddVideo _ | AtAudioTestVideo _ | AtPushAudio _ => true
  | _ => false
  end.

(** A recorder whose [init] failed: no writer runs and there is no usable
    context. *)
Record Stillborn (s : MediaRecorder) : Prop := {
  sb_status : m_status s = Context_EMPTY;
  sb_video : m_videoStream s = None;
  sb_audio : m_audioStream s = None;
  sb_thread : m_thread s = Returned;
  sb_context :
    forall ctx, m_context s = Some ctx -> AVFormatContext.oformat ctx = None;
  sb_queue : MediaFrameQueue.m_queue (m_videoQueue s) = [];
  sb_producers :
    Forall (fun entry => stillborn_pc (snd entry) = true) (m_producers s)
}.

Definition is_avio (c : LibCall) : bool :=
  match c with
  | avio_open _ | avio_close => true
  | _ => false
  end.

(** The context's format still answers the AVFMT_NOFILE test as the
    guessed format [fmt0] did. *)
Definition same_nofile (fmt0 : AVOutputFormat.t) (s : MediaRecorder) : Prop :=
  forall ctx f,
    m_context s = Some ctx -> AVFormatContext.oformat ctx = Some f ->
    Z.land (AVOutputFormat.flags f) AVFMT_NOFILE
    = Z.land (AVOutputFormat.flags fmt0) AVFMT_NOFILE.

(** Every header write in the log comes after a successful [avio_open]. *)
Definition opened_first (log : list LibCall) : Prop :=
  forall pre ok post,
    log = pre ++ avformat_write_header ok :: post ->
    In (avio_open true) pre.

(** The flags of the stream codecs and of the context's format, for a
    recorder whose [init] guessed the format [fmt0]. *)
Record Flagged (fmt0 : AVOutputFormat.t) (s : MediaRecorder) : Prop := {
  fl_streams :
    forall ctx, m_context s = Some ctx ->
      Forall (fun stream =>
                AVCodecContext.flags (AVStream.codec stream)
                = codec_flags fmt0)
        (AVFormatContext.streams ctx);
  fl_format :
    forall ctx f,
      m_context s = Some ctx -> AVFormatContext.oformat ctx = Some f ->
      AVOutputFormat.flags f
      = match m_videoStream s with
        | Some _ => Z.lor (AVOutputFormat.flags fmt0) AVFMT_VARIABLE_FPS
        | None => AVOutputFormat.flags fmt0
        end
}.

(** A call of [onFrame] that is past the track registration and has only
    the push left. *)
Definition past_add (pc : ProducerPc) : bool :=
  match pc with
  | AtPushVideo _ | AtPushAudio _ => true
  | _ => false
  end.

(** The state is Error, a track is missing, and no call of [onFrame] that
    could still register one is under way. *)
Record NoTrack (s : MediaRecorder) : Prop := {
  nt_status : m_status s = Context_ERROR;
  nt_stream : m_videoStream s = None \/ m_audioStream s = None;
  nt_producers :
    Forall (fun entry => past_add (snd entry) = true) (m_producers s)
}.

(** The state is Error and the writer is where it reads the state next:
    at the loop test or at the switch, or it has returned. *)
Definition failed (s : MediaRecorder) : Prop :=
  m_status s = Context_ERROR /\
  (m_thread s = AtWhile \/ m_thread s = AtSwitch \/ m_thread s = Returned).

(** The stream [addVideoStream] makes for a frame. *)
Definition made_from_video (frame : Frame.t) (stream : AVStream.t) : Prop :=
  let c := AVStream.codec stream in
  AVCodecContext.codec_id c = AV_CODEC_ID_VP8 /\
  AVCodecContext.codec_type c = AVMEDIA_TYPE_VIDEO /\
  AVCodecContext.width c = Frame.width (Frame.video frame) /\
  AVCodecContext.height c = Frame.height (Frame.video frame) /\
  AVCodecContext.pix_fmt c = Some AV_PIX_FMT_YUV420P /\
  AVCodecContext.time_base c = {| num := 1; den := 30 |} /\
  AVStream.time_base stream = {| num := 1; den := 30 |}.

(** The stream [addAudioStream] makes for a frame. *)
Definition made_from_audio (frame : Frame.t) (stream : AVStream.t) : Prop :=
  let c := AVStream.codec stream in
  AVCodecContext.codec_id c = AV_CODEC_ID_PCM_MULAW /\
  AVCodecContext.codec_type c = AVMEDIA_TYPE_AUDIO /\
  AVCodecContext.channels c = Frame.channels (Frame.audio frame) /\
  AVCodecContext.sample_rate c = Frame.sampleRate (Frame.audio frame) /\
  AVCodecContext.sample_fmt c = Some AV_SAMPLE_FMT_S16 /\
  AVStream.time_base stream
  = {| num := 1; den := Frame.sampleRate (Frame.audio frame) |}.

(** The streams of [ctx1] are those of [ctx], with their codec parameters
    and indices, followed by [extra]. *)
Definition grows (ctx ctx1 : AVFormatContext.t) (extra : list AVStream.t)
    : Prop :=
  map AVStream.codec (AVFormatContext.streams ctx1)
  = map AVStream.codec (AVFormatContext.streams ctx ++ extra) /\
  map AVStream.index (AVFormatContext.streams ctx1)
  = map AVStream.index (AVFormatContext.streams ctx ++ extra).

(** What one step does to the streams and to the two stream pointers:
    nothing, or it is the step of a call of [onFrame] in which
    [addVideoStream] or [addAudioStream] makes a stream from the frame of
    that call and points the recorder to it. *)
Inductive StreamChange (e : Event) (s s1 : MediaRecorder)
    (ctx ctx1 : AVFormatContext.t) : Prop :=
| streams_kept :
    grows ctx ctx1 [] ->
    m_videoStream s1 = m_videoStream s ->
    m_audioStream s1 = m_audioStream s ->
    StreamChange e s s1 ctx ctx1
| video_stream_made thread frame stream :
    e = ProducerStep thread true ->
    producer_pc thread (m_producers s) = Some (AtAddVideo frame) ->
    AVFormatContext.streams ctx1 = AVFormatContext.streams ctx ++ [stream] ->
    made_from_video frame stream ->
    AVStream.index stream
    = Z.of_nat (List.length (AVFormatContext.streams ctx)) ->
    m_videoStream s1 = Some (List.length (AVFormatContext.streams ctx)) ->
    m_audioStream s1 = m_audioStream s ->
    StreamChange e s s1 ctx ctx1
| audio_stream_made thread frame stream :
    e = ProducerStep thread true ->
    producer_pc thread (m_producers s) = Some (AtAddAudio frame) ->
    AVFormatContext.streams ctx1 = AVFormatContext.streams ctx ++ [stream] ->
    made_from_audio frame stream ->
    AVStream.index stream
    = Z.of_nat (List.length (AVFormatContext.streams ctx)) ->
    m_audioStream s1 = Some (List.length (AVFormatContext.streams ctx)) ->
    m_videoStream s1 = m_videoStream s ->
    StreamChange e s s1 ctx ctx1.

(** The first stream of the context, if there is one, is a video
    stream. *)
Definition first_is_video (s : MediaRecorder) : Prop :=
  forall ctx stream,
    m_context s = Some ctx ->
    nth_error (AVFormatContext.streams ctx) 0 = Some stream ->
    AVCodecContext.codec_type (AVStream.codec stream) = AVMEDIA_TYPE_VIDEO.


(** ** Further concrete inputs *)

(** The answers of writer steps one second into the recording and later,
    with the millisecond muxer. *)
Definition later (n : Z) : Answers :=
  answers millisecond_muxer (1000 + n) true true.

(** Both tracks exist and the writer stands in the Empty case of its
    switch. *)
Definition before_header : list Event :=
  delivery 1 (video_frame 1) true ++ delivery 2 (audio_frame 2) true
  ++ [ tick 1 true true; tick 2 true true ].

(** Frames arrive while the writer drains: an audio frame during the
    audio drain, a video frame during the video drain. *)
Definition busy_drain : list Event :=
  [ tick 1000 true true ] ++ delivery 2 (audio_frame 5) true
  ++ [ tick 1001 true true; tick 1002 true true ]
  ++ delivery 1 (video_frame 6) true
  ++ [ tick 1003 true true; tick 1004 true true; tick 1005 true true;
       tick 1006 true true ].

(** A format that does its own I/O, as an RTP or a null muxer does. *)
Definition nofile_format : AVOutputFormat.t :=
  {| AVOutputFormat.flags := AVFMT_NOFILE;
     AVOutputFormat.video_codec := None |}.

Definition nofile_recorder : MediaRecorder :=
  MediaRecorder_new "rtp://10.0.0.1:5004" 0 start_time true
    (Some nofile_format).

(** The state a session of [nofile_recorder] ends in. *)
Definition nofile_final_state (events : list Event) : MediaRecorder :=
  match run events nofile_recorder with
  | Some s => s
  | None => nofile_recorder
  end.

(** A recorder for which [av_guess_format] found no format. *)
Definition unguessed_recorder : MediaRecorder :=
  MediaRecorder_new "/tmp/room.xyz" 0 start_time true None.

(** A call of [onFrame] with a video frame has found no video stream and
    stands before [addVideoStream]. *)
Definition video_add_pending : list Event :=
  [ OnFrame 1 (video_frame 1); ProducerStep 1 true ].

(** The video track exists, and a call of [onFrame] with an audio frame
    stands before [addAudioStream]. *)
Definition audio_add_pending : list Event :=
  delivery 1 (video_frame 1) true
  ++ [ OnFrame 2 (audio_frame 2); ProducerStep 2 true; ProducerStep 2 true ].

(** Both tracks exist and the writer has written the header with a muxer
    that counts in units of 1/90000 s. *)
Definition mpegts_session : list Event :=
  delivery 1 (video_frame 1) true ++ delivery 2 (audio_frame 2) true
  ++ [ WriterStep (answers mpegts_muxer 1 true true);
       WriterStep (answers mpegts_muxer 2 true true);
       WriterStep (answers mpegts_muxer 3 true true) ].

(** [avformat_new_stream] fails for the first video frame; the writer is
    at its loop test. *)
Definition video_failure_session : list Event :=
  delivery 1 (video_frame 1) false.


(** ** Attaching and detaching the frame sources *)

(** The calls made on the frame dispatchers.  A dispatcher is known by its
    address; [addFrameConsumer] carries the id it returned. *)
Inductive DispatcherCall :=
| addFrameConsumer (source : Z) (name : string) (payloadType : PayloadType)
    (id : Z)
| removeFrameConsumer (source : Z) (id : Z).

(** The members [setMediaSource] and [unsetMediaSource] work on, and the
    log of dispatcher calls. *)
Record Sources := {
  m_videoSource : option Z;
  m_audioSource : option Z;
  m_videoId : Z;
  m_audioId : Z;
  dispatcher_calls : list DispatcherCall
}.

(** As the constructor leaves them. *)
Definition Sources_new : Sources :=
  {| m_videoSource := None; m_audioSource := None;
     m_videoId := -1; m_audioId := -1; dispatcher_calls := [] |}.

(** [if (source && id != -1) source->removeFrameConsumer(id);] *)
Definition remove_consumer (source : option Z) (id : Z)
    (log : list DispatcherCall) : list DispatcherCall :=
  match source with
  | Some src =>
      if negb (id =? -1) then log ++ [removeFrameConsumer src id] else log
  | None => log
  end.

(** [MediaRecorder::setMediaSource].  [videoId] and [audioId] are the ids
    the two [addFrameConsumer] calls return; calling through a null source
    does not return. *)
Definition setMediaSource (recordPath : string)
    (videoSource audioSource : option Z) (videoId audioId : Z)
    (s : Sources) : option (Sources * bool) :=
  let log1 := remove_consumer (m_videoSource s) (m_videoId s)
                (dispatcher_calls s) in
  let log2 := remove_consumer (m_audioSource s) (m_audioId s) log1 in
  v <- videoSource ;;
  let log3 := log2 ++ [addFrameConsumer v recordPath VP8_90000_PT videoId] in
  a <- audioSource ;;
  let log4 := log3 ++ [addFrameConsumer a recordPath PCMU_8000_PT audioId] in
  Some ({| m_videoSource := videoSource; m_audioSource := audioSource;
           m_videoId := videoId; m_audioId := audioId;
           dispatcher_calls := log4 |}, true).

(** [MediaRecorder::unsetMediaSource] *)
Definition unsetMediaSource (s : Sources) : Sources :=
  let log1 := remove_consumer (m_videoSource s) (m_videoId s)
                (dispatcher_calls s) in
  let log2 := remove_consumer (m_audioSource s) (m_audioId s) log1 in
  {| m_videoSource := None; m_audioSource := None;
     m_videoId := -1; m_audioId := -1; dispatcher_calls := log2 |}.

Inductive SourceOp :=
| SetMediaSource (videoSource audioSource : option Z) (videoId audioId : Z)
| UnsetMediaSource.

Definition source_step (recordPath : string) (op : SourceOp) (s : Sources)
    : option Sources :=
  match op with
  | SetMediaSource v a vid aid =>
      r <- setMediaSource recordPath v a vid aid s ;; Some (fst r)
  | UnsetMediaSource => Some (unsetMediaSource s)
  end.

Fixpoint source_run (recordPath : string) (ops : list SourceOp) (s : Sources)
    : option Sources :=
  match ops with
  | [] => Some s
  | op :: rest =>
      s1 <- source_step recordPath op s ;; source_run recordPath rest s1
  end.

(** Modelled from the spec: the frame dispatcher is not among the sources.
    The spec has [addFrameConsumer] register a consumer and return its
    handle, and [removeFrameConsumer] remove the registration with that
    handle.  The registrations a log leaves standing, as pairs of
    dispatcher and id: *)
Fixpoint remove_first (x : Z * Z) (l : list (Z * Z)) : list (Z * Z) :=
  match l with
  | [] => []
  | y :: rest =>
      if (fst x =? fst y) && (snd x =? snd y) then rest
      else y :: remove_first x rest
  end.

Definition register (acc : list (Z * Z)) (c : DispatcherCall)
    : list (Z * Z) :=
  match c with
  | addFrameConsumer src _ _ id => acc ++ [(src, id)]
  | removeFrameConsumer src id => remove_first (src, id) acc
  end.

Definition registrations (log : list DispatcherCall) : list (Z * Z) :=
  fold_left register log [].

(** The registration a pair of members stands for. *)
Definition held (source : option Z) (id : Z) : list (Z * Z) :=
  match source with
  | Some src => if negb (id =? -1) then [(src, id)] else []
  | None => []
  end.

(** A call of [setMediaSource] with two dispatchers that return ids other
    than -1. *)
Definition well_formed (op : SourceOp) : bool :=
  match op with
  | SetMediaSource (Some _) (Some _) vid aid =>
      negb (vid =? -1) && negb (aid =? -1)
  | SetMediaSource _ _ _ _ => false
  | UnsetMediaSource => true
  end.

(** The recorder is pointed at dispatchers 1 and 2, re-pointed at 3 and 2,
    released, and pointed at 1 and 2 again. *)
Definition source_ops : list SourceOp :=
  [ SetMediaSource (Some 1) (Some 2) 10 11;
    SetMediaSource (Some 3) (Some 2) 12 13;
    UnsetMediaSource; UnsetMediaSource;
    SetMediaSource (Some 1) (Some 2) 14 15 ].

(** The members after one [setMediaSource] on dispatchers 1 and 2. *)
Definition registered_sources : Sources :=
  {| m_videoSource := Some 1; m_audioSource := Some 2;
     m_videoId := 10; m_audioId := 11;
     dispatcher_calls :=
       [ addFrameConsumer 1 "/tmp/room.mkv" VP8_90000_PT 10;
         addFrameConsumer 2 "/tmp/room.mkv" PCMU_8000_PT 11 ] |}.


(** ** Basic facts about the call log *)

Lemma count_app kind l1 l2 :
  count kind (l1 ++ l2) = (count kind l1 + count kind l2)%nat.
Proof. unfold count. rewrite filter_app, length_app. reflexivity. Qed.

Lemma count_call kind l c :
  count kind (l ++ [c]) = (count kind l + if kind c then 1 else 0)%nat.
Proof.
  rewrite count_app. unfold count at 2. simpl. destruct (kind c); reflexivity.
Qed.

Lemma packets_app l1 l2 : packets (l1 ++ l2) = packets l1 ++ packets l2.
Proof.
  induction l1 as [|c l1 IH]; cbn [packets app]; [reflexivity|].
  destruct c; rewrite IH; reflexivity.
Qed.

Lemma run_app events1 : forall events2 s,
  run (events1 ++ events2) s = (s1 <- run events1 s ;; run events2 s1).
Proof.
  induction events1 as [|e rest IH]; intros events2 s; cbn [run app bind].
  - reflexivity.
  - unfold bind at 1 3. destruct (step e s); [apply IH | reflexivity].
Qed.

(** ** Producer threads *)

Lemma producer_pc_In thread pc ps :
  producer_pc thread ps = Some pc -> In (thread, pc) ps.
Proof.
  induction ps as [|[t q] rest IH]; cbn [producer_pc]; [discriminate|].
  destruct (t =? thread) eqn:E.
  - intros [= ->]. apply Z.eqb_eq in E. subst. left. reflexivity.
  - intros H. right. apply IH. exact H.
Qed.

Lemma producer_pc_leave thread t ps :
  producer_pc t (producer_leave thread ps)
  = if t =? thread then None else producer_pc t ps.
Proof.
  induction ps as [|[t' q] rest IH]; cbn [producer_pc producer_leave].
  - destruct (t =? thread); reflexivity.
  - destruct (t' =? thread) eqn:E1; cbn [producer_pc]; rewrite IH.
    + apply Z.eqb_eq in E1. subst t'.
      destruct (t =? thread) eqn:E2; [reflexivity|].
      rewrite Z.eqb_sym, E2. reflexivity.
    + destruct (t =? thread) eqn:E2; [|reflexivity].
      apply Z.eqb_eq in E2. subst t. rewrite E1. reflexivity.
Qed.

Lemma producer_pc_at thread pc t ps :
  producer_pc t (producer_at thread pc ps)
  = if t =? thread then Some pc else producer_pc t ps.
Proof.
  unfold producer_at. cbn [producer_pc]. rewrite producer_pc_leave.
  rewrite (Z.eqb_sym thread t). destruct (t =? thread); reflexivity.
Qed.

Lemma Forall_producer_leave (P : Z * ProducerPc -> Prop) thread ps :
  Forall P ps -> Forall P (producer_leave thread ps).
Proof.
  induction 1 as [|[t q] rest Hx _ IH]; cbn [producer_leave]; [constructor|].
  destruct (t =? thread); [exact IH | constructor; assumption].
Qed.

Lemma Forall_producer_at (P : Z * ProducerPc -> Prop) thread pc ps :
  P (thread, pc) -> Forall P ps -> Forall P (producer_at thread pc ps).
Proof.
  intros Hp H. constructor; [exact Hp | apply Forall_producer_leave; exact H].
Qed.

Lemma Forall_producer_pc (P : Z * ProducerPc -> Prop) thread pc ps :
  Forall P ps -> producer_pc thread ps = Some pc -> P (thread, pc).
Proof.
  intros H Hpc. rewrite Forall_forall in H. apply H.
  apply producer_pc_In. exact Hpc.
Qed.

(** ** Tactics *)

Ltac break_in H :=
  match type of H with
  | context [match ?x with _ => _ end] =>
      lazymatch x with
      | context [match _ with _ => _ end] => fail
      | _ => destruct x eqn:?
      end
  end.

Ltac some_inv :=
  repeat match goal with
  | H : Some _ = Some _ |- _ => inversion H; subst; clear H
  | H : None = Some _ |- _ => discriminate H
  | H : Some _ = None |- _ => discriminate H
  end.

Ltac rew_state :=
  repeat match goal with
  | H : m_status ?s = _ |- _ => rewrite H in *; clear H
  | H : m_videoStream ?s = _ |- _ => rewrite H in *; clear H
  | H : m_audioStream ?s = _ |- _ => rewrite H in *; clear H
  | H : m_context ?s = _ |- _ => rewrite H in *; clear H
  | H : m_thread ?s = _ |- _ => rewrite H in *; clear H
  | H : owner ?s = _ |- _ => rewrite H in *; clear H
  | H : m_muxing ?s = _ |- _ => rewrite H in *; clear H
  | H : AVFormatContext.oformat ?s = _ |- _ => rewrite H in *; clear H
  end.

Ltac fields :=
  cbn [m_status m_muxing m_videoStream m_audioStream m_context m_recordPath
       m_snapshotInterval m_recordStartTime m_videoQueue m_audioQueue
       m_thread m_producers owner calls
       set_m_status set_m_muxing set_m_videoStream set_m_audioStream
       set_m_context set_m_videoQueue set_m_audioQueue set_m_thread
       set_m_producers set_owner call set_pc leave close_enter] in *.

Ltac inv_fields :=
  unfold header_writes, trailer_writes, context_frees, in_drain in *;
  fields;
  repeat rewrite count_call in *;
  cbn [is_header is_trailer is_free] in *.

Ltac split_inv HI :=
  destruct HI as [Iav Ipr Irs Idr Iec Icl Ivp Iap Ihd Ifin Ijm].

Ltac unfold_step H :=
  unfold step, onFrame, onFrame_step, addVideoStream, addAudioStream,
    recordLoop_step, recordLoop_empty, writeAudioFrame, writeVideoFrame,
    close_finalize, close_codec, close_enter, stream_at,
    MediaFrameQueue.popFrame, bind in H.

(** ** The invariant holds in every state of every execution *)

Lemma Inv_initial s : initial s -> Inv s.
Proof.
  intros (url & si & t & a & g & ->).
  unfold MediaRecorder_new, init, MediaMuxer_status0, MediaMuxer_muxing0.
  destruct a; [destruct g|]; constructor; unfold points_to; cbn;
    try solve [intuition (congruence || eauto)].
  all: try solve [constructor].
  all: try solve [repeat split; try lia; intros H; exfalso; apply H;
                  reflexivity].
  all: intros _; do 2 eexists; split; reflexivity.
Qed.

Lemma points_to_new_stream kind pointer s ctx stream s' ctx' :
  m_context s = Some ctx ->
  m_context s' = Some ctx' ->
  AVFormatContext.streams ctx' = AVFormatContext.streams ctx ++ [stream] ->
  points_to kind pointer s -> points_to kind pointer s'.
Proof.
  intros Hc Hc' Hs H. unfold points_to in *. intros p ctx'' Hp Hctx.
  rewrite Hc' in Hctx. injection Hctx as <-.
  destruct (H p ctx Hp Hc) as (st & Hn & Hi & Hk).
  exists st. split; [|split; assumption].
  rewrite Hs, nth_error_app1; [exact Hn|].
  apply nth_error_Some. congruence.
Qed.

Lemma points_to_fresh kind ctx stream s' ctx' :
  m_context s' = Some ctx' ->
  AVFormatContext.streams ctx' = AVFormatContext.streams ctx ++ [stream] ->
  AVStream.index stream = Z.of_nat (List.length (AVFormatContext.streams ctx)) ->
  AVCodecContext.codec_type (AVStream.codec stream) = kind ->
  points_to kind (Some (List.length (AVFormatContext.streams ctx))) s'.
Proof.
  intros Hc' Hs Hi Hk. unfold points_to. intros p ctx'' Hp Hctx.
  rewrite Hc' in Hctx. injection Hctx as <-. injection Hp as <-.
  exists stream. split; [|split; assumption].
  rewrite Hs, nth_error_app2, Nat.sub_diag; [reflexivity | lia].
Qed.

Lemma points_to_same_streams kind pointer s s' :
  (forall ctx', m_context s' = Some ctx' ->
     exists ctx, m_context s = Some ctx /\
       AVFormatContext.streams ctx' = AVFormatContext.streams ctx) ->
  points_to kind pointer s -> points_to kind pointer s'.
Proof.
  intros Hs H. unfold points_to in *. intros p ctx' Hp Hctx.
  destruct (Hs ctx' Hctx) as (ctx & Hc & Heq).
  rewrite Heq. apply (H p ctx Hp Hc).
Qed.

Lemma points_to_time_bases kind pointer s ctx muxer s' ctx' :
  m_context s = Some ctx ->
  m_context s' = Some ctx' ->
  AVFormatContext.streams ctx'
  = AVFormatContext.streams (with_time_bases muxer ctx) ->
  points_to kind pointer s -> points_to kind pointer s'.
Proof.
  intros Hc Hc' Hs H. unfold points_to in *. intros p ctx'' Hp Hctx.
  rewrite Hc' in Hctx. injection Hctx as <-.
  destruct (H p ctx Hp Hc) as (st & Hn & Hi & Hk).
  rewrite Hs. cbn [with_time_bases AVFormatContext.streams].
  rewrite nth_error_map, Hn. cbn [option_map].
  eexists. split; [reflexivity|]. cbn. split; assumption.
Qed.

Lemma Inv_ext s s' :
  Inv s ->
  m_status s' = m_status s -> m_muxing s' = m_muxing s ->
  m_videoStream s' = m_videoStream s -> m_audioStream s' = m_audioStream s ->
  m_context s' = m_context s -> m_thread s' = m_thread s ->
  owner s' = owner s -> calls s' = calls s ->
  Forall (fun entry => saw_video (snd entry) = true ->
                       m_videoStream s <> None) (m_producers s') ->
  Inv s'.
Proof.
  intros HI Hst Hm Hv Ha Hc Ht Ho Hl Hp. split_inv HI.
  constructor; unfold in_drain, points_to in *;
    rewrite ?Hst, ?Hm, ?Hv, ?Ha, ?Hc, ?Ht, ?Ho, ?Hl; assumption.
Qed.

Lemma onFrame_Inv thread frame s : Inv s -> Inv (onFrame thread frame s).
Proof.
  intros HI. unfold onFrame.
  destruct (m_status s); try exact HI;
  destruct (Frame.format frame); try exact HI;
  (apply (Inv_ext s); try reflexivity; try exact HI;
   apply Forall_producer_at; [cbn; discriminate | apply (inv_producers _ HI)]).
Qed.

Lemma producers_video s (P : option nat) ps :
  (m_videoStream s <> None -> P <> None) ->
  Forall (fun entry : Z * ProducerPc =>
            saw_video (snd entry) = true -> m_videoStream s <> None) ps ->
  Forall (fun entry : Z * ProducerPc =>
            saw_video (snd entry) = true -> P <> None) ps.
Proof.
  intros H. apply Forall_impl. intros entry Hx Hs. apply H, Hx, Hs.
Qed.

Ltac solve_pointer :=
  first
  [ eapply points_to_fresh;
      [fields; reflexivity | reflexivity | reflexivity | reflexivity]
  | eapply points_to_new_stream;
      [eassumption | fields; reflexivity | reflexivity | assumption]
  | eapply points_to_time_bases;
      [eassumption | fields; reflexivity | reflexivity | assumption]
  | eapply points_to_same_streams; [|eassumption];
    fields; intros ? Hctx'; injection Hctx' as <-;
    eexists; split; [eassumption | reflexivity] ].

Lemma addVideoStream_Inv codec_id width height ok s s1 :
  Inv s -> addVideoStream codec_id width height ok s = Some s1 -> Inv s1.
Proof.
  intros HI H. unfold addVideoStream, bind in H.
  destruct (m_context s) as [ctx|] eqn:Hc; [|discriminate].
  destruct (AVFormatContext.oformat ctx) as [fmt|] eqn:Hf; [|discriminate].
  split_inv HI. rewrite Hc in Ifin.
  destruct ok; some_inv; constructor; inv_fields;
    try solve [intuition (congruence || lia)].
  all: try solve [intros; do 2 eexists; split; reflexivity].
  all: try solve [revert Ipr; apply Forall_impl; intros; discriminate].
  all: try solve [solve_pointer].
  all: try solve [destruct (m_status s); rewrite ?in_app_iff; cbn;
                  intuition (congruence || lia)].
  all: try solve [intros Hd; destruct (Idr Hd) as (A & B & C);
                  repeat split; try congruence; try assumption;
                  rewrite in_app_iff; left; assumption].
  all: try solve [intros Hd; destruct (Iec Hd); split; [assumption | lia]].
  all: try solve [intros Hd; destruct (Irs Hd); split; congruence].
Qed.

Lemma addAudioStream_Inv codec_id channels rate ok s s1 :
  Inv s -> m_videoStream s <> None ->
  addAudioStream codec_id channels rate ok s = Some s1 -> Inv s1.
Proof.
  intros HI Hvideo H. unfold addAudioStream, bind in H.
  destruct (m_context s) as [ctx|] eqn:Hc; [|discriminate].
  split_inv HI. rewrite Hc in Ifin, Icl.
  destruct ok; [destruct (AVFormatContext.oformat ctx) eqn:Hf; [|discriminate]|];
    some_inv; constructor; inv_fields; rewrite ?Hc;
    try solve [intuition (congruence || lia)].
  all: try solve [intros; do 2 eexists; split; [reflexivity | eassumption]].
  all: try solve [solve_pointer].
  all: try solve [destruct (m_status s); rewrite ?in_app_iff; cbn;
                  intuition (congruence || lia)].
  all: try solve [intros Hd; destruct (Idr Hd) as (A & B & C);
                  repeat split; try congruence; try assumption;
                  rewrite in_app_iff; left; assumption].
  all: try solve [intros Hd; destruct (Iec Hd); split; [assumption | lia]].
  all: try solve [intros Hd; destruct (Irs Hd); split; congruence].
Qed.

Lemma Inv_set_pc thread pc s :
  Inv s -> (saw_video pc = true -> m_videoStream s <> None) ->
  Inv (set_pc thread pc s).
Proof.
  intros HI Hp. apply (Inv_ext s); try reflexivity; try exact HI.
  apply Forall_producer_at; [exact Hp | apply (inv_producers _ HI)].
Qed.

Lemma Inv_leave thread s : Inv s -> Inv (leave thread s).
Proof.
  intros HI. apply (Inv_ext s); try reflexivity; try exact HI.
  apply Forall_producer_leave, (inv_producers _ HI).
Qed.

Lemma Inv_set_videoQueue q s : Inv s -> Inv (set_m_videoQueue q s).
Proof.
  intros HI. apply (Inv_ext s); try reflexivity; try exact HI.
  apply (inv_producers _ HI).
Qed.

Lemma Inv_set_audioQueue q s : Inv s -> Inv (set_m_audioQueue q s).
Proof.
  intros HI. apply (Inv_ext s); try reflexivity; try exact HI.
  apply (inv_producers _ HI).
Qed.

Lemma onFrame_step_Inv thread pc ok s s' :
  Inv s -> producer_pc thread (m_producers s) = Some pc ->
  onFrame_step thread pc ok s = Some s' -> Inv s'.
Proof.
  intros HI Hpc H.
  pose proof (Forall_producer_pc _ _ _ _ (inv_producers _ HI) Hpc) as Hsaw.
  cbn [snd] in Hsaw.
  destruct pc; cbn [onFrame_step saw_video] in H, Hsaw.
  - destruct (m_videoStream s); some_inv; apply Inv_set_pc;
      try assumption; discriminate.
  - unfold bind in H.
    destruct (addVideoStream _ _ _ ok s) as [s1|] eqn:Ha; [|discriminate].
    some_inv. apply Inv_set_pc; [|discriminate].
    eapply addVideoStream_Inv; eassumption.
  - some_inv. apply Inv_leave, Inv_set_videoQueue, HI.
  - destruct (m_videoStream s) eqn:Hv; some_inv; apply Inv_set_pc;
      try assumption; try discriminate; intros _; congruence.
  - destruct (m_audioStream s); some_inv; apply Inv_set_pc;
      try assumption; try discriminate; intros _; apply Hsaw; reflexivity.
  - unfold bind in H.
    destruct (addAudioStream _ _ _ ok s) as [s1|] eqn:Ha; [|discriminate].
    some_inv. apply Inv_set_pc; [|discriminate].
    eapply addAudioStream_Inv; [exact HI | apply Hsaw; reflexivity | exact Ha].
  - some_inv. apply Inv_leave, Inv_set_audioQueue, HI.
Qed.

Lemma Inv_write_frame pkt s :
  Inv s -> in_drain s = true -> Inv (call (av_write_frame pkt) s).
Proof.
  intros HI Hd. split_inv HI.
  constructor; inv_fields; try assumption.
  - intros _. destruct (Idr Hd) as (A & B & C). repeat split; try assumption.
    rewrite in_app_iff. left. exact C.
  - intros Ht. rewrite Ht in Hd. discriminate.
  - destruct (m_status s); rewrite ?in_app_iff; intuition lia.
  - destruct (m_context s); intuition lia.
Qed.

Lemma recordLoop_empty_Inv a s s' :
  Inv s -> m_thread s = AtEmptyCase -> recordLoop_empty a s = Some s' -> Inv s'.
Proof.
  intros HI Ht H.
  unfold recordLoop_empty, bind in H.
  split_inv HI. rewrite Ht in *. destruct (Iec eq_refl) as [Hnr Hh0].
  destruct (m_audioStream s) as [pa|] eqn:Ha;
    [destruct (m_videoStream s) as [pv|] eqn:Hv|].
  2,3: some_inv; constructor; inv_fields; unfold points_to in *; fields;
       rewrite ?Ha, ?Hv; try assumption; try discriminate;
       try (intros; congruence);
       intros _; apply Icl; discriminate.
  destruct (m_context s) as [ctx|] eqn:Hc; [|discriminate].
  destruct (AVFormatContext.oformat ctx) as [fmt|] eqn:Hf; [|discriminate].
  repeat (break_in H; try discriminate); some_inv;
  constructor; inv_fields; rewrite ?Ha, ?Hv, ?Hc;
    try assumption; try discriminate;
    try solve [intuition (congruence || lia)].
  all: try solve [intros; do 2 eexists; split; [reflexivity | eassumption]].
  all: try solve [solve_pointer].
  all: try solve [intros _; repeat split; try discriminate;
                  rewrite ?in_app_iff; cbn; auto].
  all: try solve [rewrite ?in_app_iff; cbn; intuition (congruence || lia)].
Qed.

Lemma Inv_set_thread pc s :
  Inv s ->
  (pc = AtAudioDrain \/ pc = AtVideoDrain ->
   m_audioStream s <> None /\ m_videoStream s <> None /\
   In (avformat_write_header true) (calls s)) ->
  (pc = AtEmptyCase ->
   m_status s <> Context_READY /\ header_writes (calls s) = 0%nat) ->
  (pc <> Returned ->
   exists ctx fmt,
     m_context s = Some ctx /\ AVFormatContext.oformat ctx = Some fmt) ->
  Inv (set_m_thread pc s).
Proof.
  intros HI Hd He Hl. split_inv HI.
  constructor; unfold in_drain, points_to in *; fields; try assumption.
  intros Hp. apply Hd. destruct pc; try discriminate; auto.
Qed.

Lemma recordLoop_step_Inv a s s' :
  Inv s -> recordLoop_step a s = Some s' -> Inv s'.
Proof.
  intros HI H. unfold recordLoop_step in H.
  assert (Hlive : m_thread s <> Returned ->
            exists ctx fmt,
              m_context s = Some ctx /\ AVFormatContext.oformat ctx = Some fmt)
    by apply (inv_context_live _ HI).
  destruct (m_thread s) eqn:Ht.
  - (* AtWhile *)
    some_inv. apply Inv_set_thread; try exact HI;
      destruct (m_muxing s); try (intros [?|?]; discriminate);
      try discriminate; try (intros H; exfalso; apply H; reflexivity).
    all: intros _; apply Hlive; discriminate.
  - (* AtSwitch *)
    destruct (m_status s) eqn:Hs; some_inv; apply Inv_set_thread;
      try exact HI; try (intros [?|?]; discriminate); try discriminate;
      try (intros H; exfalso; apply H; reflexivity);
      try (intros _; apply Hlive; discriminate).
    + intros _. split; [congruence|].
      pose proof (inv_header _ HI) as Hh. rewrite Hs in Hh. exact Hh.
    + intros _. destruct (inv_ready_streams _ HI Hs) as [A B].
      pose proof (inv_header _ HI) as Hh. rewrite Hs in Hh.
      destruct Hh. auto.
  - (* AtEmptyCase *)
    eapply recordLoop_empty_Inv; eassumption.
  - (* AtAudioDrain *)
    assert (Hd : in_drain s = true) by (unfold in_drain; rewrite Ht; reflexivity).
    unfold MediaFrameQueue.popFrame in H.
    destruct (MediaFrameQueue.m_queue (m_audioQueue s)) as [|f rest].
    + some_inv. apply Inv_set_thread; try exact HI; try discriminate.
      * intros _. apply (inv_drain _ HI Hd).
      * intros _. apply Hlive. discriminate.
    + unfold writeAudioFrame, stream_at, bind in H. fields.
      repeat (break_in H; try discriminate); some_inv.
      * apply Inv_write_frame; [apply Inv_set_audioQueue, HI|].
        unfold in_drain. fields. rewrite Ht. reflexivity.
      * apply Inv_set_audioQueue, HI.
  - (* AtVideoDrain *)
    assert (Hd : in_drain s = true) by (unfold in_drain; rewrite Ht; reflexivity).
    unfold MediaFrameQueue.popFrame in H.
    destruct (MediaFrameQueue.m_queue (m_videoQueue s)) as [|f rest].
    + some_inv. apply Inv_set_thread; try exact HI; try discriminate.
      * intros [?|?]; discriminate.
      * intros _. apply Hlive. discriminate.
    + unfold writeVideoFrame, stream_at, bind in H. fields.
      repeat (break_in H; try discriminate); some_inv.
      * apply Inv_write_frame; [apply Inv_set_videoQueue, HI|].
        unfold in_drain. fields. rewrite Ht. reflexivity.
      * apply Inv_set_videoQueue, HI.
  - some_inv. exact HI.
Qed.

Lemma close_enter_Inv s : Inv s -> Inv (close_enter s).
Proof.
  intros HI. split_inv HI.
  constructor; unfold close_enter, in_drain, points_to in *; fields;
    try assumption. intros _. reflexivity.
Qed.

Lemma close_codec_calls pointer s s1 :
  close_codec pointer s = Some s1 ->
  exists log,
    s1 = {| m_status := m_status s; m_muxing := m_muxing s;
            m_videoStream := m_videoStream s;
            m_audioStream := m_audioStream s; m_context := m_context s;
            m_recordPath := m_recordPath s;
            m_snapshotInterval := m_snapshotInterval s;
            m_recordStartTime := m_recordStartTime s;
            m_videoQueue := m_videoQueue s; m_audioQueue := m_audioQueue s;
            m_thread := m_thread s; m_producers := m_producers s;
            owner := owner s; calls := calls s ++ log |} /\
    Forall (fun c => exists i, c = avcodec_close i) log.
Proof.
  unfold close_codec, bind. destruct pointer as [p|].
  - destruct (stream_at p s) as [st|]; [|discriminate].
    intros [= <-]. exists [avcodec_close (AVStream.index st)].
    split; [reflexivity|]. constructor; [eexists; reflexivity | constructor].
  - intros [= <-]. exists []. split; [|constructor].
    destruct s; cbn. rewrite app_nil_r. reflexivity.
Qed.

Lemma count_codec_close kind log :
  (forall i, kind (avcodec_close i) = false) ->
  Forall (fun c => exists i, c = avcodec_close i) log ->
  count kind log = 0%nat.
Proof.
  intros Hk. induction 1 as [|c rest [i ->] _ IH]; [reflexivity|].
  unfold count in *. cbn [filter]. rewrite Hk. exact IH.
Qed.

Lemma In_codec_close c log :
  Forall (fun c => exists i, c = avcodec_close i) log ->
  In c log -> exists i, c = avcodec_close i.
Proof. rewrite Forall_forall. intros H Hin. apply H, Hin. Qed.

Lemma close_finalize_Inv s s' :
  Inv s -> m_thread s = Returned -> close_finalize s = Some s' -> Inv s'.
Proof.
  intros HI Hr H.
  unfold close_finalize, close_codec, stream_at, bind in H.
  repeat (break_in H; try discriminate); some_inv;
  split_inv HI; constructor; unfold points_to in *; inv_fields;
  rew_state; inv_fields;
  try assumption; try discriminate;
  try solve [intuition (congruence || lia)];
  try solve [intros; discriminate];
  try solve [destruct (m_status s); rewrite ?in_app_iff; cbn;
             repeat rewrite count_call; cbn;
             intuition (congruence || lia)].
Qed.

Lemma Inv_set_owner o s :
  Inv s -> (o = InJoin -> m_muxing s = false) -> Inv (set_owner o s).
Proof.
  intros HI Ho. split_inv HI.
  constructor; unfold in_drain, points_to in *; fields; assumption.
Qed.

Lemma step_Inv e s s' : Inv s -> step e s = Some s' -> Inv s'.
Proof.
  destruct e as [thread frame|thread ok|a| | |]; cbn [step]; intros HI H.
  - destruct (producer_pc thread (m_producers s)); some_inv;
      [exact HI | apply onFrame_Inv, HI].
  - destruct (producer_pc thread (m_producers s)) as [pc|] eqn:Hpc;
      some_inv; [|exact HI].
    eapply onFrame_step_Inv; eassumption.
  - eapply recordLoop_step_Inv; eassumption.
  - destruct (owner s); some_inv; [apply close_enter_Inv, HI | exact HI].
  - destruct (owner s) eqn:Ho; some_inv; auto.
    destruct (m_thread s) eqn:Ht; some_inv; auto.
    unfold bind in H. destruct (close_finalize s) eqn:Hc; some_inv.
    apply Inv_set_owner; [|discriminate].
    eapply close_finalize_Inv; eassumption.
  - destruct (owner s); some_inv; auto.
    destruct (m_muxing s); some_inv; auto.
    apply close_enter_Inv, HI.
Qed.

Lemma run_Inv events : forall s s', Inv s -> run events s = Some s' -> Inv s'.
Proof.
  induction events as [|e rest IH]; cbn [run]; intros s s' HI H.
  - some_inv. assumption.
  - unfold bind in H. destruct (step e s) eqn:He; [|discriminate].
    eapply IH; [|eassumption]. eapply step_Inv; eassumption.
Qed.

Lemma Inv_run_new url si time alloc_ok guess events s :
  run events (MediaRecorder_new url si time alloc_ok guess) = Some s -> Inv s.
Proof.
  intros Hrun. eapply run_Inv; [|eassumption].
  apply Inv_initial. do 5 eexists. reflexivity.
Qed.

Lemma reachable_Inv s : reachable s -> Inv s.
Proof.
  intros (s0 & events & H0 & Hrun).
  eapply run_Inv; [|eassumption]. apply Inv_initial. assumption.
Qed.

(** Stream pointers are never reset. *)
Lemma step_streams_stable e s s' :
  step e s = Some s' ->
  (m_videoStream s <> None -> m_videoStream s' <> None) /\
  (m_audioStream s <> None -> m_audioStream s' <> None).
Proof.
  intros H. destruct e; unfold_step H;
  repeat (break_in H; try discriminate); some_inv; fields; rew_state;
  split; intros; congruence.
Qed.

Lemma run_streams_stable events : forall s s',
  run events s = Some s' ->
  (m_videoStream s <> None -> m_videoStream s' <> None) /\
  (m_audioStream s <> None -> m_audioStream s' <> None).
Proof.
  induction events as [|e rest IH]; cbn [run]; intros s s' H.
  - some_inv. auto.
  - unfold bind in H. destruct (step e s) as [s1|] eqn:He; [|discriminate].
    destruct (step_streams_stable _ _ _ He) as [Hv1 Ha1].
    destruct (IH s1 s' H) as [Hv Ha]. split; auto.
Qed.

(** ** The header *)

(** The one step that writes the header. *)
Lemma header_step e s s' :
  Inv s -> step e s = Some s' ->
  header_writes (calls s') <> header_writes (calls s) ->
  m_thread s = AtEmptyCase /\ (exists a, e = WriterStep a) /\
  m_videoStream s <> None /\ m_audioStream s <> None /\
  header_writes (calls s) = 0%nat /\ header_writes (calls s') = 1%nat /\
  exists ok,
    last (calls s') av_dump_format = avformat_write_header ok /\
    m_status s' = (if ok then Context_READY else Context_ERROR) /\
    m_thread s' = (if ok then AtAudioDrain else Returned).
Proof.
  intros HI H Hne.
  assert (Hec : m_thread s = AtEmptyCase -> header_writes (calls s) = 0%nat)
    by (intros Ht; apply (inv_empty_case _ HI Ht)).
  destruct e; unfold_step H;
  repeat (break_in H; try discriminate); some_inv;
  inv_fields; try (exfalso; apply Hne; reflexivity);
  try (exfalso; apply Hne; lia).
  all: specialize (Hec eq_refl); unfold header_writes in Hec;
    (split; [reflexivity|]); (split; [eexists; reflexivity|]);
    (split; [discriminate|]); (split; [discriminate|]);
    (split; [exact Hec|]); (split; [lia|]).
  all: first [ exists true; rewrite last_last; repeat split; reflexivity
             | exists false; rewrite last_last; repeat split; reflexivity ].
Qed.

(** The writer enters the Empty case of its switch only when it reads
    state Empty. *)
Lemma empty_case_entered e s s' :
  step e s = Some s' ->
  m_thread s' = AtEmptyCase -> m_thread s <> AtEmptyCase ->
  m_thread s = AtSwitch /\ m_status s = Context_EMPTY /\
  exists a, e = WriterStep a.
Proof.
  intros H Ht' Ht.
  destruct e; unfold_step H;
  repeat (break_in H; try discriminate); some_inv;
  fields; try congruence.
  all: try (destruct (m_muxing s); discriminate).
  repeat split; try assumption. eexists; reflexivity.
Qed.

(** C1, amended: in every execution the container header is written at
    most once, and exactly once in every execution that has reached Ready.
    The step that writes it is a step of the writer in the Empty case of
    its switch, taken with both track descriptors present; the writer
    enters that case only when it reads state Empty.  The step leaves the
    state Ready when the write succeeded and Error when it failed. *)
Theorem header_written_at_most_once :
  forall recordUrl snapshotInterval time alloc_ok guess events s,
    run events (MediaRecorder_new recordUrl snapshotInterval time alloc_ok guess)
      = Some s ->
    (header_writes (calls s) <= 1)%nat /\
    (m_status s = Context_READY -> header_writes (calls s) = 1%nat) /\
    (forall e s',
       step e s = Some s' ->
       header_writes (calls s') <> header_writes (calls s) ->
       m_thread s = AtEmptyCase /\ (exists a, e = WriterStep a) /\
       m_videoStream s <> None /\ m_audioStream s <> None /\
       header_writes (calls s) = 0%nat /\
       header_writes (calls s') = 1%nat /\
       exists ok,
         last (calls s') av_dump_format = avformat_write_header ok /\
         m_status s' = if ok then Context_READY else Context_ERROR) /\
    (forall e s',
       step e s = Some s' ->
       m_thread s' = AtEmptyCase -> m_thread s <> AtEmptyCase ->
       m_status s = Context_EMPTY).
Proof.
  intros url si time alloc_ok guess events s Hrun.
  pose proof (Inv_run_new _ _ _ _ _ _ _ Hrun) as HI.
  pose proof (inv_header _ HI) as Hh.
  split; [|split; [|split]].
  - destruct (m_status s); lia.
  - intros Hr. rewrite Hr in Hh. apply Hh.
  - intros e s' He Hne.
    destruct (header_step e s s' HI He Hne)
      as (A & B & C & D & E & F & ok & G1 & G2 & _).
    repeat split; try assumption. exists ok. split; assumption.
  - intros e s' He Ht' Ht.
    apply (empty_case_entered e s s' He Ht' Ht).
Qed.

(** ** The two stream pointers *)

(** C9: in every state of every execution, a non-null audio stream comes
    with a non-null video stream, and no event ever resets a stream
    pointer to null.  So, while the context is alive, and it is as long as
    the writer runs, the read of [m_videoStream->time_base] that
    [writeAudioFrame] makes under its guard on [m_audioStream] goes
    through a pointer to a stream of the context, never through a null
    pointer: if the call fails, it is one of the two divisions that
    fails. *)
Theorem audio_stream_implies_video_stream :
  forall recordUrl snapshotInterval time alloc_ok guess events s,
    run events (MediaRecorder_new recordUrl snapshotInterval time alloc_ok guess)
      = Some s ->
    (m_audioStream s <> None -> m_videoStream s <> None) /\
    (forall e s', step e s = Some s' ->
       (m_videoStream s <> None -> m_videoStream s' <> None) /\
       (m_audioStream s <> None -> m_audioStream s' <> None)) /\
    (m_thread s <> Returned -> m_context s <> None) /\
    (m_audioStream s <> None -> m_context s <> None ->
     exists p videoStream,
       m_videoStream s = Some p /\ stream_at p s = Some videoStream /\
       forall time' frame,
         writeAudioFrame time' frame s = None ->
         timestampToWrite time' (m_recordStartTime s)
           (AVStream.time_base videoStream) = None).
Proof.
  intros url si time alloc_ok guess events s Hrun.
  pose proof (Inv_run_new _ _ _ _ _ _ _ Hrun) as HI.
  split; [apply (inv_audio_after_video _ HI)|].
  split; [intros e s' He; apply (step_streams_stable e s s' He)|].
  split.
  - intros Ht. destruct (inv_context_live _ HI Ht) as (ctx & fmt & Hc & _).
    congruence.
  - intros Ha Hc.
    pose proof (inv_audio_after_video _ HI Ha) as Hv.
    destruct (m_videoStream s) as [p|] eqn:Hp; [|contradiction].
    destruct (m_context s) as [ctx|] eqn:Hctx; [|contradiction].
    destruct (inv_video_pointer _ HI p ctx Hp Hctx) as (st & Hn & _).
    exists p, st. split; [reflexivity|].
    assert (Hat : stream_at p s = Some st)
      by (unfold stream_at, bind; rewrite Hctx; exact Hn).
    split; [exact Hat|].
    intros time' frame Hw. unfold writeAudioFrame, bind in Hw.
    destruct (m_audioStream s); [|contradiction].
    rewrite Hp, Hat in Hw.
    destruct (timestampToWrite time' (m_recordStartTime s)
                (AVStream.time_base st)); [discriminate | reflexivity].
Qed.

(** ** Audio before any video *)

Lemma close_finalize_no_streams s :
  m_videoStream s = None -> m_audioStream s = None ->
  close_finalize s
  = match m_context s with
    | None => Some s
    | Some ctx =>
        fmt <- AVFormatContext.oformat ctx ;;
        let s4 :=
          if Z.land (AVOutputFormat.flags fmt) AVFMT_NOFILE =? 0
          then call avio_close s else s in
        Some (set_m_context None (call avformat_free_context s4))
    end.
Proof.
  intros Hv Ha. unfold close_finalize, close_codec. rewrite Ha, Hv.
  cbn [bind]. rewrite Ha. cbn [bind]. reflexivity.
Qed.

Lemma Waiting_ext s s' :
  Waiting s ->
  m_status s' = m_status s -> m_videoStream s' = m_videoStream s ->
  m_audioStream s' = m_audioStream s -> m_thread s' = m_thread s ->
  m_context s' = m_context s -> calls s' = calls s ->
  Forall (fun entry => waiting_pc (snd entry) = true) (m_producers s') ->
  Waiting s'.
Proof.
  intros [A B C D E F G] Hs Hv Ha Ht Hc Hl Hp.
  constructor; unfold in_drain in *; rewrite ?Hs, ?Hv, ?Ha, ?Ht, ?Hc, ?Hl;
    assumption.
Qed.

Lemma Waiting_step e s :
  Waiting s -> is_video_arrival e = false ->
  exists s1,
    step e s = Some s1 /\ Waiting s1 /\
    MediaFrameQueue.m_queue (m_audioQueue s1)
    = MediaFrameQueue.m_queue (m_audioQueue s) ++ audio_push e s.
Proof.
  intros Hw He. pose proof Hw as [Hst Hv Ha Ht Hc Hl Hp].
  destruct e as [thread frame|thread ok|a| | |];
    cbn [step audio_push is_video_arrival] in *.
  - (* a call of onFrame *)
    rewrite app_nil_r.
    destruct (producer_pc thread (m_producers s));
      [eexists; (split; [reflexivity|]); split; [exact Hw | reflexivity]|].
    unfold onFrame. rewrite Hst.
    destruct (Frame.format frame); [discriminate| |];
      eexists; (split; [reflexivity|]); (split; [|reflexivity]);
      try exact Hw.
    apply (Waiting_ext s); try reflexivity; try exact Hw.
    apply Forall_producer_at; [reflexivity | exact Hp].
  - (* a step of a producer *)
    destruct (producer_pc thread (m_producers s)) as [pc|] eqn:Hpc.
    2: { rewrite app_nil_r. eexists; (split; [reflexivity|]); split; [exact Hw | reflexivity]. }
    pose proof (Forall_producer_pc _ _ _ _ Hp Hpc) as Hwp. cbn [snd] in Hwp.
    destruct pc; try discriminate Hwp; cbn [onFrame_step].
    + rewrite Hv, app_nil_r. eexists. split; [reflexivity|].
      split; [|reflexivity].
      apply (Waiting_ext s); try reflexivity; try exact Hw.
      apply Forall_producer_at; [reflexivity | exact Hp].
    + eexists. split; [reflexivity|]. split; [|reflexivity].
      apply (Waiting_ext s); try reflexivity; try exact Hw.
      apply Forall_producer_leave. exact Hp.
  - (* a step of the writer *)
    rewrite app_nil_r.
    unfold recordLoop_step, recordLoop_empty. rewrite Hst, Ha.
    unfold in_drain in Ht.
    destruct (m_thread s) eqn:Hpc; try discriminate;
      eexists; (split; [reflexivity|]); (split; [|reflexivity]);
      try exact Hw.
    all: constructor; unfold in_drain; fields; try assumption;
      try reflexivity.
    destruct (m_muxing s); reflexivity.
  - rewrite app_nil_r. destruct (owner s);
      eexists; (split; [reflexivity|]); (split; [|reflexivity]);
      try exact Hw.
    constructor; unfold close_enter, in_drain in *; fields; assumption.
  - rewrite app_nil_r. destruct (owner s);
      [eexists; (split; [reflexivity|]); split; [exact Hw | reflexivity]|].
    destruct (m_thread s) eqn:Hpc;
      try (eexists; (split; [reflexivity|]); split; [exact Hw | reflexivity]).
    rewrite (close_finalize_no_streams s Hv Ha).
    destruct (m_context s) as [ctx|] eqn:Hctx.
    + destruct (AVFormatContext.oformat ctx) as [fmt|] eqn:Hf;
        [|exfalso; apply (Hc ctx eq_refl Hf)].
      cbn [bind].
      destruct (Z.land (AVOutputFormat.flags fmt) AVFMT_NOFILE =? 0);
        (eexists; split; [reflexivity|]; split; [|reflexivity]);
        constructor; unfold in_drain; fields; try assumption;
        try (rewrite Hpc; reflexivity); try (intros; discriminate);
        repeat rewrite count_call; cbn [is_new_stream]; lia.
    + cbn [bind]. eexists. split; [reflexivity|]. split; [|reflexivity].
      constructor; unfold in_drain; fields; try assumption.
      fields. rewrite Hctx. exact Hc.
  - rewrite app_nil_r. destruct (owner s);
      [destruct (m_muxing s)|];
      eexists; (split; [reflexivity|]); (split; [|reflexivity]);
      try exact Hw.
    constructor; unfold close_enter, in_drain in *; fields; assumption.
Qed.

Lemma Waiting_run events : forall s,
  Waiting s ->
  forallb (fun e => negb (is_video_arrival e)) events = true ->
  exists s',
    run events s = Some s' /\ Waiting s' /\
    MediaFrameQueue.m_queue (m_audioQueue s')
    = MediaFrameQueue.m_queue (m_audioQueue s) ++ audio_arrivals events s.
Proof.
  induction events as [|e rest IH]; intros s Hw Hall.
  - exists s. cbn. rewrite app_nil_r. auto.
  - cbn [forallb] in Hall. apply andb_true_iff in Hall as [He Hrest].
    apply negb_true_iff in He.
    destruct (Waiting_step e s Hw He) as (s1 & Hs1 & Hw1 & Hq1).
    destruct (IH s1 Hw1 Hrest) as (s' & Hrun & Hw' & Hq').
    exists s'. cbn [run audio_arrivals]. rewrite Hs1. cbn [bind].
    split; [exact Hrun|]. split; [exact Hw'|].
    rewrite Hq', Hq1, app_assoc. reflexivity.
Qed.

Lemma Waiting_new url si time fmt :
  Waiting (MediaRecorder_new url si time true (Some fmt)).
Proof.
  constructor; cbn; try reflexivity; [|constructor].
  intros ctx [= <-]. discriminate.
Qed.

(** A whole call of [onFrame] with an audio frame while no track exists:
    the frame is queued and nothing else changes. *)
Lemma Waiting_delivery thread frame ok s :
  Waiting s -> producer_pc thread (m_producers s) = None ->
  Frame.format frame = FRAME_FORMAT_PCMU ->
  exists s',
    run (delivery thread frame ok) s = Some s' /\
    MediaFrameQueue.m_queue (m_audioQueue s')
    = MediaFrameQueue.m_queue (m_audioQueue s) ++ [encode frame] /\
    m_audioStream s' = None /\ m_videoStream s' = None /\
    calls s' = calls s /\ producer_pc thread (m_producers s') = None.
Proof.
  intros [Hst Hv Ha _ _ _ _] Hidle Hf.
  unfold delivery. cbn [run step]. rewrite Hidle. cbn [bind].
  unfold onFrame. rewrite Hst, Hf.
  repeat (unfold set_pc, leave; fields;
          rewrite ?producer_pc_at, ?producer_pc_leave, ?Z.eqb_refl, ?Hv;
          cbn [onFrame_step bind]).
  eexists. split; [reflexivity|]. fields.
  rewrite producer_pc_leave, Z.eqb_refl.
  repeat split; assumption.
Qed.

(** A step that changes [m_audioStream] is the call of [addAudioStream]
    by a producer, and the video stream exists when it is taken. *)
Lemma step_audio_created e s s' :
  Inv s -> step e s = Some s' ->
  m_audioStream s' <> m_audioStream s ->
  m_videoStream s <> None /\
  exists thread frame,
    e = ProducerStep thread true /\
    producer_pc thread (m_producers s) = Some (AtAddAudio frame).
Proof.
  intros HI H Hne.
  destruct e as [thread frame|thread ok|a| | |].
  2: { cbn [step] in H.
       destruct (producer_pc thread (m_producers s)) as [pc|] eqn:Hpc;
         [|some_inv; contradiction].
       pose proof (Forall_producer_pc _ _ _ _ (inv_producers _ HI) Hpc)
         as Hsaw. cbn [snd] in Hsaw.
       destruct pc; unfold onFrame_step, addVideoStream, addAudioStream, bind in H;
         repeat (break_in H; try discriminate); some_inv; fields;
         try contradiction.
       split; [apply Hsaw; reflexivity|].
       eexists _, _. split; [reflexivity | exact Hpc]. }
  all: unfold_step H; repeat (break_in H; try discriminate); some_inv;
    fields; contradiction.
Qed.

(** C2: as long as no producer has called [onFrame] with a video frame,
    whatever else happens and however the calls overlap, the execution
    goes on, the audio queue holds exactly the audio frames that arrived
    at it, in their order of arrival, no track has been created, and a
    call of [onFrame] with an audio frame ends with its frame in the
    queue.  In every continuation, a non-null audio stream comes with a
    non-null video stream, and a step that sets [m_audioStream] starts
    from a state where the video track exists. *)
Theorem audio_track_waits_for_video :
  forall recordUrl snapshotInterval time fmt events,
    forallb (fun e => negb (is_video_arrival e)) events = true ->
    let s0 :=
      MediaRecorder_new recordUrl snapshotInterval time true (Some fmt) in
    (exists s,
       run events s0 = Some s /\
       MediaFrameQueue.m_queue (m_audioQueue s) = audio_arrivals events s0 /\
       m_audioStream s = None /\ m_videoStream s = None /\
       count is_new_stream (calls s) = 0%nat /\
       forall thread frame ok,
         producer_pc thread (m_producers s) = None ->
         Frame.format frame = FRAME_FORMAT_PCMU ->
         exists s',
           run (delivery thread frame ok) s = Some s' /\
           MediaFrameQueue.m_queue (m_audioQueue s')
           = MediaFrameQueue.m_queue (m_audioQueue s) ++ [encode frame] /\
           m_audioStream s' = None /\ calls s' = calls s) /\
    (forall more s,
       run (events ++ more) s0 = Some s ->
       (m_audioStream s <> None -> m_videoStream s <> None) /\
       (forall e s',
          step e s = Some s' ->
          m_audioStream s' <> m_audioStream s ->
          m_videoStream s <> None)).
Proof.
  intros url si time fmt events Hall s0. split.
  - destruct (Waiting_run events s0 (Waiting_new url si time fmt) Hall)
      as (s & Hrun & Hw & Hq).
    exists s. split; [exact Hrun|].
    split; [rewrite Hq; reflexivity|].
    split; [apply (wt_audio _ Hw)|]. split; [apply (wt_video _ Hw)|].
    split; [apply (wt_calls _ Hw)|].
    intros thread frame ok Hidle Hf.
    destruct (Waiting_delivery thread frame ok s Hw Hidle Hf)
      as (s' & A & B & C & _ & D & _).
    exists s'. repeat split; assumption.
  - intros more s Hrun.
    pose proof (Inv_run_new _ _ _ _ _ _ _ Hrun) as HI.
    split; [apply (inv_audio_after_video _ HI)|].
    intros e s' He Hne. apply (step_audio_created e s s' HI He Hne).
Qed.

(** ** After a failed header write *)

Lemma packets_call log c :
  packets (log ++ [c])
  = packets log ++ match c with av_write_frame pkt => [pkt] | _ => [] end.
Proof. rewrite packets_app. destruct c; reflexivity. Qed.

(** close() after the join, on a recorder whose context is alive. *)
Lemma close_finalize_live s :
  Inv s ->
  (exists ctx fmt,
     m_context s = Some ctx /\ AVFormatContext.oformat ctx = Some fmt) ->
  exists s',
    close_finalize s = Some s' /\
    m_context s' = None /\
    context_frees (calls s') = 1%nat /\
    packets (calls s') = packets (calls s) /\
    m_audioQueue s' = m_audioQueue s /\ m_videoQueue s' = m_videoQueue s /\
    m_producers s' = m_producers s /\ m_status s' = m_status s /\
    m_thread s' = m_thread s /\ m_muxing s' = m_muxing s /\
    owner s' = owner s.
Proof.
  intros HI (ctx & fmt & Hc & Hf).
  pose proof (inv_finalized _ HI) as Hfin. rewrite Hc in Hfin.
  destruct Hfin as [_ Hfree].
  pose proof (inv_video_pointer _ HI) as Hvp.
  pose proof (inv_audio_pointer _ HI) as Hap.
  unfold points_to in Hvp, Hap.
  assert (Hsv : forall pv, m_videoStream s = Some pv ->
            exists sv, nth_error (AVFormatContext.streams ctx) pv = Some sv).
  { intros pv Hv. destruct (Hvp pv ctx Hv Hc) as (sv & Hn & _). eauto. }
  assert (Hsa : forall pa, m_audioStream s = Some pa ->
            exists sa, nth_error (AVFormatContext.streams ctx) pa = Some sa).
  { intros pa Ha. destruct (Hap pa ctx Ha Hc) as (sa & Hn & _). eauto. }
  clear Hvp Hap.
  unfold close_finalize, close_codec, stream_at, bind.
  destruct (m_audioStream s) as [pa|] eqn:Ha;
  destruct (m_videoStream s) as [pv|] eqn:Hv;
  try (destruct (Hsv pv eq_refl) as (sv & Hnv));
  try (destruct (Hsa pa eq_refl) as (sa & Hna));
  repeat (fields; rewrite ?Ha, ?Hv, ?Hc, ?Hf, ?Hnv, ?Hna);
  destruct (Z.land (AVOutputFormat.flags fmt) AVFMT_NOFILE =? 0);
  (eexists; split; [reflexivity|]); fields;
  unfold context_frees in *; repeat rewrite count_call;
  repeat rewrite packets_call; cbn [is_free];
  repeat rewrite app_nil_r;
  repeat split; try reflexivity; lia.
Qed.

Lemma halted_step e s s' :
  halted s -> step e s = Some s' ->
  halted s' /\ packets (calls s') = packets (calls s) /\
  (m_producers s = [] ->
   m_producers s' = [] /\ m_audioQueue s' = m_audioQueue s /\
   m_videoQueue s' = m_videoQueue s).
Proof.
  intros [Ht Hs] H. unfold halted.
  destruct e as [thread frame|thread ok|a| | |].
  - cbn [step] in H. unfold onFrame in H. rewrite Hs in H.
    destruct (producer_pc thread (m_producers s)); some_inv; auto.
  - cbn [step] in H.
    destruct (producer_pc thread (m_producers s)) as [pc|] eqn:Hpc.
    2: { some_inv. auto. }
    split; [|split].
    + destruct pc; unfold onFrame_step, addVideoStream, addAudioStream, bind in H;
        repeat (break_in H; try discriminate); some_inv; fields; auto.
    + destruct pc; unfold onFrame_step, addVideoStream, addAudioStream, bind in H;
        repeat (break_in H; try discriminate); some_inv; fields;
        rewrite ?packets_call, ?app_nil_r; reflexivity.
    + intros Hnil. rewrite Hnil in Hpc. discriminate Hpc.
  - cbn [step] in H. unfold recordLoop_step in H. rewrite Ht in H.
    some_inv. auto.
  - cbn [step] in H. destruct (owner s); some_inv; fields; auto.
  - cbn [step] in H. rewrite Ht in H.
    destruct (owner s); some_inv; auto.
    unfold close_finalize, close_codec, bind in H.
    repeat (break_in H; try discriminate); some_inv; fields;
      rewrite ?packets_call, ?app_nil_r; auto.
  - cbn [step] in H.
    destruct (owner s); [destruct (m_muxing s)|]; some_inv; fields; auto.
Qed.

Lemma halted_run events : forall s s',
  halted s -> run events s = Some s' ->
  halted s' /\ packets (calls s') = packets (calls s) /\
  (m_producers s = [] ->
   m_producers s' = [] /\ m_audioQueue s' = m_audioQueue s /\
   m_videoQueue s' = m_videoQueue s).
Proof.
  induction events as [|e rest IH]; cbn [run]; intros s s' Hh H.
  - some_inv. auto.
  - unfold bind in H. destruct (step e s) as [s1|] eqn:He; [|discriminate].
    destruct (halted_step e s s1 Hh He) as (Hh1 & Hp1 & Hq1).
    destruct (IH s1 s' Hh1 H) as (Hh' & Hp' & Hq').
    split; [exact Hh'|]. split; [congruence|].
    intros Hnil. destruct (Hq1 Hnil) as (A & B & C).
    destruct (Hq' A) as (A' & B' & C'). repeat split; congruence.
Qed.

(** C5, amended: after the writer step whose header write failed and put
    the state in Error, a call of [onFrame] returns without enqueuing
    anything and the writer takes no further step; close() runs to its
    end: the join returns, the container handle is released once, and no
    packet is written.  Whatever follows, the state stays Error and no
    packet is written; the queues stay as they are unless a call of
    [onFrame] was past the test of the state when the write failed. *)
Theorem after_header_failure :
  forall recordUrl snapshotInterval time alloc_ok guess events s a s1,
    run events (MediaRecorder_new recordUrl snapshotInterval time alloc_ok guess)
      = Some s ->
    recordLoop_step a s = Some s1 ->
    header_writes (calls s1) <> header_writes (calls s) ->
    m_status s1 = Context_ERROR ->
    (forall thread frame, step (OnFrame thread frame) s1 = Some s1) /\
    (forall a', recordLoop_step a' s1 = Some s1) /\
    (exists s2,
       run [Close; JoinReturns] s1 = Some s2 /\
       m_context s2 = None /\ owner s2 = Outside /\
       context_frees (calls s2) = 1%nat /\
       packets (calls s2) = packets (calls s1) /\
       m_audioQueue s2 = m_audioQueue s1 /\
       m_videoQueue s2 = m_videoQueue s1) /\
    (forall more s',
       run more s1 = Some s' ->
       m_status s' = Context_ERROR /\
       packets (calls s') = packets (calls s1) /\
       (m_producers s1 = [] ->
        m_audioQueue s' = m_audioQueue s1 /\
        m_videoQueue s' = m_videoQueue s1)).
Proof.
  intros url si time alloc_ok guess events s a s1 Hrun Hstep Hne Herr.
  pose proof (Inv_run_new _ _ _ _ _ _ _ Hrun) as HI.
  assert (Hev : step (WriterStep a) s = Some s1) by exact Hstep.
  pose proof (step_Inv _ _ _ HI Hev) as HI1.
  destruct (header_step _ _ _ HI Hev Hne)
    as (Ht & _ & Hv & Ha & _ & _ & ok & _ & Hst & Hpc).
  destruct ok; [rewrite Herr in Hst; discriminate|].
  assert (Hh : halted s1) by (split; assumption).
  assert (Hlive : exists ctx fmt,
            m_context s1 = Some ctx /\ AVFormatContext.oformat ctx = Some fmt).
  { unfold recordLoop_step in Hstep. rewrite Ht in Hstep.
    unfold recordLoop_empty, bind in Hstep.
    repeat (break_in Hstep; try discriminate); some_inv; fields;
      try (exfalso; apply Hne; inv_fields; lia);
      try discriminate;
      do 2 eexists; split; try reflexivity; eassumption. }
  split; [|split; [|split]].
  - intros thread frame. cbn [step]. unfold onFrame. rewrite Herr.
    destruct (producer_pc thread (m_producers s1)); reflexivity.
  - intros a'. unfold recordLoop_step. rewrite Hpc. reflexivity.
  - destruct (close_finalize_live s1 HI1 Hlive)
      as (s2 & Hc & A & B & C & D & E & F & G & H' & I & J).
    cbn [run step]. destruct (owner s1) eqn:Ho; cbn [bind].
    + unfold close_enter. fields. rewrite Hpc.
      assert (HI1' : Inv (close_enter s1)) by apply close_enter_Inv, HI1.
      destruct (close_finalize_live (close_enter s1) HI1' Hlive)
        as (s3 & Hc3 & A3 & B3 & C3 & D3 & E3 & _).
      unfold close_enter in Hc3. rewrite Hc3. cbn [bind].
      eexists. split; [reflexivity|]. fields.
      repeat split; assumption.
    + rewrite Ho, Hpc, Hc. cbn [bind].
      eexists. split; [reflexivity|]. fields.
      repeat split; assumption.
  - intros more s' Hmore.
    destruct (halted_run more s1 s' Hh Hmore) as ([_ A] & B & C).
    split; [exact A|]. split; [exact B|].
    intros Hnil. destruct (C Hnil) as (_ & D & E). split; assumption.
Qed.

(** ** Executions that contradict the specification *)

(** C1, as stated, fails: a session in which only audio arrives runs to
    its close without a single header write.  And the state need not be
    Empty when the header is written: when [avformat_new_stream] fails for
    a call of [onFrame] while the writer is in the Empty case of its
    switch, the writer writes the header in state Error. *)
Lemma audio_only_session_writes_no_header :
  (exists s,
     run audio_only_session recorder0 = Some s /\
     m_context s = None /\
     m_status s = Context_EMPTY /\
     header_writes (calls s) = 0%nat /\
     header_writes (calls s) <> 1%nat) /\
  (exists s s',
     run failure_before_header_session recorder0 = Some s /\
     m_status s = Context_ERROR /\ m_status s <> Context_EMPTY /\
     header_writes (calls s) = 0%nat /\
     step (tick 3 true true) s = Some s' /\
     header_writes (calls s') = 1%nat /\
     last (calls s') av_dump_format = avformat_write_header true).
Proof.
  split.
  - eexists. split; [vm_compute; reflexivity|].
    repeat split; try reflexivity. vm_compute. discriminate.
  - eexists. eexists. split; [vm_compute; reflexivity|].
    repeat split; try reflexivity. discriminate.
Qed.

(** C5, as stated, fails: after the failed header write a call of
    [onFrame] returns at its first test; the state, and with it both
    queues, is what it was. *)
Lemma push_after_header_failure_is_dropped :
  exists s,
    run header_failure_session recorder0 = Some s /\
    m_status s = Context_ERROR /\
    last (calls s) av_dump_format = avformat_write_header false /\
    run (delivery 1 (video_frame 9) true) s = Some s /\
    run (delivery 2 (audio_frame 9) true) s = Some s /\
    List.length (MediaFrameQueue.m_queue (m_videoQueue s)) = 1%nat /\
    List.length (MediaFrameQueue.m_queue (m_audioQueue s)) = 1%nat.
Proof.
  eexists. split; [vm_compute; reflexivity|].
  repeat split; reflexivity.
Qed.


(** C6 at two failing inputs: a session closed before the writer has
    looked at the two streams, which is still in state Empty, and a
    session whose header write failed, both get a trailer written by
    close() although neither ever reached Ready and no header was written
    successfully.  A session that did reach Ready gets one trailer and one
    release of the context.  A recorder whose init failed has [m_muxing]
    down from the start, so its destructor does not run close() although
    close() was never done, and the context is not released. *)
Theorem trailer_written_without_header :
  (exists s,
     run early_close_session recorder0 = Some s /\
     m_status s = Context_EMPTY /\
     header_writes (calls s) = 0%nat /\
     trailer_writes (calls s) = 1%nat) /\
  (exists s,
     run (header_failure_session ++ [Close; JoinReturns]) recorder0 = Some s /\
     m_status s = Context_ERROR /\
     ~ In (avformat_write_header true) (calls s) /\
     trailer_writes (calls s) = 1%nat) /\
  (exists s,
     run (video_first_session
            ++ [Close; tick 2000 true true; JoinReturns; Destroy]) recorder0
       = Some s /\
     m_status s = Context_READY /\
     trailer_writes (calls s) = 1%nat /\
     context_frees (calls s) = 1%nat) /\
  (exists s,
     run [Destroy] unguessed_recorder = Some s /\
     m_muxing unguessed_recorder = false /\
     m_context s <> None /\
     context_frees (calls s) = 0%nat).
Proof.
  split; [|split; [|split]]; eexists; (split; [vm_compute; reflexivity|]);
    repeat split; try reflexivity; try discriminate.
  vm_compute. intros H. repeat (destruct H as [H | H]; [discriminate|]).
  exact H.
Qed.

(** C4 at two failing inputs.  Two producers have both found
    [m_videoStream] null; the first creates the video track, the audio
    track follows, and [avformat_new_stream] fails for the second
    producer.  When that happens after the header write, the state is
    Error while the writer is inside its drain loops, and the writer goes
    on writing packets.  When it happens while the writer is in the Empty
    case of its switch, the writer writes the header next and overwrites
    Error with Ready. *)
Theorem error_state_is_left_again :
  (exists s s',
     run late_failure_session recorder0 = Some s /\
     m_status s = Context_ERROR /\ packets (calls s) = [] /\
     run [tick 1000 true true; tick 1001 true true; tick 1002 true true] s
       = Some s' /\
     m_status s' = Context_ERROR /\
     packets (calls s')
     = [ {| data := [3]; size := 1; pts := 1000; stream_index := 1 |};
         {| data := [1]; size := 1; pts := 1002; stream_index := 0 |} ]) /\
  (exists s s',
     run failure_before_header_session recorder0 = Some s /\
     m_status s = Context_ERROR /\
     step (tick 3 true true) s = Some s' /\
     m_status s' = Context_READY).
Proof.
  split; eexists; eexists; (split; [vm_compute; reflexivity|]);
    repeat split; reflexivity.
Qed.

(** The destructor is close() when close() has not been called, and
    nothing when it has. *)
Remark destructor_closes_once s :
  owner s = Outside ->
  step Destroy s = if m_muxing s then step Close s else Some s.
Proof.
  intros Ho. cbn [step]. rewrite Ho. destruct (m_muxing s); reflexivity.
Qed.

(** In every state of every execution the trailer has been written at
    most once and the context released at most once. *)
Lemma trailer_and_release_at_most_once s :
  Inv s ->
  (trailer_writes (calls s) <= 1)%nat /\ (context_frees (calls s) <= 1)%nat.
Proof.
  intros HI. pose proof (inv_finalized _ HI) as H.
  destruct (m_context s); lia.
Qed.

(** X17: once close() has run to its end on a session that reached Ready,
    the trailer has been written exactly once and the context released
    exactly once. *)
Lemma closed_ready_session_one_trailer :
  forall recordUrl snapshotInterval time alloc_ok guess events s,
    run events (MediaRecorder_new recordUrl snapshotInterval time alloc_ok guess)
      = Some s ->
    m_status s = Context_READY ->
    m_context s = None ->
    trailer_writes (calls s) = 1%nat /\ context_frees (calls s) = 1%nat.
Proof.
  intros url si time alloc_ok guess events s Hrun Hready Hctx.
  pose proof (Inv_run_new _ _ _ _ _ _ _ Hrun) as HI.
  destruct (inv_ready_streams _ HI Hready) as [Ha Hv].
  pose proof (inv_finalized _ HI) as Hfin. rewrite Hctx in Hfin.
  destruct Hfin as (_ & _ & _ & Hboth). apply Hboth; assumption.
Qed.

(** Neither write path looks at the capture timestamp of the frame. *)
Remark write_paths_ignore_capture_timestamp time f captured s :
  let g := {| EncodedFrame.m_payloadData := EncodedFrame.m_payloadData f;
              EncodedFrame.m_payloadSize := EncodedFrame.m_payloadSize f;
              EncodedFrame.m_timeStamp := captured |} in
  writeVideoFrame time g s = writeVideoFrame time f s /\
  writeAudioFrame time g s = writeAudioFrame time f s.
Proof. split; reflexivity. Qed.

(** ** The drain loops *)

Lemma in_drain_cases s :
  in_drain s = true -> m_thread s = AtAudioDrain \/ m_thread s = AtVideoDrain.
Proof. unfold in_drain. destruct (m_thread s); auto; discriminate. Qed.

(** What a step of a producer does to the queues and to the packets. *)
Lemma producer_step_queues e s s1 :
  (exists thread frame, e = OnFrame thread frame) \/
  (exists thread ok, e = ProducerStep thread ok) ->
  step e s = Some s1 ->
  packets (calls s1) = packets (calls s) /\
  m_thread s1 = m_thread s /\
  MediaFrameQueue.m_queue (m_audioQueue s1)
  = MediaFrameQueue.m_queue (m_audioQueue s) ++ audio_push e s /\
  MediaFrameQueue.m_queue (m_videoQueue s1)
  = MediaFrameQueue.m_queue (m_videoQueue s) ++ video_push e s.
Proof.
  intros [(thread & frame & ->) | (thread & ok & ->)] H;
    cbn [step audio_push video_push] in *.
  - unfold onFrame in H.
    repeat (break_in H; try discriminate); some_inv; fields;
      rewrite ?app_nil_r; auto.
  - destruct (producer_pc thread (m_producers s)) as [pc|];
      [|some_inv; rewrite ?app_nil_r; auto].
    destruct pc; unfold onFrame_step, addVideoStream, addAudioStream, bind in H;
      repeat (break_in H; try discriminate); some_inv; fields;
      cbn [MediaFrameQueue.pushFrame MediaFrameQueue.m_queue encode];
      rewrite ?packets_call, ?app_nil_r; auto.
Qed.


(** A step of the writer at the head of the audio drain. *)
Lemma recordLoop_step_audio a s s1 :
  m_thread s = AtAudioDrain -> recordLoop_step a s = Some s1 ->
  match MediaFrameQueue.m_queue (m_audioQueue s) with
  | [] => s1 = set_m_thread AtVideoDrain s
  | f :: rest =>
      m_thread s1 = AtAudioDrain /\
      MediaFrameQueue.m_queue (m_audioQueue s1) = rest /\
      m_videoQueue s1 = m_videoQueue s /\
      ((m_audioStream s <> None /\
        exists ts,
          calls s1
          = calls s
            ++ [av_write_frame
                  {| data := EncodedFrame.m_payloadData f;
                     size := EncodedFrame.m_payloadSize f;
                     pts := ts; stream_index := 1 |}]) \/
       (m_audioStream s = None /\ calls s1 = calls s))
  end.
Proof.
  intros Ht H. unfold recordLoop_step, MediaFrameQueue.popFrame in H.
  rewrite Ht in H.
  destruct (MediaFrameQueue.m_queue (m_audioQueue s)) as [|f rest];
    [some_inv; reflexivity|].
  unfold writeAudioFrame, stream_at, bind in H. fields.
  repeat (break_in H; try discriminate); some_inv; fields;
    repeat split; try assumption.
  - left. split; [congruence|]. eexists. reflexivity.
  - right. split; reflexivity.
Qed.

(** A step of the writer at the head of the video drain. *)
Lemma recordLoop_step_video a s s1 :
  m_thread s = AtVideoDrain -> recordLoop_step a s = Some s1 ->
  match MediaFrameQueue.m_queue (m_videoQueue s) with
  | [] => s1 = set_m_thread AtWhile s
  | f :: rest =>
      m_thread s1 = AtVideoDrain /\
      MediaFrameQueue.m_queue (m_videoQueue s1) = rest /\
      m_audioQueue s1 = m_audioQueue s /\
      ((m_videoStream s <> None /\
        exists ts,
          calls s1
          = calls s
            ++ [av_write_frame
                  {| data := EncodedFrame.m_payloadData f;
                     size := EncodedFrame.m_payloadSize f;
                     pts := ts; stream_index := 0 |}]) \/
       (m_videoStream s = None /\ calls s1 = calls s))
  end.
Proof.
  intros Ht H. unfold recordLoop_step, MediaFrameQueue.popFrame in H.
  rewrite Ht in H.
  destruct (MediaFrameQueue.m_queue (m_videoQueue s)) as [|f rest];
    [some_inv; reflexivity|].
  unfold writeVideoFrame, stream_at, bind in H. fields.
  repeat (break_in H; try discriminate); some_inv; fields;
    repeat split; try assumption.
  - left. split; [congruence|]. eexists. reflexivity.
  - right. split; reflexivity.
Qed.






(** ** Presentation timestamps *)

(** Both write paths compute the timestamp from the time base of the
    stream [m_videoStream] points to. *)
Lemma write_paths_read_video_time_base s tb :
  video_time_base s = Some tb ->
  (forall time frame,
     writeVideoFrame time frame s
     = (ts <- timestampToWrite time (m_recordStartTime s) tb ;;
        Some (call (av_write_frame
                      {| data := EncodedFrame.m_payloadData frame;
                         size := EncodedFrame.m_payloadSize frame;
                         pts := ts; stream_index := 0 |}) s))) /\
  (m_audioStream s <> None ->
   forall time frame,
     writeAudioFrame time frame s
     = (ts <- timestampToWrite time (m_recordStartTime s) tb ;;
        Some (call (av_write_frame
                      {| data := EncodedFrame.m_payloadData frame;
                         size := EncodedFrame.m_payloadSize frame;
                         pts := ts; stream_index := 1 |}) s))).
Proof.
  unfold video_time_base, writeVideoFrame, writeAudioFrame, bind.
  destruct (m_videoStream s) as [p|]; [|discriminate].
  destruct (stream_at p s) as [vs|]; [|discriminate].
  intros [= <-]. split.
  - reflexivity.
  - intros Ha time frame. destruct (m_audioStream s); [reflexivity|].
    contradiction.
Qed.

(** With a denominator between 1 and 1000 neither division fails. *)
Lemma timestampToWrite_divisor time start tb :
  1 <= den tb <= 1000 ->
  1 <= Z.quot 1000 (den tb) <= 1000 /\
  timestampToWrite time start tb
  = Some (Z.quot (wrap64 (milliseconds time - start))
            (Z.quot 1000 (den tb))).
Proof.
  intros Hden.
  assert (Hq : 1 <= Z.quot 1000 (den tb) <= 1000).
  { rewrite Z.quot_div_nonneg by lia. split.
    - apply Z.div_le_lower_bound; lia.
    - apply Z.div_le_upper_bound; lia. }
  split; [exact Hq|].
  unfold timestampToWrite.
  destruct (den tb =? 0) eqn:E0; [apply Z.eqb_eq in E0; lia|].
  destruct (Z.quot 1000 (den tb) =? 0) eqn:E1; [apply Z.eqb_eq in E1; lia|].
  destruct (Z.quot 1000 (den tb) =? -1) eqn:E2; [apply Z.eqb_eq in E2; lia|].
  rewrite andb_false_r. reflexivity.
Qed.

(** With a denominator above 1000 the second division is by zero. *)
Lemma timestampToWrite_zero_divisor time start tb :
  1000 < den tb ->
  Z.quot 1000 (den tb) = 0 /\ timestampToWrite time start tb = None.
Proof.
  intros Hden.
  assert (Hq : Z.quot 1000 (den tb) = 0) by (apply Z.quot_small; lia).
  split; [exact Hq|].
  unfold timestampToWrite. rewrite Hq.
  destruct (den tb =? 0); reflexivity.
Qed.

(** Until a header is written, every stream has the time base the
    recorder gave it. *)
Lemma step_time_bases_as_set e s s' :
  step e s = Some s' ->
  (header_writes (calls s) = 0%nat -> time_bases_as_set s) ->
  header_writes (calls s') = 0%nat -> time_bases_as_set s'.
Proof.
  intros H Hs. unfold time_bases_as_set in *.
  destruct e; unfold_step H;
  repeat (break_in H; try discriminate); some_inv;
  inv_fields; intros H0; try (exfalso; lia);
  try (rewrite ?Nat.add_0_r in H0; specialize (Hs H0));
  try exact Hs;
  intros ctx' Hc'; try discriminate; some_inv;
  cbn [with_stream with_oformat with_pb AVFormatContext.streams];
  try (apply Forall_app; split; [|repeat constructor]);
  try solve [eapply Hs; eassumption | eapply Hs; reflexivity
            | apply Hs; congruence].
Qed.

Lemma run_time_bases_as_set events : forall s s',
  run events s = Some s' ->
  (header_writes (calls s) = 0%nat -> time_bases_as_set s) ->
  header_writes (calls s') = 0%nat -> time_bases_as_set s'.
Proof.
  induction events as [|e rest IH]; cbn [run]; intros s s' H Hs.
  - some_inv. exact Hs.
  - unfold bind in H. destruct (step e s) as [s1|] eqn:He; [|discriminate].
    apply (IH s1 s' H). apply (step_time_bases_as_set e s s1 He Hs).
Qed.

Lemma time_bases_as_set_new url si time alloc_ok guess :
  time_bases_as_set (MediaRecorder_new url si time alloc_ok guess).
Proof.
  intros ctx. unfold MediaRecorder_new, init.
  destruct alloc_ok; [destruct guess|]; cbn; intros H; some_inv;
    constructor.
Qed.

Lemma video_time_base_stream s :
  video_time_base s = option_map AVStream.time_base (video_stream s).
Proof.
  unfold video_time_base, video_stream, bind.
  destruct (m_videoStream s) as [p|]; [|reflexivity].
  destruct (stream_at p s); reflexivity.
Qed.

(** The time base the video stream has after a successful header write is
    the one the muxer chose for it. *)
Lemma header_sets_video_time_base a s s' vs :
  Inv s -> recordLoop_step a s = Some s' ->
  header_writes (calls s') <> header_writes (calls s) ->
  write_header_ok a = true ->
  video_stream s = Some vs ->
  video_time_base s' = Some (header_time_base a vs) /\
  m_thread s' = AtAudioDrain.
Proof.
  intros HI H Hne Hok Hvs.
  unfold_step H.
  unfold video_stream, stream_at, bind in Hvs.
  unfold video_time_base, stream_at, bind.
  repeat (break_in H; try discriminate); some_inv; inv_fields;
    try (exfalso; apply Hne; reflexivity); try (exfalso; apply Hne; lia);
    try congruence.
  all: rew_state;
    cbn [with_time_bases with_pb AVFormatContext.streams];
    rewrite nth_error_map, Hvs; split; reflexivity.
Qed.

(** C10, as stated, fails: the denominator of the video time base is not
    fixed at 30.  With a muxer that counts in milliseconds it is 1000
    when the frames are written, the divisor is 1 and one second is
    stamped 1000, not 1000 / 33 = 30.  With a muxer that counts in units
    of 1/90000 s the divisor is 0 and the first write divides by zero. *)
Lemma divisor_is_one_with_millisecond_muxer :
  (exists s,
     run (one_second_session millisecond_muxer) recorder0 = Some s /\
     video_time_base s = Some {| num := 1; den := 1000 |} /\
     Z.quot 1000 1000 = 1 /\ Z.quot 1000 1000 <> 33 /\
     map pts (packets (calls s)) = [1000; 1000] /\
     Z.quot 1000 33 = 30) /\
  (exists s,
     run mpegts_session recorder0 = Some s /\
     video_time_base s = Some {| num := 1; den := 90000 |} /\
     Z.quot 1000 90000 = 0 /\
     step (WriterStep (answers mpegts_muxer 1000 true true)) s = None).
Proof.
  split.
  - eexists. split; [vm_compute; reflexivity|].
    repeat split; try reflexivity. discriminate.
  - eexists. split; [vm_compute; reflexivity|].
    repeat split; reflexivity.
Qed.

(** C10, amended: both write paths compute the divisor
    [1000 / time_base.den] from the time base of the stream
    [m_videoStream] points to, as it is when the frame is written, and
    [writeAudioFrame] does not use the audio stream's.  Until a header is
    written that time base is the 1/30 [addVideoStream] set, which makes
    the divisor 33; a successful [avformat_write_header] replaces it by
    the one the muxer chose.  With a denominator between 1 and 1000 the
    divisor is between 1 and 1000, neither division fails, and the packet
    is stamped with the elapsed milliseconds divided by the divisor. *)
Theorem scaling_divisor_from_video_time_base :
  forall recordUrl snapshotInterval time alloc_ok guess events s tb,
    run events (MediaRecorder_new recordUrl snapshotInterval time alloc_ok guess)
      = Some s ->
    video_time_base s = Some tb ->
    (header_writes (calls s) = 0%nat ->
     tb = {| num := 1; den := 30 |} /\ Z.quot 1000 (den tb) = 33) /\
    (forall a s' vs,
       step (WriterStep a) s = Some s' ->
       header_writes (calls s') <> header_writes (calls s) ->
       write_header_ok a = true ->
       video_stream s = Some vs ->
       video_time_base s' = Some (header_time_base a vs)) /\
    (forall now frame,
       writeVideoFrame now frame s
       = (ts <- timestampToWrite now (m_recordStartTime s) tb ;;
          Some (call (av_write_frame
                        {| data := EncodedFrame.m_payloadData frame;
                           size := EncodedFrame.m_payloadSize frame;
                           pts := ts; stream_index := 0 |}) s))) /\
    (m_audioStream s <> None ->
     forall now frame,
       writeAudioFrame now frame s
       = (ts <- timestampToWrite now (m_recordStartTime s) tb ;;
          Some (call (av_write_frame
                        {| data := EncodedFrame.m_payloadData frame;
                           size := EncodedFrame.m_payloadSize frame;
                           pts := ts; stream_index := 1 |}) s))) /\
    (1 <= den tb <= 1000 ->
     1 <= Z.quot 1000 (den tb) <= 1000 /\
     forall now,
       timestampToWrite now (m_recordStartTime s) tb
       = Some (Z.quot (wrap64 (milliseconds now - m_recordStartTime s))
                 (Z.quot 1000 (den tb)))).
Proof.
  intros url si time alloc_ok guess events s tb Hrun Htb.
  pose proof (Inv_run_new _ _ _ _ _ _ _ Hrun) as HI.
  split; [|split; [|split; [|split]]].
  - intros H0.
    pose proof (run_time_bases_as_set events _ s Hrun
                  (fun _ => time_bases_as_set_new url si time alloc_ok guess)
                  H0) as Hset.
    unfold video_time_base, stream_at, bind in Htb.
    destruct (m_videoStream s) as [p|] eqn:Hp; [|discriminate].
    destruct (m_context s) as [ctx|] eqn:Hc; [|discriminate].
    destruct (inv_video_pointer _ HI p ctx Hp Hc) as (st & Hn & _ & Hk).
    rewrite Hn in Htb. injection Htb as <-.
    specialize (Hset ctx Hc). rewrite Forall_forall in Hset.
    rewrite (Hset st (nth_error_In _ _ Hn)).
    unfold set_time_base. rewrite Hk. split; reflexivity.
  - intros a s' vs Hstep Hne Hok Hvs.
    apply (header_sets_video_time_base a s s' vs HI Hstep Hne Hok Hvs).
  - apply (write_paths_read_video_time_base s tb Htb).
  - apply (write_paths_read_video_time_base s tb Htb).
  - intros Hden. split.
    + apply (timestampToWrite_divisor start_time 0 tb Hden).
    + intros now. apply (timestampToWrite_divisor now _ tb Hden).
Qed.

(** C3 at a failing input.  The recorder writes an AVI file, whose muxer
    leaves the streams the time bases the recorder set: 1/30 for the video
    stream and 1/8000 for the audio stream.  One second into the
    recording the audio frame is written with the presentation timestamp
    30, the elapsed time in units of the video stream's time base; in the
    audio stream's own time base one second is 8000.  The video frame is
    stamped in its own time base, up to the rounding of 1000 / 30 to 33:
    3300 ms give 100 where 3300 * 30 / 1000 is 99.  With a muxer that
    counts both streams in milliseconds each packet is stamped with the
    elapsed time in its own stream's time base. *)
Theorem audio_pts_in_video_time_base :
  (exists s au vs,
     run (one_second_session keeping_muxer) avi_recorder = Some s /\
     audio_stream s = Some au /\ video_stream s = Some vs /\
     AVStream.time_base au = {| num := 1; den := 8000 |} /\
     AVStream.time_base vs = {| num := 1; den := 30 |} /\
     packets (calls s)
     = [ {| data := [2]; size := 1; pts := 30; stream_index := 1 |};
         {| data := [1]; size := 1; pts := 30; stream_index := 0 |} ] /\
     rescale_ms 1000 (AVStream.time_base au) = 8000 /\
     rescale_ms 1000 (AVStream.time_base vs) = 30 /\
     timestampToWrite {| tv_sec := 1446000003; tv_usec := 300000 |}
       (m_recordStartTime s) (AVStream.time_base vs) = Some 100 /\
     rescale_ms 3300 (AVStream.time_base vs) = 99) /\
  (exists s au vs,
     run (one_second_session millisecond_muxer) recorder0 = Some s /\
     audio_stream s = Some au /\ video_stream s = Some vs /\
     AVStream.time_base au = {| num := 1; den := 1000 |} /\
     AVStream.time_base vs = {| num := 1; den := 1000 |} /\
     map pts (packets (calls s)) = [1000; 1000] /\
     rescale_ms 1000 (AVStream.time_base au) = 1000 /\
     rescale_ms 1000 (AVStream.time_base vs) = 1000).
Proof.
  split; eexists; eexists; eexists;
    (split; [vm_compute; reflexivity|]);
    (split; [vm_compute; reflexivity|]);
    (split; [vm_compute; reflexivity|]);
    repeat split; reflexivity.
Qed.

(** ** An iteration without arrivals *)

Lemma divisor_ok_range s tb :
  divisor_ok s = true -> video_time_base s = Some tb -> 1 <= den tb <= 1000.
Proof.
  unfold divisor_ok. intros H Htb. rewrite Htb in H.
  apply andb_true_iff in H as [A B]. lia.
Qed.

(** In the drain loops the read of the video time base succeeds. *)
Lemma drain_time_base s :
  Inv s -> in_drain s = true ->
  m_audioStream s <> None /\ m_videoStream s <> None /\
  exists tb, video_time_base s = Some tb.
Proof.
  intros HI Hd. destruct (inv_drain _ HI Hd) as (Ha & Hv & _).
  split; [exact Ha|]. split; [exact Hv|].
  destruct (inv_context_live _ HI) as (ctx & fmt & Hc & _).
  { destruct (in_drain_cases _ Hd) as [E | E]; rewrite E; discriminate. }
  destruct (m_videoStream s) as [p|] eqn:Hp; [|contradiction].
  destruct (inv_video_pointer _ HI p ctx Hp Hc) as (st & Hn & _).
  exists (AVStream.time_base st).
  unfold video_time_base, stream_at, bind. rewrite Hp, Hc, Hn. reflexivity.
Qed.

(** A step of the writer that writes a frame changes the call log and
    the queue it popped from. *)
Lemma drain_audio_step a s tb f rest :
  Inv s -> m_thread s = AtAudioDrain ->
  video_time_base s = Some tb -> 1 <= den tb <= 1000 ->
  MediaFrameQueue.m_queue (m_audioQueue s) = f :: rest ->
  recordLoop_step a s
  = Some (call (av_write_frame
                  (packet_at (now a) (m_recordStartTime s)
                     (Z.quot 1000 (den tb)) 1 f))
            (set_m_audioQueue
               {| MediaFrameQueue.m_startTimeOffset :=
                    MediaFrameQueue.m_startTimeOffset (m_audioQueue s);
                  MediaFrameQueue.m_queue := rest |} s)).
Proof.
  intros HI Ht Htb Hden Hq.
  destruct (drain_time_base s HI) as (Ha & _ & _).
  { unfold in_drain. rewrite Ht. reflexivity. }
  unfold recordLoop_step, MediaFrameQueue.popFrame. rewrite Ht, Hq.
  assert (Htb' : video_time_base
                   (set_m_audioQueue
                      {| MediaFrameQueue.m_startTimeOffset :=
                           MediaFrameQueue.m_startTimeOffset (m_audioQueue s);
                         MediaFrameQueue.m_queue := rest |} s) = Some tb)
    by exact Htb.
  destruct (write_paths_read_video_time_base _ tb Htb') as [_ Hw].
  rewrite Hw by exact Ha.
  destruct (timestampToWrite_divisor (now a) (m_recordStartTime s) tb Hden)
    as [_ Hts].
  fields. rewrite Hts. reflexivity.
Qed.

Lemma drain_video_step a s tb f rest :
  Inv s -> m_thread s = AtVideoDrain ->
  video_time_base s = Some tb -> 1 <= den tb <= 1000 ->
  MediaFrameQueue.m_queue (m_videoQueue s) = f :: rest ->
  recordLoop_step a s
  = Some (call (av_write_frame
                  (packet_at (now a) (m_recordStartTime s)
                     (Z.quot 1000 (den tb)) 0 f))
            (set_m_videoQueue
               {| MediaFrameQueue.m_startTimeOffset :=
                    MediaFrameQueue.m_startTimeOffset (m_videoQueue s);
                  MediaFrameQueue.m_queue := rest |} s)).
Proof.
  intros HI Ht Htb Hden Hq.
  unfold recordLoop_step, MediaFrameQueue.popFrame. rewrite Ht, Hq.
  assert (Htb' : video_time_base
                   (set_m_videoQueue
                      {| MediaFrameQueue.m_startTimeOffset :=
                           MediaFrameQueue.m_startTimeOffset (m_videoQueue s);
                         MediaFrameQueue.m_queue := rest |} s) = Some tb)
    by exact Htb.
  destruct (write_paths_read_video_time_base _ tb Htb') as [Hw _].
  rewrite Hw.
  destruct (timestampToWrite_divisor (now a) (m_recordStartTime s) tb Hden)
    as [_ Hts].
  fields. rewrite Hts. reflexivity.
Qed.

Lemma same_session_refl s : same_session s s.
Proof. repeat split. Qed.

Lemma same_session_trans s s1 s2 :
  same_session s s1 -> same_session s1 s2 -> same_session s s2.
Proof.
  unfold same_session. intros H1 H2.
  repeat match goal with H : _ /\ _ |- _ => destruct H end.
  repeat split; congruence.
Qed.

Lemma same_session_time_base s s1 :
  same_session s s1 -> video_time_base s1 = video_time_base s.
Proof.
  intros (_ & _ & Hv & _ & Hc & _).
  unfold video_time_base, stream_at. rewrite Hv, Hc. reflexivity.
Qed.

Lemma drain_audio_quiet tb fs : forall ws s,
  Inv s -> m_thread s = AtAudioDrain ->
  video_time_base s = Some tb -> 1 <= den tb <= 1000 ->
  MediaFrameQueue.m_queue (m_audioQueue s) = fs ->
  List.length ws = List.length fs ->
  exists s1,
    run (map WriterStep ws) s = Some s1 /\
    m_thread s1 = AtAudioDrain /\
    MediaFrameQueue.m_queue (m_audioQueue s1) = [] /\
    m_videoQueue s1 = m_videoQueue s /\
    same_session s s1 /\
    calls s1
    = calls s
      ++ write_each 1 (m_recordStartTime s) (Z.quot 1000 (den tb)) ws fs.
Proof.
  induction fs as [|f rest IH]; intros ws s HI Ht Htb Hden Hq Hlen.
  - destruct ws; [|discriminate]. exists s. cbn. rewrite app_nil_r.
    repeat split; auto.
  - destruct ws as [|w ws]; [discriminate|]. cbn [map run step].
    rewrite (drain_audio_step w s tb f rest HI Ht Htb Hden Hq). cbn [bind].
    set (s1 := call _ _).
    assert (He : step (WriterStep w) s = Some s1).
    { cbn [step]. apply (drain_audio_step w s tb f rest HI Ht Htb Hden Hq). }
    destruct (IH ws s1) as (s2 & Hrun & Ht2 & Hq2 & Hv2 & Hsame & Hc2).
    + apply (step_Inv _ _ _ HI He).
    + exact Ht.
    + exact Htb.
    + exact Hden.
    + reflexivity.
    + cbn in Hlen. lia.
    + exists s2. split; [exact Hrun|]. split; [exact Ht2|].
      split; [exact Hq2|]. split; [exact Hv2|].
      split; [apply (same_session_trans s s1); [repeat split | exact Hsame]|].
      pose proof Hsame as (_ & _ & _ & _ & _ & Hst2 & _).
      rewrite Hc2. subst s1. cbn. rewrite <- app_assoc. reflexivity.
Qed.

Lemma drain_video_quiet tb fs : forall ws s,
  Inv s -> m_thread s = AtVideoDrain ->
  video_time_base s = Some tb -> 1 <= den tb <= 1000 ->
  MediaFrameQueue.m_queue (m_videoQueue s) = fs ->
  List.length ws = List.length fs ->
  exists s1,
    run (map WriterStep ws) s = Some s1 /\
    m_thread s1 = AtVideoDrain /\
    MediaFrameQueue.m_queue (m_videoQueue s1) = [] /\
    m_audioQueue s1 = m_audioQueue s /\
    same_session s s1 /\
    calls s1
    = calls s
      ++ write_each 0 (m_recordStartTime s) (Z.quot 1000 (den tb)) ws fs.
Proof.
  induction fs as [|f rest IH]; intros ws s HI Ht Htb Hden Hq Hlen.
  - destruct ws; [|discriminate]. exists s. cbn. rewrite app_nil_r.
    repeat split; auto.
  - destruct ws as [|w ws]; [discriminate|]. cbn [map run step].
    rewrite (drain_video_step w s tb f rest HI Ht Htb Hden Hq). cbn [bind].
    set (s1 := call _ _).
    assert (He : step (WriterStep w) s = Some s1).
    { cbn [step]. apply (drain_video_step w s tb f rest HI Ht Htb Hden Hq). }
    destruct (IH ws s1) as (s2 & Hrun & Ht2 & Hq2 & Hv2 & Hsame & Hc2).
    + apply (step_Inv _ _ _ HI He).
    + exact Ht.
    + exact Htb.
    + exact Hden.
    + reflexivity.
    + cbn in Hlen. lia.
    + exists s2. split; [exact Hrun|]. split; [exact Ht2|].
      split; [exact Hq2|]. split; [exact Hv2|].
      split; [apply (same_session_trans s s1); [repeat split | exact Hsame]|].
      pose proof Hsame as (_ & _ & _ & _ & _ & Hst2 & _).
      rewrite Hc2. subst s1. cbn. rewrite <- app_assoc. reflexivity.
Qed.

(** One pass through both drain loops with no arrival. *)
Lemma quiet_iteration s tb wa w1 wv w2 :
  Inv s -> m_thread s = AtAudioDrain ->
  video_time_base s = Some tb -> 1 <= den tb <= 1000 ->
  List.length wa = List.length (MediaFrameQueue.m_queue (m_audioQueue s)) ->
  List.length wv = List.length (MediaFrameQueue.m_queue (m_videoQueue s)) ->
  exists s',
    run (map WriterStep (wa ++ w1 :: wv ++ [w2])) s = Some s' /\
    m_thread s' = AtWhile /\
    same_session s s' /\
    MediaFrameQueue.m_queue (m_audioQueue s') = [] /\
    MediaFrameQueue.m_queue (m_videoQueue s') = [] /\
    calls s'
    = calls s
      ++ write_each 1 (m_recordStartTime s) (Z.quot 1000 (den tb)) wa
           (MediaFrameQueue.m_queue (m_audioQueue s))
      ++ write_each 0 (m_recordStartTime s) (Z.quot 1000 (den tb)) wv
           (MediaFrameQueue.m_queue (m_videoQueue s)).
Proof.
  intros HI Ht Htb Hden Hla Hlv.
  destruct (drain_audio_quiet tb _ wa s HI Ht Htb Hden eq_refl Hla)
    as (s1 & Hr1 & Ht1 & Hq1 & Hv1 & Hsame1 & Hc1).
  pose proof (run_Inv _ _ _ HI Hr1) as HI1.
  pose proof (same_session_time_base _ _ Hsame1) as Htb1.
  rewrite Htb in Htb1.
  set (s2 := set_m_thread AtVideoDrain s1).
  assert (He2 : step (WriterStep w1) s1 = Some s2).
  { cbn [step]. unfold recordLoop_step, MediaFrameQueue.popFrame.
    rewrite Ht1, Hq1. reflexivity. }
  pose proof (step_Inv _ _ _ HI1 He2) as HI2.
  destruct (drain_video_quiet tb _ wv s2 HI2 eq_refl Htb1 Hden eq_refl)
    as (s3 & Hr3 & Ht3 & Hq3 & Ha3 & Hsame3 & Hc3).
  { subst s2. cbn. rewrite Hv1. exact Hlv. }
  exists (set_m_thread AtWhile s3).
  split.
  - rewrite map_app, run_app, Hr1. cbn [bind map run]. rewrite He2.
    cbn [bind]. rewrite map_app, run_app, Hr3. cbn [bind map run step].
    unfold recordLoop_step, MediaFrameQueue.popFrame. rewrite Ht3, Hq3.
    reflexivity.
  - cbn. split; [reflexivity|].
    split.
    { apply (same_session_trans s s1); [exact Hsame1|].
      apply (same_session_trans s1 s3); [exact Hsame3|].
      repeat split. }
    rewrite Ha3. subst s2. cbn.
    split; [exact Hq1|]. split; [exact Hq3|].
    destruct Hsame1 as (_ & _ & _ & _ & _ & Hst1 & _).
    rewrite Hc3. cbn. rewrite Hc1, Hst1, Hv1, <- app_assoc. reflexivity.
Qed.

(** X2: when no frame arrives and the denominator of the video time base
    is between 1 and 1000, one pass of the two drain loops ends: after as
    many writer steps as there are queued frames, plus two, the writer is
    back at the loop test, both queues are empty, and every queued frame
    has been written, audio first, each stamped with the time elapsed at
    its own step divided by [1000 / den]. *)
Theorem quiet_iteration_writes_every_frame :
  forall recordUrl snapshotInterval time alloc_ok guess before s tb
         wa w1 wv w2,
    run before (MediaRecorder_new recordUrl snapshotInterval time alloc_ok guess)
      = Some s ->
    m_thread s = AtAudioDrain ->
    video_time_base s = Some tb ->
    1 <= den tb <= 1000 ->
    List.length wa = List.length (MediaFrameQueue.m_queue (m_audioQueue s)) ->
    List.length wv = List.length (MediaFrameQueue.m_queue (m_videoQueue s)) ->
    exists s',
      run (map WriterStep (wa ++ w1 :: wv ++ [w2])) s = Some s' /\
      m_thread s' = AtWhile /\
      same_session s s' /\
      MediaFrameQueue.m_queue (m_audioQueue s') = [] /\
      MediaFrameQueue.m_queue (m_videoQueue s') = [] /\
      calls s'
      = calls s
        ++ write_each 1 (m_recordStartTime s) (Z.quot 1000 (den tb)) wa
             (MediaFrameQueue.m_queue (m_audioQueue s))
        ++ write_each 0 (m_recordStartTime s) (Z.quot 1000 (den tb)) wv
             (MediaFrameQueue.m_queue (m_videoQueue s)).
Proof.
  intros url si time alloc_ok guess before s tb wa w1 wv w2
         Hrun Ht Htb Hden Hla Hlv.
  pose proof (Inv_run_new _ _ _ _ _ _ _ Hrun) as HI.
  apply (quiet_iteration s tb wa w1 wv w2 HI Ht Htb Hden Hla Hlv).
Qed.

(** ** Audio before video *)


(** ** Three video frames, then one audio frame *)



(** ** close() comes to an end *)

Lemma video_time_base_pointer s :
  Inv s -> m_videoStream s <> None -> m_thread s <> Returned ->
  exists vs, video_stream s = Some vs /\
             video_time_base s = Some (AVStream.time_base vs).
Proof.
  intros HI Hv Ht.
  destruct (inv_context_live _ HI Ht) as (ctx & fmt & Hc & _).
  destruct (m_videoStream s) as [p|] eqn:Hp; [|contradiction].
  destruct (inv_video_pointer _ HI p ctx Hp Hc) as (st & Hn & _).
  exists st. unfold video_stream, video_time_base, stream_at, bind.
  rewrite Hp, Hc, Hn. split; reflexivity.
Qed.

(** With the stop flag down, every step of the writer brings it nearer to
    its return, as long as the divisor of the write paths is not zero. *)
Lemma writer_step_down a s :
  Inv s -> m_muxing s = false -> divisor_ok s = true -> answer_ok a ->
  exists s1,
    recordLoop_step a s = Some s1 /\
    m_muxing s1 = false /\ owner s1 = owner s /\
    divisor_ok s1 = true /\
    (context_live s -> context_live s1) /\
    (m_thread s = Returned -> s1 = s) /\
    (m_thread s <> Returned ->
     (steps_to_return s1 < steps_to_return s)%nat).
Proof.
  intros HI Hm Hd Ha.
  destruct (m_thread s) eqn:Ht.
  - (* AtWhile *)
    exists (set_m_thread Returned s).
    unfold recordLoop_step. rewrite Ht, Hm.
    split; [reflexivity|]. split; [exact Hm|]. split; [reflexivity|].
    split; [exact Hd|]. split; [auto|]. split; [discriminate|].
    intros _. unfold steps_to_return. cbn. rewrite Ht. lia.
  - (* AtSwitch *)
    unfold recordLoop_step. rewrite Ht.
    destruct (m_status s); eexists; (split; [reflexivity|]);
      (split; [exact Hm|]); (split; [reflexivity|]);
      (split; [exact Hd|]); (split; [auto|]); (split; [discriminate|]);
      intros _; unfold steps_to_return; cbn; rewrite Ht; lia.
  - (* AtEmptyCase *)
    destruct (inv_context_live _ HI) as (ctx & fmt & Hc & Hf);
      [rewrite Ht; discriminate|].
    unfold recordLoop_step, recordLoop_empty, bind. rewrite Ht.
    destruct (m_audioStream s) as [pa|] eqn:Hpa;
      [destruct (m_videoStream s) as [pv|] eqn:Hpv|].
    + rewrite Hc, Hf.
      destruct (inv_video_pointer _ HI pv ctx Hpv Hc) as (st & Hn & _).
      destruct (Ha st) as [L U].
      destruct (Z.land (AVOutputFormat.flags fmt) AVFMT_NOFILE =? 0);
        cbn [negb andb]; [destruct (avio_open_ok a)|]; cbn [negb];
        try destruct (write_header_ok a);
        eexists; (split; [reflexivity|]);
        (split; [exact Hm|]); (split; [reflexivity|]);
        (split;
         [unfold divisor_ok, video_time_base, stream_at, bind in *;
          cbn; rewrite Hpv in *; rewrite Hc in Hd; rewrite ?Hc; cbn;
          rewrite ?nth_error_map, ?Hn in *; cbn;
          first [exact Hd
                | apply andb_true_iff; split; apply Z.leb_le; assumption]|]);
        (split;
         [intros _; unfold context_live; cbn;
          do 2 eexists; split; [first [reflexivity | exact Hc] | exact Hf]|]);
        (split; [discriminate|]);
        intros _; unfold steps_to_return; cbn; rewrite Ht; lia.
    + eexists; (split; [reflexivity|]);
        (split; [exact Hm|]); (split; [reflexivity|]);
        (split; [exact Hd|]); (split; [auto|]); (split; [discriminate|]).
      intros _. unfold steps_to_return. cbn. rewrite Ht. lia.
    + eexists; (split; [reflexivity|]);
        (split; [exact Hm|]); (split; [reflexivity|]);
        (split; [exact Hd|]); (split; [auto|]); (split; [discriminate|]).
      intros _. unfold steps_to_return. cbn. rewrite Ht. lia.
  - (* AtAudioDrain *)
    destruct (drain_time_base s HI) as (_ & _ & tb & Htb);
      [unfold in_drain; rewrite Ht; reflexivity|].
    pose proof (divisor_ok_range s tb Hd Htb) as Hden.
    destruct (MediaFrameQueue.m_queue (m_audioQueue s)) as [|f rest] eqn:Hq.
    + exists (set_m_thread AtVideoDrain s).
      unfold recordLoop_step, MediaFrameQueue.popFrame. rewrite Ht, Hq.
      split; [reflexivity|]. split; [exact Hm|]. split; [reflexivity|].
      split; [exact Hd|]. split; [auto|]. split; [discriminate|].
      intros _. unfold steps_to_return. cbn. rewrite Ht, Hq. cbn. lia.
    + rewrite (drain_audio_step a s tb f rest HI Ht Htb Hden Hq).
      eexists. split; [reflexivity|]. split; [exact Hm|].
      split; [reflexivity|]. split; [exact Hd|]. split; [auto|].
      split; [discriminate|].
      intros _. unfold steps_to_return. cbn. rewrite Ht, Hq. cbn. lia.
  - (* AtVideoDrain *)
    destruct (drain_time_base s HI) as (_ & _ & tb & Htb);
      [unfold in_drain; rewrite Ht; reflexivity|].
    pose proof (divisor_ok_range s tb Hd Htb) as Hden.
    destruct (MediaFrameQueue.m_queue (m_videoQueue s)) as [|f rest] eqn:Hq.
    + exists (set_m_thread AtWhile s).
      unfold recordLoop_step, MediaFrameQueue.popFrame. rewrite Ht, Hq.
      split; [reflexivity|]. split; [exact Hm|]. split; [reflexivity|].
      split; [exact Hd|]. split; [auto|]. split; [discriminate|].
      intros _. unfold steps_to_return. cbn. rewrite Ht, Hq. cbn. lia.
    + rewrite (drain_video_step a s tb f rest HI Ht Htb Hden Hq).
      eexists. split; [reflexivity|]. split; [exact Hm|].
      split; [reflexivity|]. split; [exact Hd|]. split; [auto|].
      split; [discriminate|].
      intros _. unfold steps_to_return. cbn. rewrite Ht, Hq. cbn. lia.
  - (* Returned *)
    exists s. unfold recordLoop_step. rewrite Ht.
    split; [reflexivity|]. split; [exact Hm|]. split; [reflexivity|].
    split; [exact Hd|]. split; [auto|]. split; [reflexivity|].
    intros H. contradiction.
Qed.

Lemma writer_returns ws : forall s,
  Inv s -> m_muxing s = false -> divisor_ok s = true ->
  Forall answer_ok ws ->
  (steps_to_return s <= List.length ws)%nat ->
  exists s',
    run (map WriterStep ws) s = Some s' /\
    m_thread s' = Returned /\ owner s' = owner s /\
    (context_live s -> context_live s').
Proof.
  induction ws as [|w ws IH]; intros s HI Hm Hd Hws Hlen.
  - exists s. cbn in *. repeat split; auto.
    unfold steps_to_return in Hlen. destruct (m_thread s); auto; lia.
  - inversion Hws as [|? ? Hw Hws']; subst.
    destruct (writer_step_down w s HI Hm Hd Hw)
      as (s1 & He & Hm1 & Ho1 & Hd1 & Hl1 & Hsame & Hdown).
    assert (Hs : step (WriterStep w) s = Some s1) by exact He.
    destruct (IH s1 (step_Inv _ _ _ HI Hs) Hm1 Hd1 Hws')
      as (s' & Hr & Ht & Ho & Hl).
    + cbn [List.length] in Hlen.
      destruct (m_thread s) eqn:Hth;
        try (assert (steps_to_return s1 < steps_to_return s)%nat
               by (apply Hdown; congruence); lia).
      rewrite (Hsame eq_refl). unfold steps_to_return. rewrite Hth. lia.
    + exists s'. cbn [map run]. rewrite Hs. cbn [bind].
      split; [exact Hr|]. split; [exact Ht|]. split; [congruence|].
      auto.
Qed.

(** X3: close() on a recorder whose writer is running comes to an end,
    provided the divisor of the write paths is not zero: the video time
    base the write paths read has a denominator between 1 and 1000, and so
    has every time base the muxer would give a stream.  With no frame
    arriving, the writer returns within as many steps as there are queued
    frames plus five, the join returns, and the context is released
    exactly once. *)
Theorem close_terminates :
  forall recordUrl snapshotInterval time alloc_ok guess before s ws,
    run before (MediaRecorder_new recordUrl snapshotInterval time alloc_ok guess)
      = Some s ->
    owner s = Outside ->
    m_thread s <> Returned ->
    divisor_ok s = true ->
    Forall answer_ok ws ->
    (List.length (MediaFrameQueue.m_queue (m_audioQueue s))
     + List.length (MediaFrameQueue.m_queue (m_videoQueue s)) + 5
     <= List.length ws)%nat ->
    exists s',
      run (Close :: map WriterStep ws ++ [JoinReturns]) s = Some s' /\
      m_thread s' = Returned /\
      m_context s' = None /\
      owner s' = Outside /\
      context_frees (calls s') = 1%nat.
Proof.
  intros url si time alloc_ok guess before s ws Hrun Ho Ht Hd Hws Hlen.
  pose proof (Inv_run_new _ _ _ _ _ _ _ Hrun) as HI.
  assert (Hlive : context_live s) by (apply (inv_context_live _ HI Ht)).
  assert (Hc : step Close s = Some (close_enter s))
    by (cbn [step]; rewrite Ho; reflexivity).
  pose proof (step_Inv _ _ _ HI Hc) as HI1.
  destruct (writer_returns ws (close_enter s) HI1 eq_refl Hd Hws)
    as (s2 & Hr2 & Ht2 & Ho2 & Hl2).
  { unfold steps_to_return, close_enter. cbn.
    destruct (m_thread s); lia. }
  pose proof (run_Inv _ _ _ HI1 Hr2) as HI2.
  destruct (close_finalize_live s2 HI2 (Hl2 Hlive))
    as (s3 & Hf & Hctx & Hfree & _ & _ & _ & _ & _ & Ht3 & _).
  exists (set_owner Outside s3).
  assert (Hj : step JoinReturns s2 = Some (set_owner Outside s3)).
  { cbn [step]. rewrite Ho2. cbn [owner close_enter set_owner].
    rewrite Ht2, Hf. reflexivity. }
  split.
  - cbn [run]. rewrite Hc. cbn [bind]. rewrite run_app, Hr2. cbn [bind run].
    rewrite Hj. reflexivity.
  - cbn [m_thread m_context owner calls set_owner].
    split; [congruence|]. split; [exact Hctx|]. split; [reflexivity|].
    exact Hfree.
Qed.

(** X24: a muxer that counts in finer units than milliseconds makes the
    write paths divide by zero: when the denominator of the video time
    base is above 1000, the step of the writer that takes a frame from a
    queue does not return. *)
Theorem write_divides_by_zero :
  forall recordUrl snapshotInterval time alloc_ok guess events s tb a,
    run events (MediaRecorder_new recordUrl snapshotInterval time alloc_ok guess)
      = Some s ->
    video_time_base s = Some tb -> 1000 < den tb ->
    Z.quot 1000 (den tb) = 0 /\
    (m_thread s = AtAudioDrain ->
     MediaFrameQueue.m_queue (m_audioQueue s) <> [] ->
     step (WriterStep a) s = None) /\
    (m_thread s = AtVideoDrain ->
     MediaFrameQueue.m_queue (m_videoQueue s) <> [] ->
     step (WriterStep a) s = None).
Proof.
  intros url si time alloc_ok guess events s tb a Hrun Htb Hden.
  pose proof (Inv_run_new _ _ _ _ _ _ _ Hrun) as HI.
  destruct (timestampToWrite_zero_divisor (now a) (m_recordStartTime s) tb
              Hden) as [Hz Hts].
  split; [exact Hz|].
  split; intros Ht Hq; cbn [step];
    unfold recordLoop_step, MediaFrameQueue.popFrame; rewrite Ht.
  - destruct (drain_time_base s HI) as (Ha & _ & _);
      [unfold in_drain; rewrite Ht; reflexivity|].
    destruct (MediaFrameQueue.m_queue (m_audioQueue s)) as [|f rest] eqn:E;
      [contradiction|].
    match goal with
    | |- writeAudioFrame _ _ ?s1 = None =>
        assert (Htb' : video_time_base s1 = Some tb) by exact Htb;
        destruct (write_paths_read_video_time_base s1 tb Htb') as [_ Hw];
        rewrite Hw by exact Ha
    end.
    fields. rewrite Hts. reflexivity.
  - destruct (MediaFrameQueue.m_queue (m_videoQueue s)) as [|f rest] eqn:E;
      [contradiction|].
    match goal with
    | |- writeVideoFrame _ _ ?s1 = None =>
        assert (Htb' : video_time_base s1 = Some tb) by exact Htb;
        destruct (write_paths_read_video_time_base s1 tb Htb') as [Hw _];
        rewrite Hw
    end.
    fields. rewrite Hts. reflexivity.
Qed.

(** ** Presentation timestamps *)

Lemma wrap64_small z : - 2 ^ 63 <= z < 2 ^ 63 -> wrap64 z = z.
Proof.
  intros H. unfold wrap64. rewrite Z.mod_small; lia.
Qed.

Lemma milliseconds_exact t :
  clock_range t ->
  milliseconds t = tv_sec t * 1000 + Z.quot (tv_usec t) 1000 /\
  0 <= milliseconds t < 2 ^ 51.
Proof.
  intros [Hs Hu]. unfold milliseconds.
  assert (Hq : 0 <= Z.quot (tv_usec t) 1000 < 1000).
  { rewrite Z.quot_div_nonneg by lia. split.
    - apply Z.div_pos; lia.
    - apply Z.div_lt_upper_bound; lia. }
  rewrite (wrap64_small (tv_sec t * 1000)) by lia.
  rewrite wrap64_small by lia. lia.
Qed.

(** X14: with a clock that does not run backwards and a video time base
    whose denominator is between 1 and 1000, both write paths stamp
    non-negative, non-decreasing timestamps, and a timestamp counts the
    whole periods of [1000 / den] milliseconds elapsed since the start of
    the recording: periods of 33 ms for the time base 1/30 that
    [addVideoStream] sets, of 1 ms for a muxer that counts in
    milliseconds. *)
Theorem pts_counts_33ms_ticks :
  forall start now1 now2 tb,
    clock_range start -> clock_range now1 -> clock_range now2 ->
    milliseconds start <= milliseconds now1 <= milliseconds now2 ->
    1 <= den tb <= 1000 ->
    let period := Z.quot 1000 (den tb) in
    exists p1 p2,
      timestampToWrite now1 (milliseconds start) tb = Some p1 /\
      timestampToWrite now2 (milliseconds start) tb = Some p2 /\
      0 <= p1 <= p2 /\
      period * p1 <= milliseconds now1 - milliseconds start
        < period * p1 + period /\
      (den tb = 30 -> period = 33) /\ (den tb = 1000 -> period = 1).
Proof.
  intros start now1 now2 tb Hs H1 H2 Hle Hden period.
  destruct (timestampToWrite_divisor now1 (milliseconds start) tb Hden)
    as [Hq ->].
  destruct (timestampToWrite_divisor now2 (milliseconds start) tb Hden)
    as [_ ->].
  fold period in Hq |- *.
  destruct (milliseconds_exact start Hs) as [_ Hrs].
  destruct (milliseconds_exact now1 H1) as [_ Hr1].
  destruct (milliseconds_exact now2 H2) as [_ Hr2].
  rewrite (wrap64_small (milliseconds now1 - milliseconds start)) by lia.
  rewrite (wrap64_small (milliseconds now2 - milliseconds start)) by lia.
  set (e1 := milliseconds now1 - milliseconds start) in *.
  set (e2 := milliseconds now2 - milliseconds start) in *.
  assert (He1 : 0 <= e1 < 2 ^ 51) by (unfold e1; lia).
  assert (He2 : 0 <= e2 < 2 ^ 51) by (unfold e2; lia).
  exists (Z.quot e1 period), (Z.quot e2 period).
  split; [reflexivity|]. split; [reflexivity|].
  rewrite !Z.quot_div_nonneg by lia.
  split; [split|split].
  - apply Z.div_pos; lia.
  - apply Z.div_le_mono; lia.
  - pose proof (Z.div_mod e1 period ltac:(lia)).
    pose proof (Z.mod_pos_bound e1 period ltac:(lia)). lia.
  - split; intros E; unfold period; rewrite E; reflexivity.
Qed.

(** ** When the writer loop returns *)

Lemma close_finalize_members s s1 :
  close_finalize s = Some s1 ->
  m_status s1 = m_status s /\ m_muxing s1 = m_muxing s /\
  m_thread s1 = m_thread s /\ owner s1 = owner s /\
  m_videoStream s1 = m_videoStream s /\ m_audioStream s1 = m_audioStream s /\
  m_producers s1 = m_producers s /\
  m_videoQueue s1 = m_videoQueue s /\ m_audioQueue s1 = m_audioQueue s /\
  packets (calls s1) = packets (calls s).
Proof.
  intros H. unfold close_finalize, close_codec, stream_at, bind in H.
  repeat (break_in H; try discriminate); some_inv; fields;
    repeat rewrite packets_call; cbn [app]; rewrite ?app_nil_r;
    repeat split; congruence.
Qed.

Ltac stopped Hs :=
  let Ht := fresh "Ht" in
  intros Ht;
  first [ solve [left; first [reflexivity | congruence]]
        | solve [right; first [reflexivity | congruence]]
        | solve [apply Hs in Ht; destruct Ht; [left | right]; congruence]
        | solve [destruct (Hs eq_refl); [left | right]; congruence]
        | congruence ].

Lemma step_returned_stopped e s s1 :
  step e s = Some s1 ->
  (m_thread s = Returned -> stopped_or_failed s) ->
  m_thread s1 = Returned -> stopped_or_failed s1.
Proof.
  intros H Hs. unfold stopped_or_failed in *.
  destruct e as [thread frame|thread ok|a| | |].
  1-4, 6: unfold_step H;
    repeat (break_in H; try discriminate); some_inv; fields;
    stopped Hs.
  cbn [step] in H. unfold bind in H.
  destruct (owner s); [some_inv; exact Hs|].
  destruct (m_thread s) eqn:Ht; try (some_inv; stopped Hs).
  destruct (close_finalize s) as [s2|] eqn:Hf; [|discriminate].
  some_inv. fields.
  destruct (close_finalize_members s s2 Hf) as (E1 & E2 & E3 & _).
  rewrite E1, E2. intros _. apply Hs. reflexivity.
Qed.

(** X4: the writer loop of a recorder whose init succeeded returns only
    when close() has lowered [m_muxing] or the state is Error; there is no
    other way out, in particular no timeout. *)
Theorem writer_returns_only_when_stopped_or_failed :
  forall recordUrl snapshotInterval time fmt events s,
    run events
      (MediaRecorder_new recordUrl snapshotInterval time true (Some fmt))
      = Some s ->
    m_thread s = Returned ->
    m_muxing s = false \/ m_status s = Context_ERROR.
Proof.
  intros url si time fmt events.
  assert (Hgen : forall s0 s, run events s0 = Some s ->
            (m_thread s0 = Returned -> stopped_or_failed s0) ->
            m_thread s = Returned -> stopped_or_failed s).
  { induction events as [|e rest IH]; intros s0 s Hrun Hs.
    - cbn in Hrun. some_inv. exact Hs.
    - cbn [run] in Hrun. unfold bind in Hrun.
      destruct (step e s0) as [s1|] eqn:He; [|discriminate].
      apply (IH s1 s Hrun (step_returned_stopped e s0 s1 He Hs)). }
  intros s Hrun Ht.
  apply (Hgen _ s Hrun); [|exact Ht].
  cbn. discriminate.
Qed.

(** ** Releasing the context *)

(** X18: whatever the owner does (close() once or again, the destructor),
    an execution writes the trailer at most once and releases the context
    at most once, writes no trailer without releasing the context, and
    does neither while it still holds the context. *)
Theorem context_released_at_most_once :
  forall recordUrl snapshotInterval time alloc_ok guess events s,
    run events (MediaRecorder_new recordUrl snapshotInterval time alloc_ok guess)
      = Some s ->
    (trailer_writes (calls s) <= context_frees (calls s) <= 1)%nat /\
    (m_context s <> None ->
     trailer_writes (calls s) = 0%nat /\ context_frees (calls s) = 0%nat).
Proof.
  intros url si time alloc_ok guess events s Hrun.
  pose proof (Inv_run_new _ _ _ _ _ _ _ Hrun) as HI.
  pose proof (inv_finalized _ HI) as Hfin.
  split.
  - destruct (m_context s); lia.
  - intros Hne. destruct (m_context s); [exact Hfin | contradiction].
Qed.

Lemma step_closed_muxing e s s1 :
  Inv s -> step e s = Some s1 ->
  (m_context s = None -> m_muxing s = false) ->
  m_context s1 = None -> m_muxing s1 = false.
Proof.
  intros HI H Hs.
  pose proof (inv_join_muxing _ HI) as Hj.
  destruct e; unfold_step H;
  repeat (break_in H; try discriminate); some_inv; fields;
  try exact Hs; try (intros; reflexivity); try (intros; discriminate);
  intros; rew_state;
  try solve [intuition congruence].
Qed.

(** X20: once close() has released the context of a recorder whose init
    succeeded, [m_muxing] is down and the writer has returned, so the
    destructor does nothing: it makes no call and changes no member. *)
Theorem destructor_after_close_does_nothing :
  forall recordUrl snapshotInterval time fmt events s,
    run events
      (MediaRecorder_new recordUrl snapshotInterval time true (Some fmt))
      = Some s ->
    m_context s = None ->
    m_muxing s = false /\ m_thread s = Returned /\ step Destroy s = Some s.
Proof.
  intros url si time fmt events s Hrun Hctx.
  assert (Hgen : forall evs s0 s', Inv s0 ->
            (m_context s0 = None -> m_muxing s0 = false) ->
            run evs s0 = Some s' ->
            m_context s' = None -> m_muxing s' = false).
  { induction evs as [|e rest IH]; cbn [run]; intros s0 s' HI Hs H.
    - some_inv. exact Hs.
    - unfold bind in H. destruct (step e s0) as [s1|] eqn:He; [|discriminate].
      apply (IH s1 s' (step_Inv e s0 s1 HI He)
               (step_closed_muxing e s0 s1 HI He Hs) H). }
  assert (Hm : m_muxing s = false).
  { apply (Hgen events _ s (Inv_initial _ (ex_intro _ url (ex_intro _ si
             (ex_intro _ time (ex_intro _ true (ex_intro _ (Some fmt)
                eq_refl))))))); [|exact Hrun|exact Hctx].
    cbn. discriminate. }
  pose proof (Inv_run_new _ _ _ _ _ _ _ Hrun) as HI.
  split; [exact Hm|]. split.
  - destruct (m_thread s) eqn:Hpc; try reflexivity;
      destruct (inv_context_live _ HI) as (ctx & f & Hc & _);
      congruence.
  - cbn [step]. rewrite Hm. destruct (owner s); reflexivity.
Qed.

(** ** Frames of other formats *)

Lemma step_other_arrival e s :
  is_other_arrival e = true -> step e s = Some s.
Proof.
  destruct e as [thread frame| | | | |]; cbn [is_other_arrival];
    try discriminate.
  intros H. cbn [step]. unfold onFrame.
  destruct (Frame.format frame); try discriminate.
  destruct (producer_pc thread (m_producers s)); [reflexivity|].
  destruct (m_status s); reflexivity.
Qed.

(** X22: a frame that is neither VP8 nor PCMU leaves no trace: taking the
    calls of [onFrame] with such frames out of an execution changes
    neither whether it survives nor the state it ends in. *)
Theorem frames_of_other_formats_leave_no_trace :
  forall events s,
    run (filter (fun e => negb (is_other_arrival e)) events) s
    = run events s.
Proof.
  induction events as [|e rest IH]; intros s; [reflexivity|].
  cbn [filter]. destruct (is_other_arrival e) eqn:He; cbn [negb run].
  - rewrite (step_other_arrival e s He). cbn [bind]. apply IH.
  - unfold bind. destruct (step e s) as [s1|]; [apply IH | reflexivity].
Qed.

(** ** Frames are neither lost nor reordered *)

Lemma track_packets_call index l c :
  track_packets index (l ++ [c])
  = track_packets index l
    ++ match c with
       | av_write_frame p => if stream_index p =? index then [p] else []
       | _ => []
       end.
Proof.
  unfold track_packets. rewrite packets_call, filter_app.
  destruct c; reflexivity.
Qed.

Lemma step_conserves e s s1 :
  Inv s -> step e s = Some s1 ->
  (map packet_frame (track_packets 1 (calls s1))
   ++ map queued_frame (MediaFrameQueue.m_queue (m_audioQueue s1))
   = (map packet_frame (track_packets 1 (calls s))
      ++ map queued_frame (MediaFrameQueue.m_queue (m_audioQueue s)))
     ++ map queued_frame (audio_push e s)) /\
  (map packet_frame (track_packets 0 (calls s1))
   ++ map queued_frame (MediaFrameQueue.m_queue (m_videoQueue s1))
   = (map packet_frame (track_packets 0 (calls s))
      ++ map queued_frame (MediaFrameQueue.m_queue (m_videoQueue s)))
     ++ map queued_frame (video_push e s)).
Proof.
  intros HI H.
  destruct e as [thread frame|thread ok|a| | |].
  - destruct (producer_step_queues _ s s1
                (or_introl (ex_intro _ thread (ex_intro _ frame eq_refl))) H)
      as (Hp & _ & Ha & Hv).
    unfold track_packets. rewrite Hp, Ha, Hv, !map_app, !app_assoc.
    split; reflexivity.
  - destruct (producer_step_queues _ s s1
                (or_intror (ex_intro _ thread (ex_intro _ ok eq_refl))) H)
      as (Hp & _ & Ha & Hv).
    unfold track_packets. rewrite Hp, Ha, Hv, !map_app, !app_assoc.
    split; reflexivity.
  - cbn [step] in H. cbn [audio_push video_push map].
    repeat rewrite app_nil_r.
    destruct (m_thread s) eqn:Ht.
    + unfold recordLoop_step in H. rewrite Ht in H. some_inv. split; reflexivity.
    + unfold recordLoop_step in H. rewrite Ht in H.
      destruct (m_status s); some_inv; split; reflexivity.
    + unfold recordLoop_step, recordLoop_empty, bind in H. rewrite Ht in H.
      repeat (break_in H; try discriminate); some_inv; fields;
      repeat rewrite track_packets_call; repeat rewrite app_nil_r;
      split; reflexivity.
    + pose proof (recordLoop_step_audio a s s1 Ht H) as Hs.
      destruct (inv_drain _ HI) as (Hau & _ & _);
        [unfold in_drain; rewrite Ht; reflexivity|].
      destruct (MediaFrameQueue.m_queue (m_audioQueue s)) as [|f rest] eqn:Hq.
      * subst s1. fields. rewrite Hq. split; reflexivity.
      * destruct Hs as (_ & Hq1 & Hv1 & [(_ & ts & Hc) | (Hn & _)]);
          [|contradiction].
        rewrite Hc, Hq1, Hv1, !track_packets_call. cbn.
        rewrite app_nil_r, map_app, <- app_assoc. split; reflexivity.
    + pose proof (recordLoop_step_video a s s1 Ht H) as Hs.
      destruct (inv_drain _ HI) as (_ & Hvi & _);
        [unfold in_drain; rewrite Ht; reflexivity|].
      destruct (MediaFrameQueue.m_queue (m_videoQueue s)) as [|f rest] eqn:Hq.
      * subst s1. fields. rewrite Hq. split; reflexivity.
      * destruct Hs as (_ & Hq1 & Ha1 & [(_ & ts & Hc) | (Hn & _)]);
          [|contradiction].
        rewrite Hc, Hq1, Ha1, !track_packets_call. cbn.
        rewrite app_nil_r, map_app, <- app_assoc. split; reflexivity.
    + unfold recordLoop_step in H. rewrite Ht in H. some_inv. split; reflexivity.
  - cbn [step] in H. cbn. repeat rewrite app_nil_r.
    destruct (owner s); some_inv; split; reflexivity.
  - cbn [step] in H. cbn [audio_push video_push map].
    repeat rewrite app_nil_r.
    destruct (owner s); some_inv; [split; reflexivity|].
    destruct (m_thread s); some_inv; try (split; reflexivity).
    unfold bind in H.
    destruct (close_finalize s) as [s2|] eqn:Hf; [|discriminate].
    some_inv. fields.
    destruct (close_finalize_members s s2 Hf)
      as (_ & _ & _ & _ & _ & _ & _ & Hv & Ha & Hp).
    unfold track_packets. rewrite Hp, Hv, Ha. split; reflexivity.
  - cbn [step] in H. cbn. repeat rewrite app_nil_r.
    destruct (owner s); [destruct (m_muxing s)|]; some_inv; split; reflexivity.
Qed.

Lemma run_conserves events : forall s s',
  Inv s -> run events s = Some s' ->
  (map packet_frame (track_packets 1 (calls s'))
   ++ map queued_frame (MediaFrameQueue.m_queue (m_audioQueue s'))
   = (map packet_frame (track_packets 1 (calls s))
      ++ map queued_frame (MediaFrameQueue.m_queue (m_audioQueue s)))
     ++ map queued_frame (audio_arrivals events s)) /\
  (map packet_frame (track_packets 0 (calls s'))
   ++ map queued_frame (MediaFrameQueue.m_queue (m_videoQueue s'))
   = (map packet_frame (track_packets 0 (calls s))
      ++ map queued_frame (MediaFrameQueue.m_queue (m_videoQueue s)))
     ++ map queued_frame (video_arrivals events s)).
Proof.
  induction events as [|e rest IH]; intros s s' HI Hrun.
  - cbn in Hrun. some_inv. cbn. repeat rewrite app_nil_r. split; reflexivity.
  - cbn [run] in Hrun. unfold bind in Hrun.
    cbn [audio_arrivals video_arrivals].
    destruct (step e s) as [s1|] eqn:He; [|discriminate].
    pose proof (step_Inv _ _ _ HI He) as HI1.
    destruct (step_conserves e s s1 HI He) as [Ha1 Hv1].
    destruct (IH s1 s' HI1 Hrun) as [Ha Hv].
    rewrite Ha, Hv, Ha1, Hv1. repeat rewrite map_app.
    repeat rewrite app_assoc. split; reflexivity.
Qed.

(** X1: no frame that reached a queue is lost, duplicated or reordered:
    per track, the frames of the packets written so far followed by the
    frames still in the queue are exactly the frames that were pushed to
    the queue, in the order of the pushes.  This holds in every state,
    also in state Error. *)
Theorem frames_conserved_per_track :
  forall recordUrl snapshotInterval time alloc_ok guess events s,
    let s0 := MediaRecorder_new recordUrl snapshotInterval time alloc_ok guess in
    run events s0 = Some s ->
    map packet_frame (track_packets 1 (calls s))
    ++ map queued_frame (MediaFrameQueue.m_queue (m_audioQueue s))
    = map queued_frame (audio_arrivals events s0) /\
    map packet_frame (track_packets 0 (calls s))
    ++ map queued_frame (MediaFrameQueue.m_queue (m_videoQueue s))
    = map queued_frame (video_arrivals events s0).
Proof.
  intros url si time alloc_ok guess events s s0 Hrun.
  assert (HI0 : Inv s0)
    by (apply Inv_initial; do 5 eexists; reflexivity).
  destruct (run_conserves events _ s HI0 Hrun) as [Ha Hv].
  rewrite Ha, Hv. subst s0.
  unfold MediaRecorder_new, init.
  destruct alloc_ok; [destruct guess|]; split; reflexivity.
Qed.

(** ** The header comes first *)

Lemma header_first_call log c :
  header_first log ->
  (forall pkt, c = av_write_frame pkt -> In (avformat_write_header true) log) ->
  header_first (log ++ [c]).
Proof.
  intros Hlog Hc pre pkt post Heq.
  destruct post as [|x post] using rev_ind.
  - apply app_inj_tail in Heq as [-> ->]. apply (Hc pkt). reflexivity.
  - clear IHpost. rewrite app_comm_cons, app_assoc in Heq.
    apply app_inj_tail in Heq as [Heq _]. apply (Hlog pre pkt post Heq).
Qed.

Lemma step_header_first e s s1 :
  Inv s -> step e s = Some s1 ->
  header_first (calls s) -> header_first (calls s1).
Proof.
  intros HI H Hlog.
  pose proof (inv_drain _ HI) as Idr. unfold in_drain in Idr.
  destruct e; unfold_step H;
  repeat (break_in H; try discriminate); some_inv; fields;
  try exact Hlog;
  repeat (apply header_first_call; [|intros ? Heq; discriminate Heq]);
  try exact Hlog.
  all: apply header_first_call; [exact Hlog|]; intros _ _.
  all: apply Idr; reflexivity.
Qed.

Lemma run_header_first events : forall s0 s,
  Inv s0 -> header_first (calls s0) -> run events s0 = Some s ->
  header_first (calls s).
Proof.
  induction events as [|e rest IH]; intros s0 s HI0 H0 Hr.
  - cbn in Hr. some_inv. exact H0.
  - cbn [run] in Hr. unfold bind in Hr.
    destruct (step e s0) as [s1|] eqn:He; [|discriminate].
    apply (IH s1 s (step_Inv _ _ _ HI0 He)
             (step_header_first _ _ _ HI0 He H0) Hr).
Qed.

Lemma header_first_new url si time alloc_ok guess :
  header_first (calls (MediaRecorder_new url si time alloc_ok guess)).
Proof.
  intros pre pkt post Heq. exfalso.
  unfold MediaRecorder_new, init in Heq.
  destruct alloc_ok; [destruct guess|]; cbn in Heq;
    destruct pre; discriminate.
Qed.

(** X6: in the log of libav calls, every [av_write_frame] comes after a
    successful [avformat_write_header]. *)
Theorem header_precedes_every_packet :
  forall recordUrl snapshotInterval time alloc_ok guess events s pre pkt post,
    run events (MediaRecorder_new recordUrl snapshotInterval time alloc_ok guess)
      = Some s ->
    calls s = pre ++ av_write_frame pkt :: post ->
    In (avformat_write_header true) pre.
Proof.
  intros url si time alloc_ok guess events s pre pkt post Hrun.
  apply (run_header_first events _ s
           (Inv_initial _ ltac:(do 5 eexists; reflexivity))
           (header_first_new url si time alloc_ok guess) Hrun).
Qed.

(** ** A recorder whose init failed *)

Lemma Stillborn_step e s s1 :
  Stillborn s -> step e s = Some s1 -> Stillborn s1 /\ video_push e s = [].
Proof.
  intros [Hst Hv Ha Ht Hc Hq Hp] H.
  destruct e as [thread frame|thread ok|a| | |]; cbn [video_push].
  - split; [|reflexivity]. cbn [step] in H. unfold onFrame in H.
    rewrite Hst in H.
    repeat (break_in H; try discriminate); some_inv;
      constructor; fields; try assumption;
      apply Forall_producer_at; auto.
  - cbn [step] in H.
    destruct (producer_pc thread (m_producers s)) as [pc|] eqn:Hpc;
      [|some_inv; split; [constructor; assumption | reflexivity]].
    pose proof (Forall_producer_pc _ thread pc _ Hp Hpc) as Hk.
    cbn [snd] in Hk.
    destruct pc; try discriminate Hk;
      unfold onFrame_step, addVideoStream, bind in H; rewrite ?Hv in H.
    + some_inv. split; [|reflexivity].
      constructor; fields; try assumption.
      apply Forall_producer_at; auto.
    + exfalso. destruct (m_context s) as [ctx|] eqn:Hctx; [|discriminate].
      rewrite (Hc ctx eq_refl) in H. discriminate.
    + some_inv. split; [|reflexivity].
      constructor; fields; try assumption.
      apply Forall_producer_at; auto.
    + some_inv. split; [|reflexivity].
      constructor; fields; try assumption.
      apply Forall_producer_leave; auto.
  - split; [|reflexivity].
    cbn [step] in H. unfold recordLoop_step in H. rewrite Ht in H.
    some_inv. constructor; assumption.
  - split; [|reflexivity].
    cbn [step] in H. destruct (owner s); some_inv; constructor; assumption.
  - split; [|reflexivity].
    cbn [step] in H. destruct (owner s); some_inv;
      [constructor; assumption|].
    rewrite Ht in H. rewrite (close_finalize_no_streams s Hv Ha) in H.
    unfold bind in H.
    destruct (m_context s) as [ctx|] eqn:Hctx.
    + rewrite (Hc ctx eq_refl) in H. discriminate.
    + some_inv. constructor; cbn; try assumption. intros; congruence.
  - split; [|reflexivity].
    cbn [step] in H.
    destruct (owner s); [destruct (m_muxing s)|]; some_inv;
      constructor; assumption.
Qed.

Lemma Stillborn_run events : forall s s',
  Stillborn s -> run events s = Some s' ->
  Stillborn s' /\ video_arrivals events s = [].
Proof.
  induction events as [|e rest IH]; cbn [run video_arrivals]; intros s s' Hs H.
  - some_inv. split; [exact Hs | reflexivity].
  - unfold bind in H. destruct (step e s) as [s1|] eqn:He; [|discriminate].
    destruct (Stillborn_step e s s1 Hs He) as [Hs1 Hp].
    destruct (IH s1 s' Hs1 H) as [Hs' Ha].
    rewrite Hp, Ha. split; [exact Hs' | reflexivity].
Qed.

(** X11: the constructor ignores the result of [init].  When [init] failed
    (no context, or no format guessed) no writer runs, and a video frame
    handed to [onFrame] makes [addVideoStream] read through a null
    pointer: in every state of every execution there is no video stream
    and no video frame has got to the queue, a call of [onFrame] with a
    video frame does not survive, and neither does the next step of a
    call that stands before [addVideoStream]. *)
Theorem failed_init_cannot_take_video :
  forall recordUrl snapshotInterval time alloc_ok guess events s,
    alloc_ok = false \/ guess = None ->
    let s0 := MediaRecorder_new recordUrl snapshotInterval time alloc_ok guess in
    run events s0 = Some s ->
    m_thread s0 = Returned /\
    m_videoStream s = None /\
    video_arrivals events s0 = [] /\
    MediaFrameQueue.m_queue (m_videoQueue s) = [] /\
    (forall thread frame ok rest,
       producer_pc thread (m_producers s) = None ->
       Frame.format frame = FRAME_FORMAT_VP8 ->
       run (delivery thread frame ok ++ rest) s = None) /\
    (forall thread frame ok,
       producer_pc thread (m_producers s) = Some (AtAddVideo frame) ->
       step (ProducerStep thread ok) s = None).
Proof.
  intros url si time alloc_ok guess events s Hfail s0 Hrun.
  assert (H0 : Stillborn s0).
  { subst s0. unfold MediaRecorder_new, init.
    destruct Hfail as [-> | ->]; [|destruct alloc_ok];
      constructor; cbn; try reflexivity; try constructor;
      intros ctx Heq; inversion Heq; subst; reflexivity. }
  split; [apply H0|].
  destruct (Stillborn_run events s0 s H0 Hrun) as [[Hst Hv Ha Ht Hc Hq Hp] Harr].
  split; [exact Hv|]. split; [exact Harr|]. split; [exact Hq|].
  assert (Hadd : forall (frame : Frame.t) ok s2,
            m_context s2 = m_context s ->
            addVideoStream (payloadType2VideoCodecID VP8_90000_PT)
              (Frame.width (Frame.video frame))
              (Frame.height (Frame.video frame)) ok s2 = None).
  { intros frame ok s2 E. unfold addVideoStream, bind. rewrite E.
    destruct (m_context s) as [ctx|] eqn:Hctx; [|reflexivity].
    rewrite (Hc ctx eq_refl). reflexivity. }
  split.
  - intros thread frame ok rest Hidle Hf.
    cbn [delivery app run step]. rewrite Hidle. cbn [bind].
    unfold onFrame. rewrite Hst, Hf.
    repeat (unfold set_pc, leave; fields;
            rewrite ?producer_pc_at, ?Z.eqb_refl, ?Hv;
            cbn [onFrame_step bind]).
    rewrite (Hadd frame ok) by reflexivity. reflexivity.
  - intros thread frame ok Hpc. cbn [step]. rewrite Hpc.
    cbn [onFrame_step]. rewrite (Hadd frame ok) by reflexivity.
    reflexivity.
Qed.

(** ** Opening the output file *)

Lemma variable_fps_keeps_nofile x :
  Z.land (Z.lor x AVFMT_VARIABLE_FPS) AVFMT_NOFILE = Z.land x AVFMT_NOFILE.
Proof.
  rewrite Z.land_lor_distr_l.
  change (Z.land AVFMT_VARIABLE_FPS AVFMT_NOFILE) with 0.
  apply Z.lor_0_r.
Qed.

Lemma step_same_nofile fmt0 e s s1 :
  step e s = Some s1 -> same_nofile fmt0 s -> same_nofile fmt0 s1.
Proof.
  intros H Hs. unfold same_nofile in *.
  destruct e; unfold_step H;
  repeat (break_in H; try discriminate); some_inv; fields;
  try exact Hs; try (intros; discriminate);
  intros ctx f Hc Hf; some_inv;
  unfold with_stream, with_oformat, with_pb, with_time_bases in Hf;
  cbn [AVFormatContext.oformat] in Hf; some_inv;
  cbn [AVOutputFormat.flags]; rewrite ?variable_fps_keeps_nofile;
  first [eapply Hs; eassumption
        | eapply Hs; [reflexivity | eassumption]
        | apply (Hs ctx f); [congruence | assumption]].
Qed.

Lemma opened_first_call log c :
  opened_first log ->
  (forall ok, c = avformat_write_header ok -> In (avio_open true) log) ->
  opened_first (log ++ [c]).
Proof.
  intros Hlog Hc pre ok post Heq.
  destruct post as [|x post] using rev_ind.
  - apply app_inj_tail in Heq as [-> ->]. apply (Hc ok). reflexivity.
  - clear IHpost. rewrite app_comm_cons, app_assoc in Heq.
    apply app_inj_tail in Heq as [Heq _]. apply (Hlog pre ok post Heq).
Qed.

Lemma step_file_format fmt0 e s s1 :
  Z.land (AVOutputFormat.flags fmt0) AVFMT_NOFILE = 0 ->
  step e s = Some s1 -> same_nofile fmt0 s ->
  opened_first (calls s) -> opened_first (calls s1).
Proof.
  intros Hfile H Hs Hlog.
  destruct e; unfold_step H;
  repeat (break_in H; try discriminate); some_inv; fields;
  try exact Hlog;
  repeat (apply opened_first_call;
          [|intros ? Heq; try discriminate Heq;
            repeat rewrite in_app_iff; cbn; tauto]);
  try exact Hlog.
  all: exfalso.
  all: match goal with
       | Hc : m_context _ = Some ?c, Hf : AVFormatContext.oformat ?c = Some ?f,
         Hb : negb (Z.land (AVOutputFormat.flags ?f) AVFMT_NOFILE =? 0) = true
         |- _ =>
           rewrite (Hs c f Hc Hf), Hfile in Hb; discriminate Hb
       end.
Qed.

Lemma step_nofile_format fmt0 e s s1 :
  Z.land (AVOutputFormat.flags fmt0) AVFMT_NOFILE <> 0 ->
  step e s = Some s1 -> same_nofile fmt0 s ->
  count is_avio (calls s) = 0%nat -> count is_avio (calls s1) = 0%nat.
Proof.
  intros Hnofile H Hs Hlog.
  destruct e; unfold_step H;
  repeat (break_in H; try discriminate); some_inv; fields;
  repeat rewrite count_call; cbn [is_avio]; try lia.
  all: exfalso.
  all: repeat match goal with
       | Hb : negb _ && _ = _ |- _ =>
           apply andb_true_iff in Hb as [Hb _] || apply andb_false_iff in Hb
       end.
  all: match goal with
       | Hc : m_context _ = Some ?c, Hf : AVFormatContext.oformat ?c = Some ?f
         |- _ => pose proof (Hs c f Hc Hf) as Hsame
       end.
  all: repeat match goal with
       | Hb : context [Z.land (AVOutputFormat.flags ?f) AVFMT_NOFILE =? 0]
         |- _ =>
           destruct (Z.eqb_spec (Z.land (AVOutputFormat.flags f) AVFMT_NOFILE) 0)
       end.
  all: try congruence; try discriminate.
Qed.

Lemma same_nofile_new url si time fmt :
  same_nofile fmt (MediaRecorder_new url si time true (Some fmt)).
Proof. intros ctx f Hc Hf. cbn in Hc. some_inv. cbn in Hf. some_inv. reflexivity. Qed.

(** X12: for a format with AVFMT_NOFILE the recorder never calls
    [avio_open] nor [avio_close]; the flag update of [addVideoStream]
    leaves that bit alone. *)
Theorem nofile_format_never_opens_a_file :
  forall recordUrl snapshotInterval time fmt events s,
    Z.land (AVOutputFormat.flags fmt) AVFMT_NOFILE <> 0 ->
    run events
      (MediaRecorder_new recordUrl snapshotInterval time true (Some fmt))
      = Some s ->
    count is_avio (calls s) = 0%nat.
Proof.
  intros url si time fmt events s Hnofile.
  assert (Hgen : forall evs s0 s', same_nofile fmt s0 ->
            count is_avio (calls s0) = 0%nat -> run evs s0 = Some s' ->
            count is_avio (calls s') = 0%nat).
  { induction evs as [|e rest IH]; cbn [run]; intros s0 s' Hs H0 H.
    - some_inv. exact H0.
    - unfold bind in H. destruct (step e s0) as [s1|] eqn:He; [|discriminate].
      apply (IH s1 s' (step_same_nofile fmt e s0 s1 He Hs)
               (step_nofile_format fmt e s0 s1 Hnofile He Hs H0) H). }
  apply (Hgen events); [apply same_nofile_new | reflexivity].
Qed.

Lemma step_failed_open e s s1 :
  Inv s -> step e s = Some s1 ->
  (In (avio_open false) (calls s) ->
   halted s /\ header_writes (calls s) = 0%nat) ->
  In (avio_open false) (calls s1) ->
  halted s1 /\ header_writes (calls s1) = 0%nat.
Proof.
  intros HI H Hp.
  assert (G : In (avio_open false) (calls s) ->
              halted s1 /\ header_writes (calls s1) = 0%nat).
  { intros Hin. destruct (Hp Hin) as [Hh H0].
    destruct (halted_step _ _ _ Hh H) as [Hh1 _].
    split; [exact Hh1|].
    destruct (Nat.eq_dec (header_writes (calls s1)) (header_writes (calls s)))
      as [Heq | Hneq]; [congruence|].
    destruct (header_step e s s1 HI H Hneq) as (Hempty & _).
    destruct Hh as [Hr _]. congruence. }
  clear Hp.
  pose proof (inv_empty_case _ HI) as Iec.
  unfold halted.
  destruct e; unfold_step H;
  repeat (break_in H; try discriminate); some_inv; inv_fields;
  repeat rewrite in_app_iff; cbn [In];
  intros Hin;
  repeat match goal with
  | H : _ \/ _ |- _ => destruct H as [H | H]
  | H : False |- _ => destruct H
  end;
  try discriminate; try (apply G; assumption).
  all: destruct (Iec eq_refl) as [_ H0]; unfold header_writes in H0;
       split; [split; reflexivity | lia].
Qed.

(** X13: for a format without AVFMT_NOFILE every header write comes after
    a successful [avio_open], and a failed [avio_open] leaves the state
    Error with no header write at all. *)
Theorem file_is_opened_before_header :
  forall recordUrl snapshotInterval time fmt events s,
    Z.land (AVOutputFormat.flags fmt) AVFMT_NOFILE = 0 ->
    run events
      (MediaRecorder_new recordUrl snapshotInterval time true (Some fmt))
      = Some s ->
    (forall pre ok post,
       calls s = pre ++ avformat_write_header ok :: post ->
       In (avio_open true) pre) /\
    (In (avio_open false) (calls s) ->
     m_status s = Context_ERROR /\ header_writes (calls s) = 0%nat).
Proof.
  intros url si time fmt events s Hfile.
  assert (Hgen : forall evs s0 s', Inv s0 -> same_nofile fmt s0 ->
            opened_first (calls s0) ->
            (In (avio_open false) (calls s0) ->
             halted s0 /\ header_writes (calls s0) = 0%nat) ->
            run evs s0 = Some s' ->
            opened_first (calls s') /\
            (In (avio_open false) (calls s') ->
             halted s' /\ header_writes (calls s') = 0%nat)).
  { induction evs as [|e rest IH]; cbn [run]; intros s0 s' HI0 Hs H0 Hp H.
    - some_inv. split; assumption.
    - unfold bind in H. destruct (step e s0) as [s1|] eqn:He; [|discriminate].
      apply (IH s1 s' (step_Inv _ _ _ HI0 He)
               (step_same_nofile fmt e s0 s1 He Hs)
               (step_file_format fmt e s0 s1 Hfile He Hs H0)
               (step_failed_open e s0 s1 HI0 He Hp) H). }
  intros Hrun.
  destruct (Hgen events _ s
              (Inv_initial _ ltac:(do 5 eexists; reflexivity))
              (same_nofile_new url si time fmt)
              ltac:(intros pre ok post Heq; cbn in Heq;
                    destruct pre; discriminate)
              ltac:(cbn; intros [])
              Hrun) as [Ho Hf].
  split; [exact Ho|].
  intros Hin. destruct (Hf Hin) as [[_ He] H0]. split; assumption.
Qed.

(** ** The global header flag *)

Lemma variable_fps_keeps_globalheader x :
  Z.land (Z.lor x AVFMT_VARIABLE_FPS) AVFMT_GLOBALHEADER
  = Z.land x AVFMT_GLOBALHEADER.
Proof.
  rewrite Z.land_lor_distr_l.
  change (Z.land AVFMT_VARIABLE_FPS AVFMT_GLOBALHEADER) with 0.
  apply Z.lor_0_r.
Qed.

Lemma codec_flags_by_flags f g :
  Z.land (AVOutputFormat.flags f) AVFMT_GLOBALHEADER
  = Z.land (AVOutputFormat.flags g) AVFMT_GLOBALHEADER ->
  codec_flags f = codec_flags g.
Proof. intros H. unfold codec_flags. rewrite H. reflexivity. Qed.

Lemma variable_fps_twice x :
  Z.lor (Z.lor x AVFMT_VARIABLE_FPS) AVFMT_VARIABLE_FPS
  = Z.lor x AVFMT_VARIABLE_FPS.
Proof. rewrite <- Z.lor_assoc, Z.lor_diag. reflexivity. Qed.

Lemma Flagged_new url si time fmt :
  Flagged fmt (MediaRecorder_new url si time true (Some fmt)).
Proof.
  constructor; cbn; intros; some_inv; try discriminate.
  - constructor.
  - cbn in *. some_inv. reflexivity.
Qed.

Lemma addVideoStream_Flagged fmt0 codec_id width height ok s s1 :
  addVideoStream codec_id width height ok s = Some s1 ->
  Flagged fmt0 s -> Flagged fmt0 s1.
Proof.
  intros H [Hs Hf]. unfold addVideoStream, bind in H.
  destruct (m_context s) as [ctx|] eqn:Hc; [|discriminate].
  destruct (AVFormatContext.oformat ctx) as [fmt|] eqn:Ho; [|discriminate].
  pose proof (Hf ctx fmt eq_refl Ho) as Hfl.
  destruct ok; some_inv; constructor; fields.
  - intros ctx' E. some_inv. cbn [with_stream with_oformat
                                  AVFormatContext.streams].
    apply Forall_app. split; [apply (Hs ctx eq_refl)|].
    constructor; [|constructor].
    cbn [AVStream.codec AVCodecContext.flags].
    apply codec_flags_by_flags. cbn [AVOutputFormat.flags]. rewrite Hfl.
    destruct (m_videoStream s);
      rewrite ?variable_fps_keeps_globalheader; reflexivity.
  - intros ctx' f E Ho'. some_inv.
    cbn [with_stream with_oformat AVFormatContext.oformat] in Ho'. some_inv.
    cbn [AVOutputFormat.flags AVOutputFormat.video_codec]. rewrite Hfl.
    destruct (m_videoStream s); rewrite ?variable_fps_twice; reflexivity.
  - intros ctx' E. some_inv. cbn [with_oformat AVFormatContext.streams].
    apply (Hs ctx eq_refl).
  - intros ctx' f E Ho'. some_inv.
    cbn [with_oformat AVFormatContext.oformat] in Ho'. some_inv.
    cbn [AVOutputFormat.flags]. exact Hfl.
Qed.

Lemma addAudioStream_Flagged fmt0 codec_id channels rate ok s s1 :
  addAudioStream codec_id channels rate ok s = Some s1 ->
  Flagged fmt0 s -> Flagged fmt0 s1.
Proof.
  intros H [Hs Hf]. unfold addAudioStream, bind in H.
  destruct (m_context s) as [ctx|] eqn:Hc; [|discriminate].
  destruct ok.
  - destruct (AVFormatContext.oformat ctx) as [fmt|] eqn:Ho; [|discriminate].
    pose proof (Hf ctx fmt eq_refl Ho) as Hfl.
    some_inv; constructor; fields.
    + intros ctx' E. some_inv. cbn [with_stream AVFormatContext.streams].
      apply Forall_app. split; [apply (Hs ctx eq_refl)|].
      constructor; [|constructor].
      cbn [AVStream.codec AVCodecContext.flags].
      apply codec_flags_by_flags. rewrite Hfl.
      destruct (m_videoStream s);
        rewrite ?variable_fps_keeps_globalheader; reflexivity.
    + intros ctx' f E Ho'. some_inv.
      cbn [with_stream AVFormatContext.oformat] in Ho'.
      apply (Hf ctx f eq_refl Ho').
  - some_inv. constructor; fields.
    + intros ctx' E. apply Hs. congruence.
    + intros ctx' f E Ho'. apply (Hf ctx' f); [congruence | exact Ho'].
Qed.

Lemma Flagged_ext fmt0 s s1 :
  m_context s1 = m_context s -> m_videoStream s1 = m_videoStream s ->
  Flagged fmt0 s -> Flagged fmt0 s1.
Proof.
  intros Ec Ev [Hs Hf]. constructor.
  - intros ctx E. apply Hs. congruence.
  - intros ctx f E Ho. rewrite Ev. apply (Hf ctx f); congruence.
Qed.

(** What a step of the writer does to the context: nothing, or it marks
    the file open and lets the muxer set the time bases. *)
Lemma recordLoop_step_context a s s1 :
  recordLoop_step a s = Some s1 ->
  m_videoStream s1 = m_videoStream s /\
  (m_context s1 = m_context s \/
   exists ctx ctx1,
     m_context s = Some ctx /\ m_context s1 = Some ctx1 /\
     AVFormatContext.oformat ctx1 = AVFormatContext.oformat ctx /\
     map AVStream.codec (AVFormatContext.streams ctx1)
     = map AVStream.codec (AVFormatContext.streams ctx)).
Proof.
  intros H. unfold_step H.
  repeat (break_in H; try discriminate); some_inv; fields;
    (split; [congruence|]);
    first [ left; congruence
          | right; do 2 eexists;
            (split; [first [eassumption | reflexivity]|]);
            (split; [reflexivity|]);
            unfold with_pb, with_time_bases;
            cbn [AVFormatContext.oformat AVFormatContext.streams];
            rewrite ?map_map; cbn [AVStream.codec];
            split; reflexivity ].
Qed.

Lemma step_Flagged fmt0 e s s1 :
  step e s = Some s1 -> Flagged fmt0 s -> Flagged fmt0 s1.
Proof.
  intros H Hfl.
  destruct e as [thread frame|thread ok|a| | |].
  - cbn [step] in H. unfold onFrame in H.
    repeat (break_in H; try discriminate); some_inv;
      first [exact Hfl | apply (Flagged_ext fmt0 s); [reflexivity..|exact Hfl]].
  - cbn [step] in H.
    destruct (producer_pc thread (m_producers s)) as [pc|];
      [|some_inv; exact Hfl].
    destruct pc; cbn [onFrame_step] in H; unfold bind in H;
      repeat (break_in H; try discriminate); some_inv;
      try (apply (Flagged_ext fmt0 s); [reflexivity..|exact Hfl]).
    + eapply (Flagged_ext fmt0); [| |eapply addVideoStream_Flagged; eassumption];
        reflexivity.
    + eapply (Flagged_ext fmt0); [| |eapply addAudioStream_Flagged; eassumption];
        reflexivity.
  - cbn [step] in H.
    destruct (recordLoop_step_context a s s1 H) as (Ev & [Ec | Ec]);
      [apply (Flagged_ext fmt0 s); assumption|].
    destruct Ec as (ctx & ctx1 & Hc & Hc1 & Ho & Hcodecs).
    destruct Hfl as [Hs Hf]. constructor.
    + intros ctx' E. rewrite Hc1 in E. some_inv.
      pose proof (Hs ctx Hc) as Hfa.
      rewrite <- (Forall_map AVStream.codec
                    (fun c => AVCodecContext.flags c = codec_flags fmt0))
        in Hfa |- *.
      rewrite Hcodecs. exact Hfa.
    + intros ctx' f E Ho'. rewrite Hc1 in E. some_inv. rewrite Ev.
      apply (Hf ctx f Hc). congruence.
  - cbn [step] in H. destruct (owner s); some_inv;
      first [exact Hfl | apply (Flagged_ext fmt0 s); [reflexivity..|exact Hfl]].
  - cbn [step] in H. unfold bind in H.
    destruct (owner s); [some_inv; exact Hfl|].
    destruct (m_thread s); try (some_inv; exact Hfl).
    destruct (close_finalize s) as [s2|] eqn:Hcf; [|discriminate].
    some_inv.
    unfold close_finalize, close_codec, stream_at, bind in Hcf.
    destruct Hfl as [Hs Hf].
    repeat (break_in Hcf; try discriminate); some_inv;
      (constructor; [intros ctx0 E | intros ctx0 f0 E Ho0]); fields;
      try discriminate; try congruence.
  - cbn [step] in H.
    destruct (owner s); [destruct (m_muxing s)|]; some_inv;
      first [exact Hfl | apply (Flagged_ext fmt0 s); [reflexivity..|exact Hfl]].
Qed.

(** X19: a track's codec gets CODEC_FLAG_GLOBAL_HEADER exactly when the
    format [init] guessed has AVFMT_GLOBALHEADER, for every stream of the
    context and so for the two the recorder points to: the
    AVFMT_VARIABLE_FPS that [addVideoStream] adds to the format's flags,
    which the format has from then on, does not change what
    [addAudioStream] reads. *)
Theorem global_header_flag_follows_format :
  forall recordUrl snapshotInterval time fmt events s,
    run events
      (MediaRecorder_new recordUrl snapshotInterval time true (Some fmt))
      = Some s ->
    let flag := if Z.land (AVOutputFormat.flags fmt) AVFMT_GLOBALHEADER =? 0
                then 0 else CODEC_FLAG_GLOBAL_HEADER in
    (forall ctx stream,
       m_context s = Some ctx -> In stream (AVFormatContext.streams ctx) ->
       AVCodecContext.flags (AVStream.codec stream) = flag) /\
    (forall vs, video_stream s = Some vs ->
       AVCodecContext.flags (AVStream.codec vs) = flag) /\
    (forall au, audio_stream s = Some au ->
       AVCodecContext.flags (AVStream.codec au) = flag) /\
    (forall ctx f,
       m_context s = Some ctx -> AVFormatContext.oformat ctx = Some f ->
       m_videoStream s <> None ->
       AVOutputFormat.flags f
       = Z.lor (AVOutputFormat.flags fmt) AVFMT_VARIABLE_FPS).
Proof.
  intros url si time fmt events s Hrun flag.
  assert (Hgen : forall evs s0 s', Flagged fmt s0 -> run evs s0 = Some s' ->
                                   Flagged fmt s').
  { induction evs as [|e rest IH]; cbn [run]; intros s0 s' Hs H.
    - some_inv. exact Hs.
    - unfold bind in H. destruct (step e s0) as [s1|] eqn:He; [|discriminate].
      apply (IH s1 s' (step_Flagged fmt e s0 s1 He Hs) H). }
  destruct (Hgen events _ s (Flagged_new url si time fmt) Hrun) as [Hs Hf].
  assert (Hcf : codec_flags fmt = flag) by reflexivity.
  assert (Hall : forall ctx stream,
            m_context s = Some ctx -> In stream (AVFormatContext.streams ctx) ->
            AVCodecContext.flags (AVStream.codec stream) = flag).
  { intros ctx stream Hc Hin. rewrite <- Hcf.
    pose proof (Hs ctx Hc) as Hfa. rewrite Forall_forall in Hfa.
    apply Hfa. exact Hin. }
  split; [exact Hall|]. split; [|split].
  - intros vs E. unfold video_stream, stream_at, bind in E.
    destruct (m_videoStream s) as [p|]; [|discriminate].
    destruct (m_context s) as [ctx|] eqn:Hc; [|discriminate].
    apply (Hall ctx vs eq_refl). apply (nth_error_In _ _ E).
  - intros au E. unfold audio_stream, stream_at, bind in E.
    destruct (m_audioStream s) as [p|]; [|discriminate].
    destruct (m_context s) as [ctx|] eqn:Hc; [|discriminate].
    apply (Hall ctx au eq_refl). apply (nth_error_In _ _ E).
  - intros ctx f Hc Ho Hne. rewrite (Hf ctx f Hc Ho).
    destruct (m_videoStream s); [reflexivity | contradiction].
Qed.

(** ** Registrations at the frame dispatchers *)

Lemma remove_first_head x l : remove_first x (x :: l) = l.
Proof. cbn. rewrite !Z.eqb_refl. reflexivity. Qed.

Lemma registrations_app log1 log2 :
  registrations (log1 ++ log2) = fold_left register log2 (registrations log1).
Proof. unfold registrations. apply fold_left_app. Qed.

Lemma registrations_drop vs vid aus aid log :
  registrations log = held vs vid ++ held aus aid ->
  registrations (remove_consumer aus aid (remove_consumer vs vid log)) = [].
Proof.
  intros H. unfold remove_consumer, held in *.
  destruct vs as [v|]; destruct aus as [a|];
    destruct (negb (vid =? -1)); destruct (negb (aid =? -1));
    repeat rewrite registrations_app; rewrite H;
    cbn [fold_left register app]; repeat rewrite remove_first_head;
    reflexivity.
Qed.

Lemma source_step_balanced recordPath op s :
  well_formed op = true ->
  registrations (dispatcher_calls s)
  = held (m_videoSource s) (m_videoId s)
    ++ held (m_audioSource s) (m_audioId s) ->
  exists s1,
    source_step recordPath op s = Some s1 /\
    registrations (dispatcher_calls s1)
    = held (m_videoSource s1) (m_videoId s1)
      ++ held (m_audioSource s1) (m_audioId s1).
Proof.
  intros Hwf H.
  pose proof (registrations_drop _ _ _ _ _ H) as Hdrop.
  destruct op as [[v|] [a|] vid aid|]; try discriminate.
  - cbn in Hwf. apply andb_true_iff in Hwf as [Hv Ha].
    eexists. split; [reflexivity|].
    cbn [fst dispatcher_calls m_videoSource m_audioSource m_videoId
         m_audioId held].
    rewrite Hv, Ha. repeat rewrite registrations_app. rewrite Hdrop.
    reflexivity.
  - eexists. split; [reflexivity|]. cbn. exact Hdrop.
Qed.

(** X15: through any sequence of [setMediaSource] and [unsetMediaSource]
    calls (with dispatchers that return ids other than -1) the
    registrations left standing at the dispatchers are exactly the ones
    the members stand for: at most one per track, none left behind by
    re-pointing. *)
Theorem registrations_follow_the_members :
  forall recordPath ops,
    forallb well_formed ops = true ->
    exists s,
      source_run recordPath ops Sources_new = Some s /\
      registrations (dispatcher_calls s)
      = held (m_videoSource s) (m_videoId s)
        ++ held (m_audioSource s) (m_audioId s) /\
      (List.length (registrations (dispatcher_calls s)) <= 2)%nat.
Proof.
  intros recordPath ops.
  assert (Hgen : forall s0,
            registrations (dispatcher_calls s0)
            = held (m_videoSource s0) (m_videoId s0)
              ++ held (m_audioSource s0) (m_audioId s0) ->
            forallb well_formed ops = true ->
            exists s,
              source_run recordPath ops s0 = Some s /\
              registrations (dispatcher_calls s)
              = held (m_videoSource s) (m_videoId s)
                ++ held (m_audioSource s) (m_audioId s)).
  { induction ops as [|op rest IH]; intros s0 H0 Hall.
    - exists s0. split; [reflexivity | exact H0].
    - cbn [forallb] in Hall. apply andb_true_iff in Hall as [Hop Hall].
      destruct (source_step_balanced recordPath op s0 Hop H0)
        as (s1 & Hs1 & H1).
      destruct (IH s1 H1 Hall) as (s & Hs & H).
      exists s. cbn [source_run]. rewrite Hs1. cbn [bind].
      split; assumption. }
  intros Hall. destruct (Hgen Sources_new eq_refl Hall) as (s & Hs & H).
  exists s. split; [exact Hs|]. split; [exact H|].
  rewrite H, length_app. unfold held.
  destruct (m_videoSource s); destruct (m_audioSource s);
    destruct (negb (m_videoId s =? -1)); destruct (negb (m_audioId s =? -1));
    cbn; lia.
Qed.

(** X16: [unsetMediaSource] removes whatever registration the members
    stand for, so that none is left, and a second call changes nothing:
    it makes no dispatcher call. *)
Theorem unsetMediaSource_clears_registrations :
  forall s,
    registrations (dispatcher_calls s)
    = held (m_videoSource s) (m_videoId s)
      ++ held (m_audioSource s) (m_audioId s) ->
    registrations (dispatcher_calls (unsetMediaSource s)) = [] /\
    unsetMediaSource (unsetMediaSource s) = unsetMediaSource s.
Proof.
  intros s H. split.
  - cbn. apply registrations_drop. exact H.
  - reflexivity.
Qed.

(** ** Failures of avformat_new_stream *)

(** A header is written only when both streams exist. *)
Lemma header_needs_streams events : forall s s',
  Inv s ->
  (header_writes (calls s) <> 0%nat ->
   m_videoStream s <> None /\ m_audioStream s <> None) ->
  run events s = Some s' ->
  header_writes (calls s') <> 0%nat ->
  m_videoStream s' <> None /\ m_audioStream s' <> None.
Proof.
  induction events as [|e rest IH]; cbn [run]; intros s s' HI Hs H.
  - some_inv. exact Hs.
  - unfold bind in H. destruct (step e s) as [s1|] eqn:He; [|discriminate].
    apply (IH s1 s' (step_Inv _ _ _ HI He)); [|exact H].
    intros Hne. destruct (step_streams_stable _ _ _ He) as [Hv Ha].
    destruct (Nat.eq_dec (header_writes (calls s1)) (header_writes (calls s)))
      as [Heq | Hneq].
    + rewrite Heq in Hne. destruct (Hs Hne). split; auto.
    + destruct (header_step e s s1 HI He Hneq) as (_ & _ & Hv0 & Ha0 & _).
      split; auto.
Qed.

Lemma no_stream_no_header url si time alloc_ok guess events s :
  run events (MediaRecorder_new url si time alloc_ok guess) = Some s ->
  m_videoStream s = None \/ m_audioStream s = None ->
  header_writes (calls s) = 0%nat /\ packets (calls s) = [].
Proof.
  intros Hrun Hnone.
  assert (HI0 : Inv (MediaRecorder_new url si time alloc_ok guess))
    by (apply Inv_initial; do 5 eexists; reflexivity).
  assert (H0 : header_writes
                 (calls (MediaRecorder_new url si time alloc_ok guess))
               = 0%nat)
    by (unfold MediaRecorder_new, init;
        destruct alloc_ok; [destruct guess|]; reflexivity).
  assert (Hh : header_writes (calls s) = 0%nat).
  { destruct (Nat.eq_dec (header_writes (calls s)) 0) as [E | E]; [exact E|].
    exfalso.
    destruct (header_needs_streams events _ s HI0
                (fun X => False_ind _ (X H0)) Hrun E) as [Hv Ha].
    destruct Hnone; contradiction. }
  split; [exact Hh|].
  pose proof (run_header_first events _ s HI0
                (header_first_new url si time alloc_ok guess) Hrun) as Hfirst.
  destruct (packets (calls s)) as [|pkt rest] eqn:Hp; [reflexivity|].
  exfalso.
  assert (Hin : exists pre post, calls s = pre ++ av_write_frame pkt :: post).
  { clear - Hp. induction (calls s) as [|c l IH]; [discriminate|].
    destruct c; cbn [packets] in Hp;
      try (destruct (IH Hp) as (pre & post & E);
           eexists (_ :: pre), post; rewrite E; reflexivity).
    inversion Hp; subst. exists [], l. reflexivity. }
  destruct Hin as (pre & post & E).
  pose proof (Hfirst pre pkt post E) as Hhdr.
  rewrite E in Hh. unfold header_writes, count in Hh.
  rewrite filter_app, length_app in Hh.
  apply (in_split) in Hhdr as (l1 & l2 & ->).
  rewrite filter_app, length_app in Hh. cbn in Hh. lia.
Qed.

Lemma NoTrack_step e s s1 :
  Inv s -> NoTrack s -> step e s = Some s1 ->
  NoTrack s1 /\ m_videoStream s1 = m_videoStream s /\
  m_audioStream s1 = m_audioStream s.
Proof.
  intros HI [Hst Hnone Hp] H.
  assert (Hnd : in_drain s = false).
  { destruct (in_drain s) eqn:Hd; [|reflexivity]. exfalso.
    destruct (inv_drain _ HI Hd) as (Ha & Hv & _).
    destruct Hnone; contradiction. }
  destruct e as [thread frame|thread ok|a| | |].
  - cbn [step] in H. unfold onFrame in H. rewrite Hst in H.
    destruct (producer_pc thread (m_producers s)); some_inv;
      (split; [constructor; assumption | split; reflexivity]).
  - cbn [step] in H.
    destruct (producer_pc thread (m_producers s)) as [pc|] eqn:Hpc;
      [|some_inv; split; [constructor; assumption | split; reflexivity]].
    pose proof (Forall_producer_pc _ thread pc _ Hp Hpc) as Hk.
    cbn [snd] in Hk.
    destruct pc; try discriminate Hk; cbn [onFrame_step] in H; some_inv;
      (split; [constructor; fields; try assumption;
               apply Forall_producer_leave; assumption
              | split; reflexivity]).
  - cbn [step] in H. unfold in_drain in Hnd.
    unfold recordLoop_step, recordLoop_empty in H. rewrite Hst in H.
    destruct (m_thread s) eqn:Ht; try discriminate Hnd.
    + some_inv. split; [constructor; assumption | split; reflexivity].
    + some_inv. split; [constructor; assumption | split; reflexivity].
    + destruct (m_audioStream s) as [pa|] eqn:Ha;
        [destruct (m_videoStream s) as [pv|] eqn:Hv;
         [exfalso; destruct Hnone; discriminate|]|];
        some_inv;
        (split; [constructor; fields; rewrite ?Ha, ?Hv; auto
                | split; fields; congruence]).
    + some_inv. split; [constructor; assumption | split; reflexivity].
  - cbn [step] in H. destruct (owner s); some_inv;
      (split; [constructor; assumption | split; reflexivity]).
  - cbn [step] in H. unfold bind in H.
    destruct (owner s); [some_inv; split;
                         [constructor; assumption | split; reflexivity]|].
    destruct (m_thread s);
      try (some_inv; split; [constructor; assumption | split; reflexivity]).
    destruct (close_finalize s) as [s2|] eqn:Hf; [|discriminate].
    some_inv.
    destruct (close_finalize_members s s2 Hf)
      as (E1 & _ & _ & _ & E5 & E6 & E7 & _).
    split; [|split; assumption].
    constructor; fields; rewrite ?E1, ?E5, ?E6, ?E7; assumption.
  - cbn [step] in H.
    destruct (owner s); [destruct (m_muxing s)|]; some_inv;
      (split; [constructor; assumption | split; reflexivity]).
Qed.

Lemma NoTrack_run events : forall s s',
  Inv s -> NoTrack s -> run events s = Some s' ->
  NoTrack s' /\ m_videoStream s' = m_videoStream s /\
  m_audioStream s' = m_audioStream s.
Proof.
  induction events as [|e rest IH]; cbn [run]; intros s s' HI Hn H.
  - some_inv. auto.
  - unfold bind in H. destruct (step e s) as [s1|] eqn:He; [|discriminate].
    destruct (NoTrack_step e s s1 HI Hn He) as (Hn1 & Hv1 & Ha1).
    destruct (IH s1 s' (step_Inv _ _ _ HI He) Hn1 H) as (Hn' & Hv & Ha).
    split; [exact Hn'|]. split; congruence.
Qed.

(** X7: when [avformat_new_stream] fails for the video track, the state
    becomes Error and [m_videoStream] is left as it is, and the call of
    [onFrame] goes on: its next step puts the frame on the video queue.
    When no video stream existed and no other call of [onFrame] is under
    way, then, whatever follows, the state stays Error, there is never a
    video stream, and no header and no packet is ever written. *)
Theorem video_stream_allocation_failure :
  forall recordUrl snapshotInterval time alloc_ok guess events s thread frame,
    run events (MediaRecorder_new recordUrl snapshotInterval time alloc_ok guess)
      = Some s ->
    producer_pc thread (m_producers s) = Some (AtAddVideo frame) ->
    m_thread s <> Returned ->
    exists s1 s2,
      step (ProducerStep thread false) s = Some s1 /\
      m_status s1 = Context_ERROR /\
      m_videoStream s1 = m_videoStream s /\
      calls s1 = calls s ++ [avformat_new_stream false] /\
      (forall ok, step (ProducerStep thread ok) s1 = Some s2) /\
      MediaFrameQueue.m_queue (m_videoQueue s2)
      = MediaFrameQueue.m_queue (m_videoQueue s) ++ [encode frame] /\
      producer_pc thread (m_producers s2) = None /\
      (m_videoStream s = None ->
       m_producers s = [(thread, AtAddVideo frame)] ->
       forall more s',
         run more s2 = Some s' ->
         m_status s' = Context_ERROR /\
         m_videoStream s' = None /\
         header_writes (calls s') = 0%nat /\
         packets (calls s') = []).
Proof.
  intros url si time alloc_ok guess events s thread frame Hrun Hpc Ht.
  pose proof (Inv_run_new _ _ _ _ _ _ _ Hrun) as HI.
  destruct (inv_context_live _ HI Ht) as (ctx & fmt & Hc & Hfmt).
  assert (He1 : exists s1, step (ProducerStep thread false) s = Some s1 /\
            m_status s1 = Context_ERROR /\
            m_videoStream s1 = m_videoStream s /\
            m_audioStream s1 = m_audioStream s /\
            calls s1 = calls s ++ [avformat_new_stream false] /\
            m_videoQueue s1 = m_videoQueue s /\
            m_producers s1
            = producer_at thread (AtPushVideo frame) (m_producers s)).
  { eexists. split.
    - cbn [step]. rewrite Hpc. cbn [onFrame_step].
      unfold addVideoStream, bind. rewrite Hc, Hfmt. reflexivity.
    - cbn. repeat split; reflexivity. }
  destruct He1 as (s1 & He1 & Herr1 & Hv1 & Ha1 & Hc1 & Hq1 & Hp1).
  assert (Hpc1 : producer_pc thread (m_producers s1)
                 = Some (AtPushVideo frame))
    by (rewrite Hp1, producer_pc_at, Z.eqb_refl; reflexivity).
  assert (He2 : exists s2,
            (forall ok, step (ProducerStep thread ok) s1 = Some s2) /\
            m_status s2 = Context_ERROR /\
            m_videoStream s2 = m_videoStream s /\
            m_audioStream s2 = m_audioStream s /\
            MediaFrameQueue.m_queue (m_videoQueue s2)
            = MediaFrameQueue.m_queue (m_videoQueue s) ++ [encode frame] /\
            m_producers s2 = producer_leave thread (m_producers s1)).
  { eexists. split.
    - intros ok. cbn [step]. rewrite Hpc1. cbn [onFrame_step]. reflexivity.
    - cbn. rewrite Hq1. repeat split; assumption. }
  destruct He2 as (s2 & He2 & Herr2 & Hv2 & Ha2 & Hq2 & Hp2).
  exists s1, s2.
  split; [exact He1|]. split; [exact Herr1|]. split; [exact Hv1|].
  split; [exact Hc1|]. split; [exact He2|]. split; [exact Hq2|].
  split; [rewrite Hp2, producer_pc_leave, Z.eqb_refl; reflexivity|].
  intros Hnone Honly more s' Hmore.
  pose proof (step_Inv _ _ _ HI He1) as HI1.
  pose proof (step_Inv _ _ _ HI1 (He2 true)) as HI2.
  assert (Hnt : NoTrack s2).
  { constructor; [exact Herr2 | left; congruence|].
    rewrite Hp2, Hp1, Honly. cbn. rewrite !Z.eqb_refl. constructor. }
  destruct (NoTrack_run more s2 s' HI2 Hnt Hmore) as ([Hst' _ _] & Hv' & _).
  split; [exact Hst'|]. split; [congruence|].
  apply (no_stream_no_header url si time alloc_ok guess
           (events ++ [ProducerStep thread false; ProducerStep thread true]
            ++ more)).
  - rewrite run_app, Hrun. cbn [bind app run]. rewrite He1. cbn [bind].
    rewrite (He2 true). cbn [bind]. exact Hmore.
  - left. congruence.
Qed.

(** X8: the same for the audio track: a failed [avformat_new_stream]
    gives state Error and leaves [m_audioStream] as it is, and the next
    step of the call puts the frame on the audio queue.  When no audio
    stream existed and no other call of [onFrame] is under way, the state
    stays Error, there is never an audio stream, and no header and no
    packet is ever written. *)
Theorem audio_stream_allocation_failure :
  forall recordUrl snapshotInterval time alloc_ok guess events s thread frame,
    run events (MediaRecorder_new recordUrl snapshotInterval time alloc_ok guess)
      = Some s ->
    producer_pc thread (m_producers s) = Some (AtAddAudio frame) ->
    m_thread s <> Returned ->
    exists s1 s2,
      step (ProducerStep thread false) s = Some s1 /\
      m_status s1 = Context_ERROR /\
      m_audioStream s1 = m_audioStream s /\
      calls s1 = calls s ++ [avformat_new_stream false] /\
      (forall ok, step (ProducerStep thread ok) s1 = Some s2) /\
      MediaFrameQueue.m_queue (m_audioQueue s2)
      = MediaFrameQueue.m_queue (m_audioQueue s) ++ [encode frame] /\
      producer_pc thread (m_producers s2) = None /\
      (m_audioStream s = None ->
       m_producers s = [(thread, AtAddAudio frame)] ->
       forall more s',
         run more s2 = Some s' ->
         m_status s' = Context_ERROR /\
         m_audioStream s' = None /\
         header_writes (calls s') = 0%nat /\
         packets (calls s') = []).
Proof.
  intros url si time alloc_ok guess events s thread frame Hrun Hpc Ht.
  pose proof (Inv_run_new _ _ _ _ _ _ _ Hrun) as HI.
  destruct (inv_context_live _ HI Ht) as (ctx & fmt & Hc & Hfmt).
  assert (He1 : exists s1, step (ProducerStep thread false) s = Some s1 /\
            m_status s1 = Context_ERROR /\
            m_videoStream s1 = m_videoStream s /\
            m_audioStream s1 = m_audioStream s /\
            calls s1 = calls s ++ [avformat_new_stream false] /\
            m_audioQueue s1 = m_audioQueue s /\
            m_producers s1
            = producer_at thread (AtPushAudio frame) (m_producers s)).
  { eexists. split.
    - cbn [step]. rewrite Hpc. cbn [onFrame_step].
      unfold addAudioStream, bind. rewrite Hc. reflexivity.
    - cbn. repeat split; reflexivity. }
  destruct He1 as (s1 & He1 & Herr1 & Hv1 & Ha1 & Hc1 & Hq1 & Hp1).
  assert (Hpc1 : producer_pc thread (m_producers s1)
                 = Some (AtPushAudio frame))
    by (rewrite Hp1, producer_pc_at, Z.eqb_refl; reflexivity).
  assert (He2 : exists s2,
            (forall ok, step (ProducerStep thread ok) s1 = Some s2) /\
            m_status s2 = Context_ERROR /\
            m_videoStream s2 = m_videoStream s /\
            m_audioStream s2 = m_audioStream s /\
            MediaFrameQueue.m_queue (m_audioQueue s2)
            = MediaFrameQueue.m_queue (m_audioQueue s) ++ [encode frame] /\
            m_producers s2 = producer_leave thread (m_producers s1)).
  { eexists. split.
    - intros ok. cbn [step]. rewrite Hpc1. cbn [onFrame_step]. reflexivity.
    - cbn. rewrite Hq1. repeat split; assumption. }
  destruct He2 as (s2 & He2 & Herr2 & Hv2 & Ha2 & Hq2 & Hp2).
  exists s1, s2.
  split; [exact He1|]. split; [exact Herr1|]. split; [exact Ha1|].
  split; [exact Hc1|]. split; [exact He2|]. split; [exact Hq2|].
  split; [rewrite Hp2, producer_pc_leave, Z.eqb_refl; reflexivity|].
  intros Hnone Honly more s' Hmore.
  pose proof (step_Inv _ _ _ HI He1) as HI1.
  pose proof (step_Inv _ _ _ HI1 (He2 true)) as HI2.
  assert (Hnt : NoTrack s2).
  { constructor; [exact Herr2 | right; congruence|].
    rewrite Hp2, Hp1, Honly. cbn. rewrite !Z.eqb_refl. constructor. }
  destruct (NoTrack_run more s2 s' HI2 Hnt Hmore) as ([Hst' _ _] & _ & Ha').
  split; [exact Hst'|]. split; [congruence|].
  apply (no_stream_no_header url si time alloc_ok guess
           (events ++ [ProducerStep thread false; ProducerStep thread true]
            ++ more)).
  - rewrite run_app, Hrun. cbn [bind app run]. rewrite He1. cbn [bind].
    rewrite (He2 true). cbn [bind]. exact Hmore.
  - right. congruence.
Qed.

(** ** The writer after an error *)

Lemma failed_step e s s1 :
  failed s -> step e s = Some s1 ->
  failed s1 /\ packets (calls s1) = packets (calls s) /\
  header_writes (calls s1) = header_writes (calls s).
Proof.
  intros [Hst Ht] H. unfold failed.
  destruct e as [thread frame|thread ok|a| | |].
  - cbn [step] in H. unfold onFrame in H. rewrite Hst in H.
    destruct (producer_pc thread (m_producers s)); some_inv; auto.
  - cbn [step] in H.
    destruct (producer_pc thread (m_producers s)) as [pc|];
      [|some_inv; auto].
    destruct pc; unfold onFrame_step, addVideoStream, addAudioStream, bind in H;
      repeat (break_in H; try discriminate); some_inv; inv_fields;
      rewrite ?packets_call, ?app_nil_r, ?Nat.add_0_r; auto.
  - cbn [step] in H. unfold recordLoop_step in H. rewrite Hst in H.
    destruct Ht as [Ht | [Ht | Ht]]; rewrite Ht in H;
      [destruct (m_muxing s)| |]; some_inv; fields; auto 6.
  - cbn [step] in H. destruct (owner s); some_inv; fields; auto.
  - cbn [step] in H. unfold bind in H.
    destruct (owner s); [some_inv; auto|].
    destruct (m_thread s) eqn:Hth;
      try solve [some_inv; rewrite ?Hth; auto 6];
      try solve [exfalso; destruct Ht as [X | [X | X]]; discriminate X].
    destruct (close_finalize s) as [s2|] eqn:Hf; [|discriminate].
    some_inv.
    destruct (close_finalize_members s s2 Hf)
      as (E1 & _ & E3 & _ & _ & _ & _ & _ & _ & Ep).
    fields. rewrite E1, E3, Hth, Ep. split; [auto|]. split; [reflexivity|].
    unfold close_finalize, close_codec, stream_at, bind in Hf.
    repeat (break_in Hf; try discriminate); some_inv; inv_fields; lia.
  - cbn [step] in H.
    destruct (owner s); [destruct (m_muxing s)|]; some_inv; fields; auto.
Qed.

Lemma failed_run events : forall s s',
  failed s -> run events s = Some s' ->
  failed s' /\ packets (calls s') = packets (calls s) /\
  header_writes (calls s') = header_writes (calls s).
Proof.
  induction events as [|e rest IH]; cbn [run]; intros s s' Hf H.
  - some_inv. auto.
  - unfold bind in H. destruct (step e s) as [s1|] eqn:He; [|discriminate].
    destruct (failed_step e s s1 Hf He) as (Hf1 & Hp1 & Hh1).
    destruct (IH s1 s' Hf1 H) as (Hf' & Hp & Hh).
    split; [exact Hf'|]. split; congruence.
Qed.

(** X5: when the state is Error and the writer stands where it reads the
    state next (at the loop test or at the switch), it returns within two
    steps, whatever it is answered, without a libav call and without
    touching a queue; and from then on, whatever happens, the state stays
    Error, the writer never gets to the Empty case or to the drain loops
    again, and no header and no packet is written. *)
Theorem writer_leaves_after_error :
  forall s,
    m_status s = Context_ERROR ->
    m_thread s = AtWhile \/ m_thread s = AtSwitch \/ m_thread s = Returned ->
    (forall a1 a2,
       exists s',
         run [WriterStep a1; WriterStep a2] s = Some s' /\
         m_thread s' = Returned /\ m_status s' = Context_ERROR /\
         calls s' = calls s /\
         m_audioQueue s' = m_audioQueue s /\
         m_videoQueue s' = m_videoQueue s) /\
    (forall more s',
       run more s = Some s' ->
       m_status s' = Context_ERROR /\
       (m_thread s' = AtWhile \/ m_thread s' = AtSwitch \/
        m_thread s' = Returned) /\
       packets (calls s') = packets (calls s) /\
       header_writes (calls s') = header_writes (calls s)).
Proof.
  intros s Hst Ht. split.
  - intros a1 a2. cbn [run step]. unfold recordLoop_step.
    destruct Ht as [Ht | [Ht | Ht]]; rewrite Ht.
    + destruct (m_muxing s); cbn [bind]; fields; rewrite ?Hst;
        eexists; split; try reflexivity; repeat split; assumption.
    + rewrite Hst. cbn [bind]. fields.
      eexists; split; try reflexivity; repeat split; assumption.
    + cbn [bind]. rewrite Ht.
      eexists; split; try reflexivity; repeat split; assumption.
  - intros more s' Hmore.
    destruct (failed_run more s s' (conj Hst Ht) Hmore) as ([A B] & C & D).
    repeat split; assumption.
Qed.

(** ** The tracks *)

Lemma grows_refl ctx : grows ctx ctx [].
Proof. unfold grows. rewrite app_nil_r. split; reflexivity. Qed.

Lemma StreamChange_same e s s1 ctx :
  m_videoStream s1 = m_videoStream s -> m_audioStream s1 = m_audioStream s ->
  StreamChange e s s1 ctx ctx.
Proof. intros. apply streams_kept; [apply grows_refl | assumption..]. Qed.

(** Every step keeps the streams there are, with their codec parameters
    and indices, until the context is released. *)
Lemma step_streams e s s1 ctx :
  step e s = Some s1 -> m_context s = Some ctx ->
  (m_context s1 = None /\ m_videoStream s1 = m_videoStream s /\
   m_audioStream s1 = m_audioStream s) \/
  exists ctx1, m_context s1 = Some ctx1 /\ StreamChange e s s1 ctx ctx1.
Proof.
  intros H Hc.
  destruct e as [thread frame|thread ok|a| | |].
  - right. exists ctx. cbn [step] in H. unfold onFrame in H.
    repeat (break_in H; try discriminate); some_inv; fields;
      (split; [assumption|]); apply StreamChange_same; reflexivity.
  - right. cbn [step] in H.
    destruct (producer_pc thread (m_producers s)) as [pc|] eqn:Hpc;
      [|some_inv; exists ctx; split; [assumption|];
        apply StreamChange_same; reflexivity].
    destruct pc; cbn [onFrame_step] in H.
    + exists ctx. destruct (m_videoStream s); some_inv; fields;
        (split; [assumption|]); apply StreamChange_same; reflexivity.
    + unfold addVideoStream, bind in H. rewrite Hc in H.
      destruct (AVFormatContext.oformat ctx) as [fmt|]; [|discriminate].
      destruct ok; some_inv; fields; eexists; (split; [reflexivity|]).
      * eapply (video_stream_made _ _ _ _ _ thread frame);
          try reflexivity; try assumption.
        repeat split.
      * apply streams_kept; [|reflexivity..].
        unfold grows. cbn. rewrite app_nil_r. split; reflexivity.
    + exists ctx. some_inv; fields.
      (split; [assumption|]); apply StreamChange_same; reflexivity.
    + exists ctx. destruct (m_videoStream s); some_inv; fields;
        (split; [assumption|]); apply StreamChange_same; reflexivity.
    + exists ctx. destruct (m_audioStream s); some_inv; fields;
        (split; [assumption|]); apply StreamChange_same; reflexivity.
    + unfold addAudioStream, bind in H. rewrite Hc in H.
      destruct ok.
      * destruct (AVFormatContext.oformat ctx) as [fmt|]; [|discriminate].
        some_inv; fields; eexists; (split; [reflexivity|]).
        eapply (audio_stream_made _ _ _ _ _ thread frame);
          try reflexivity; try assumption.
        repeat split.
      * some_inv; fields. exists ctx. split; [assumption|].
        apply StreamChange_same; reflexivity.
    + exists ctx. some_inv; fields.
      (split; [assumption|]); apply StreamChange_same; reflexivity.
  - right. cbn [step] in H. unfold_step H. rewrite Hc in H.
    repeat (break_in H; try discriminate); some_inv; fields;
      eexists; (split; [first [reflexivity | eassumption]|]);
      apply streams_kept; try congruence;
      unfold grows, with_pb, with_time_bases;
      cbn [AVFormatContext.streams]; rewrite ?map_map, ?app_nil_r;
      cbn [AVStream.codec AVStream.index]; split; reflexivity.
  - right. exists ctx. cbn [step] in H. destruct (owner s); some_inv; fields;
      (split; [assumption|]); apply StreamChange_same; reflexivity.
  - cbn [step] in H. unfold bind in H.
    destruct (owner s);
      [right; exists ctx; some_inv; split; [assumption|];
       apply StreamChange_same; reflexivity|].
    destruct (m_thread s);
      try (right; exists ctx; some_inv; split; [assumption|];
           apply StreamChange_same; reflexivity).
    destruct (close_finalize s) as [s2|] eqn:Hf; [|discriminate].
    some_inv. left. fields.
    destruct (close_finalize_members s s2 Hf)
      as (_ & _ & _ & _ & E5 & E6 & _).
    split; [|split; assumption].
    unfold close_finalize, close_codec, stream_at, bind in Hf.
    rewrite Hc in Hf.
    repeat (break_in Hf; try discriminate); some_inv; fields;
      try reflexivity; congruence.
  - right. exists ctx. cbn [step] in H.
    destruct (owner s); [destruct (m_muxing s)|]; some_inv; fields;
      (split; [assumption|]); apply StreamChange_same; reflexivity.
Qed.

Lemma grows_nth ctx ctx1 extra p stream :
  grows ctx ctx1 extra ->
  nth_error (AVFormatContext.streams ctx) p = Some stream ->
  exists stream1,
    nth_error (AVFormatContext.streams ctx1) p = Some stream1 /\
    AVStream.codec stream1 = AVStream.codec stream /\
    AVStream.index stream1 = AVStream.index stream.
Proof.
  intros [Hcodec Hindex] Hn.
  assert (Hlt : (p < List.length (AVFormatContext.streams ctx))%nat)
    by (apply nth_error_Some; congruence).
  pose proof (f_equal (fun l => nth_error l p) Hcodec) as Ec.
  pose proof (f_equal (fun l => nth_error l p) Hindex) as Ei.
  cbn beta in Ec, Ei.
  rewrite !nth_error_map, nth_error_app1, Hn in Ec, Ei by exact Hlt.
  destruct (nth_error (AVFormatContext.streams ctx1) p) as [stream1|];
    [|discriminate].
  cbn in Ec, Ei. exists stream1. split; [reflexivity|].
  split; congruence.
Qed.

Lemma StreamChange_nth e s s1 ctx ctx1 p stream :
  StreamChange e s s1 ctx ctx1 ->
  nth_error (AVFormatContext.streams ctx) p = Some stream ->
  exists stream1,
    nth_error (AVFormatContext.streams ctx1) p = Some stream1 /\
    AVStream.codec stream1 = AVStream.codec stream /\
    AVStream.index stream1 = AVStream.index stream.
Proof.
  intros [Hg _ _ | thread frame st _ _ Hs _ _ _ _
          | thread frame st _ _ Hs _ _ _ _] Hn.
  - apply (grows_nth ctx ctx1 [] p stream Hg Hn).
  - exists stream. rewrite Hs, nth_error_app1, Hn; [auto|].
    apply nth_error_Some. congruence.
  - exists stream. rewrite Hs, nth_error_app1, Hn; [auto|].
    apply nth_error_Some. congruence.
Qed.

(** The format [init] guessed stays with the context. *)
Lemma step_has_format e s s1 :
  step e s = Some s1 ->
  (forall ctx, m_context s = Some ctx -> AVFormatContext.oformat ctx <> None) ->
  forall ctx, m_context s1 = Some ctx -> AVFormatContext.oformat ctx <> None.
Proof.
  intros H Hs.
  destruct e; unfold_step H;
  repeat (break_in H; try discriminate); some_inv; fields;
  try exact Hs; try (intros; discriminate);
  intros ctx Hc; some_inv;
  unfold with_stream, with_oformat, with_pb, with_time_bases;
  cbn [AVFormatContext.oformat]; try discriminate;
  first [eapply Hs; eassumption
        | eapply Hs; reflexivity
        | apply (Hs ctx); congruence
        | congruence ].
Qed.

Lemma run_has_format url si time fmt events s ctx :
  run events (MediaRecorder_new url si time true (Some fmt)) = Some s ->
  m_context s = Some ctx -> AVFormatContext.oformat ctx <> None.
Proof.
  assert (Hgen : forall evs s0 s',
            (forall c, m_context s0 = Some c ->
                       AVFormatContext.oformat c <> None) ->
            run evs s0 = Some s' ->
            forall c, m_context s' = Some c ->
                      AVFormatContext.oformat c <> None).
  { induction evs as [|e rest IH]; cbn [run]; intros s0 s' Hs H.
    - some_inv. exact Hs.
    - unfold bind in H. destruct (step e s0) as [s1|] eqn:He; [|discriminate].
      apply (IH s1 s' (step_has_format e s0 s1 He Hs) H). }
  intros Hrun.
  apply (Hgen events (MediaRecorder_new url si time true (Some fmt)) s);
    [|exact Hrun].
  cbn. intros c E. some_inv. cbn. discriminate.
Qed.

(** A stream pointer changes only where a stream is made. *)
Lemma step_pointer_change e s s1 :
  step e s = Some s1 ->
  (m_videoStream s1 <> m_videoStream s ->
   exists thread frame,
     e = ProducerStep thread true /\
     producer_pc thread (m_producers s) = Some (AtAddVideo frame)) /\
  (m_audioStream s1 <> m_audioStream s ->
   exists thread frame,
     e = ProducerStep thread true /\
     producer_pc thread (m_producers s) = Some (AtAddAudio frame)).
Proof.
  intros H.
  destruct (m_context s) as [ctx|] eqn:Hc.
  - destruct (step_streams e s s1 ctx H Hc)
      as [(_ & Ev & Ea) | (ctx1 & _ & Hch)];
      [split; intros X; contradiction|].
    destruct Hch as [_ Ev Ea | thread frame st He Hpc _ _ _ _ Ea
                    | thread frame st He Hpc _ _ _ _ Ev].
    + split; intros X; contradiction.
    + split; [intros _; exists thread, frame; auto | intros X; contradiction].
    + split; [intros X; contradiction | intros _; exists thread, frame; auto].
  - destruct e; unfold_step H; rewrite ?Hc in H;
    repeat (break_in H; try discriminate); some_inv; fields;
    split; intros X; exfalso; apply X; congruence.
Qed.

(** A call of [onFrame] gets to [addVideoStream] only by finding
    [m_videoStream] null, and to [addAudioStream] only by finding
    [m_audioStream] null. *)
Lemma step_reaches_add e s s1 thread frame :
  step e s = Some s1 ->
  (producer_pc thread (m_producers s1) = Some (AtAddVideo frame) ->
   producer_pc thread (m_producers s) <> Some (AtAddVideo frame) ->
   m_videoStream s = None /\
   producer_pc thread (m_producers s) = Some (AtVideoTest frame)) /\
  (producer_pc thread (m_producers s1) = Some (AtAddAudio frame) ->
   producer_pc thread (m_producers s) <> Some (AtAddAudio frame) ->
   m_audioStream s = None /\
   producer_pc thread (m_producers s) = Some (AtAudioTestAudio frame)).
Proof.
  intros H.
  assert (Hsame : m_producers s1 = m_producers s ->
    (producer_pc thread (m_producers s1) = Some (AtAddVideo frame) ->
     producer_pc thread (m_producers s) <> Some (AtAddVideo frame) ->
     m_videoStream s = None /\
     producer_pc thread (m_producers s) = Some (AtVideoTest frame)) /\
    (producer_pc thread (m_producers s1) = Some (AtAddAudio frame) ->
     producer_pc thread (m_producers s) <> Some (AtAddAudio frame) ->
     m_audioStream s = None /\
     producer_pc thread (m_producers s) = Some (AtAudioTestAudio frame)))
    by (intros ->; split; intros; contradiction).
  destruct e as [t f|t ok|a| | |].
  - cbn [step] in H. unfold onFrame in H.
    destruct (producer_pc t (m_producers s)) eqn:Hpc;
      [some_inv; apply Hsame; reflexivity|].
    repeat (break_in H; try discriminate); some_inv;
      try (apply Hsame; reflexivity);
      unfold set_pc; fields; rewrite !producer_pc_at;
      (destruct (Z.eqb_spec thread t) as [-> | Hne];
       [split; intros; discriminate | split; intros; contradiction]).
  - cbn [step] in H.
    destruct (producer_pc t (m_producers s)) as [pc|] eqn:Hpc;
      [|some_inv; apply Hsame; reflexivity].
    assert (Hother : thread <> t ->
              producer_pc thread (m_producers s1)
              = producer_pc thread (m_producers s)).
    { intros Hne. apply Z.eqb_neq in Hne.
      destruct pc; unfold onFrame_step, addVideoStream, addAudioStream,
                     bind in H;
        repeat (break_in H; try discriminate); some_inv;
        unfold set_pc, leave; fields;
        rewrite ?producer_pc_at, ?producer_pc_leave, Hne; reflexivity. }
    destruct (Z.eqb_spec thread t) as [-> | Hne];
      [|rewrite (Hother Hne); split; intros; contradiction].
    rewrite Hpc.
    destruct pc; unfold onFrame_step, addVideoStream, addAudioStream,
                   bind in H;
      repeat (break_in H; try discriminate); some_inv;
      unfold set_pc, leave; fields;
      rewrite ?producer_pc_at, ?producer_pc_leave, Z.eqb_refl;
      split; intros X Y; try discriminate X;
      try (exfalso; apply Y; assumption);
      inversion X; subst; split; reflexivity.
  - apply Hsame. cbn [step] in H. unfold_step H.
    repeat (break_in H; try discriminate); some_inv; reflexivity.
  - apply Hsame. cbn [step] in H. destruct (owner s); some_inv; reflexivity.
  - apply Hsame. cbn [step] in H. unfold bind in H.
    destruct (owner s); [some_inv; reflexivity|].
    destruct (m_thread s); try (some_inv; reflexivity).
    destruct (close_finalize s) as [s2|] eqn:Hf; [|discriminate].
    some_inv. fields.
    apply (close_finalize_members s s2 Hf).
  - apply Hsame. cbn [step] in H.
    destruct (owner s); [destruct (m_muxing s)|]; some_inv; reflexivity.
Qed.

Lemma step_keeps_streams e s s1 p stream :
  step e s = Some s1 -> stream_at p s = Some stream -> m_context s1 <> None ->
  exists stream1,
    stream_at p s1 = Some stream1 /\
    AVStream.codec stream1 = AVStream.codec stream /\
    AVStream.index stream1 = AVStream.index stream.
Proof.
  intros H Hs Hlive. unfold stream_at, bind in *.
  destruct (m_context s) as [ctx|] eqn:Hc; [|discriminate].
  destruct (step_streams e s s1 ctx H Hc) as [(Hn & _) | (ctx1 & Hc1 & Hch)];
    [contradiction|].
  rewrite Hc1. apply (StreamChange_nth e s s1 ctx ctx1 p stream Hch Hs).
Qed.

(** X10: the video stream the recorder points to is the one made by the
    last call of [addVideoStream] that got a stream.  For a recorder
    whose init succeeded: a call of [onFrame] that stands before
    [addVideoStream] makes, when [avformat_new_stream] succeeds, a new
    last stream of the context from its own frame (VP8, video, the
    frame's width and height, time base 1/30) and points [m_videoStream]
    to it; no other step changes [m_videoStream]; a call gets there only
    by finding [m_videoStream] null; and no step changes the codec
    parameters or the index of a stream there is.  So when the calls of
    [onFrame] do not overlap, the video stream is made from the first
    video frame and stays. *)
Theorem video_track_made_from_first_video_frame :
  forall recordUrl snapshotInterval time fmt events s,
    run events
      (MediaRecorder_new recordUrl snapshotInterval time true (Some fmt))
      = Some s ->
    (forall thread frame ctx,
       producer_pc thread (m_producers s) = Some (AtAddVideo frame) ->
       m_context s = Some ctx ->
       exists s1 vs,
         step (ProducerStep thread true) s = Some s1 /\
         m_videoStream s1 = Some (List.length (AVFormatContext.streams ctx)) /\
         video_stream s1 = Some vs /\
         made_from_video frame vs /\
         AVStream.index vs
         = Z.of_nat (List.length (AVFormatContext.streams ctx))) /\
    (forall e s1,
       step e s = Some s1 -> m_videoStream s1 <> m_videoStream s ->
       exists thread frame,
         e = ProducerStep thread true /\
         producer_pc thread (m_producers s) = Some (AtAddVideo frame)) /\
    (forall e s1 thread frame,
       step e s = Some s1 ->
       producer_pc thread (m_producers s1) = Some (AtAddVideo frame) ->
       producer_pc thread (m_producers s) <> Some (AtAddVideo frame) ->
       m_videoStream s = None /\
       producer_pc thread (m_producers s) = Some (AtVideoTest frame)) /\
    (forall e s1 p stream,
       step e s = Some s1 -> stream_at p s = Some stream ->
       m_context s1 <> None ->
       exists stream1,
         stream_at p s1 = Some stream1 /\
         AVStream.codec stream1 = AVStream.codec stream /\
         AVStream.index stream1 = AVStream.index stream).
Proof.
  intros url si time fmt events s Hrun.
  split; [|split; [|split]].
  - intros thread frame ctx Hpc Hc.
    pose proof (run_has_format url si time fmt events s ctx Hrun Hc) as Hf.
    destruct (AVFormatContext.oformat ctx) as [f|] eqn:Ho; [|contradiction].
    eexists. eexists. split.
    + cbn [step]. rewrite Hpc. cbn [onFrame_step].
      unfold addVideoStream, bind. rewrite Hc, Ho. reflexivity.
    + unfold video_stream, stream_at, bind. fields.
      cbn [with_stream with_oformat AVFormatContext.streams].
      rewrite nth_error_app2, Nat.sub_diag by lia. cbn [nth_error].
      split; [reflexivity|]. split; [reflexivity|].
      split; [repeat split | reflexivity].
  - intros e s1 H. apply (step_pointer_change e s s1 H).
  - intros e s1 thread frame H. apply (step_reaches_add e s s1 thread frame H).
  - intros e s1 p stream. apply step_keeps_streams.
Qed.

(** X21: the audio stream the recorder points to is the one made by the
    last call of [addAudioStream] that got a stream.  For a recorder
    whose init succeeded: a call of [onFrame] that stands before
    [addAudioStream] makes, when [avformat_new_stream] succeeds, a new
    last stream of the context from its own frame (PCM mu-law, audio,
    sample format S16, the frame's channel count and sample rate, time
    base 1/sampleRate) and points [m_audioStream] to it; no other step
    changes [m_audioStream]; a call gets there only by finding
    [m_audioStream] null, after it has found [m_videoStream] non-null. *)
Theorem audio_track_made_from_first_audio_frame_after_video :
  forall recordUrl snapshotInterval time fmt events s,
    run events
      (MediaRecorder_new recordUrl snapshotInterval time true (Some fmt))
      = Some s ->
    (forall thread frame ctx,
       producer_pc thread (m_producers s) = Some (AtAddAudio frame) ->
       m_context s = Some ctx ->
       exists s1 au,
         step (ProducerStep thread true) s = Some s1 /\
         m_audioStream s1 = Some (List.length (AVFormatContext.streams ctx)) /\
         audio_stream s1 = Some au /\
         made_from_audio frame au /\
         AVStream.index au
         = Z.of_nat (List.length (AVFormatContext.streams ctx))) /\
    (forall e s1,
       step e s = Some s1 -> m_audioStream s1 <> m_audioStream s ->
       exists thread frame,
         e = ProducerStep thread true /\
         producer_pc thread (m_producers s) = Some (AtAddAudio frame)) /\
    (forall e s1 thread frame,
       step e s = Some s1 ->
       producer_pc thread (m_producers s1) = Some (AtAddAudio frame) ->
       producer_pc thread (m_producers s) <> Some (AtAddAudio frame) ->
       m_audioStream s = None /\
       producer_pc thread (m_producers s) = Some (AtAudioTestAudio frame)) /\
    (forall thread frame,
       producer_pc thread (m_producers s) = Some (AtAudioTestAudio frame) \/
       producer_pc thread (m_producers s) = Some (AtAddAudio frame) ->
       m_videoStream s <> None).
Proof.
  intros url si time fmt events s Hrun.
  split; [|split; [|split]].
  - intros thread frame ctx Hpc Hc.
    pose proof (run_has_format url si time fmt events s ctx Hrun Hc) as Hf.
    destruct (AVFormatContext.oformat ctx) as [f|] eqn:Ho; [|contradiction].
    eexists. eexists. split.
    + cbn [step]. rewrite Hpc. cbn [onFrame_step].
      unfold addAudioStream, bind. rewrite Hc, Ho. reflexivity.
    + unfold audio_stream, stream_at, bind. fields.
      cbn [with_stream AVFormatContext.streams].
      rewrite nth_error_app2, Nat.sub_diag by lia. cbn [nth_error].
      split; [reflexivity|]. split; [reflexivity|].
      split; [repeat split | reflexivity].
  - intros e s1 H. apply (step_pointer_change e s s1 H).
  - intros e s1 thread frame H. apply (step_reaches_add e s s1 thread frame H).
  - intros thread frame Hpc.
    pose proof (Inv_run_new _ _ _ _ _ _ _ Hrun) as HI.
    destruct Hpc as [Hpc | Hpc];
      apply (Forall_producer_pc _ _ _ _ (inv_producers _ HI) Hpc);
      reflexivity.
Qed.

(** ** Stream indices *)

Lemma step_tags e s s1 :
  step e s = Some s1 ->
  Forall (fun p => stream_index p = 0 \/ stream_index p = 1)
    (packets (calls s)) ->
  Forall (fun p => stream_index p = 0 \/ stream_index p = 1)
    (packets (calls s1)).
Proof.
  intros H Hs.
  destruct e; unfold_step H;
  repeat (break_in H; try discriminate); some_inv; fields;
  repeat rewrite packets_call; rewrite ?app_nil_r; try exact Hs;
  apply Forall_app; (split; [exact Hs|]);
  constructor; cbn; auto.
Qed.

Lemma step_first_is_video e s s1 :
  Inv s -> step e s = Some s1 -> first_is_video s -> first_is_video s1.
Proof.
  intros HI H Hs ctx1 stream1 Hc1 Hn1.
  destruct (m_context s) as [ctx|] eqn:Hc.
  - destruct (step_streams e s s1 ctx H Hc)
      as [(Hnone & _) | (ctx1' & Hc1' & Hch)]; [congruence|].
    rewrite Hc1 in Hc1'. some_inv.
    destruct Hch as [[Hg _] _ _ | thread frame st _ _ Hst Hm _ _ _
                    | thread frame st _ Hpc Hst Hm _ _ _].
    + rewrite app_nil_r in Hg.
      pose proof (f_equal (fun l => nth_error l 0) Hg) as E. cbn beta in E.
      rewrite !nth_error_map, Hn1 in E.
      destruct (nth_error (AVFormatContext.streams ctx) 0) as [st0|] eqn:Hn0;
        [|discriminate].
      cbn in E. some_inv.
      match goal with X : AVStream.codec _ = _ |- _ => rewrite X end.
      apply (Hs ctx st0 Hc Hn0).
    + rewrite Hst in Hn1.
      destruct (AVFormatContext.streams ctx) as [|st0 rest] eqn:Hl.
      * cbn in Hn1. some_inv. apply Hm.
      * cbn in Hn1. some_inv. apply (Hs ctx stream1 Hc).
        rewrite Hl. reflexivity.
    + rewrite Hst in Hn1.
      pose proof (Forall_producer_pc _ _ _ _ (inv_producers _ HI) Hpc eq_refl)
        as Hv.
      destruct (m_videoStream s) as [p|] eqn:Hp; [|contradiction].
      destruct (inv_video_pointer _ HI p ctx Hp Hc) as (stp & Hnp & _).
      destruct (AVFormatContext.streams ctx) as [|st0 rest] eqn:Hl;
        [destruct p; discriminate|].
      cbn in Hn1. some_inv. apply (Hs ctx stream1 Hc).
      rewrite Hl. reflexivity.
  - exfalso.
    destruct e; unfold_step H; rewrite ?Hc in H;
    repeat (break_in H; try discriminate); some_inv; fields; congruence.
Qed.

Lemma run_first_is_video events : forall s s',
  Inv s -> first_is_video s -> run events s = Some s' -> first_is_video s'.
Proof.
  induction events as [|e rest IH]; cbn [run]; intros s s' HI Hs H.
  - some_inv. exact Hs.
  - unfold bind in H. destruct (step e s) as [s1|] eqn:He; [|discriminate].
    apply (IH s1 s' (step_Inv _ _ _ HI He)
             (step_first_is_video e s s1 HI He Hs) H).
Qed.

(** X9: every packet is tagged 0 or 1, and packets are written only when
    both stream pointers are non-null; each pointer then points to a
    stream of the context, of its kind, whose index is its position.
    When the context has just two streams, which is so when the calls of
    [onFrame] did not overlap, the video stream has index 0 and the audio
    stream index 1, as the tags of the write paths have it. *)
Theorem packets_tagged_with_existing_streams :
  forall recordUrl snapshotInterval time alloc_ok guess events s,
    run events (MediaRecorder_new recordUrl snapshotInterval time alloc_ok guess)
      = Some s ->
    Forall (fun p => stream_index p = 0 \/ stream_index p = 1)
      (packets (calls s)) /\
    (packets (calls s) <> [] ->
     m_videoStream s <> None /\ m_audioStream s <> None) /\
    (forall ctx,
       m_context s = Some ctx ->
       (forall p, m_videoStream s = Some p ->
          exists vs,
            video_stream s = Some vs /\ AVStream.index vs = Z.of_nat p /\
            AVCodecContext.codec_type (AVStream.codec vs)
            = AVMEDIA_TYPE_VIDEO) /\
       (forall p, m_audioStream s = Some p ->
          exists au,
            audio_stream s = Some au /\ AVStream.index au = Z.of_nat p /\
            AVCodecContext.codec_type (AVStream.codec au)
            = AVMEDIA_TYPE_AUDIO) /\
       (List.length (AVFormatContext.streams ctx) = 2%nat ->
        m_videoStream s <> None -> m_audioStream s <> None ->
        m_videoStream s = Some 0%nat /\ m_audioStream s = Some 1%nat)).
Proof.
  intros url si time alloc_ok guess events s Hrun.
  pose proof (Inv_run_new _ _ _ _ _ _ _ Hrun) as HI.
  assert (HI0 : Inv (MediaRecorder_new url si time alloc_ok guess))
    by (apply Inv_initial; do 5 eexists; reflexivity).
  split; [|split].
  - assert (Hgen : forall evs s0 s',
              Forall (fun p => stream_index p = 0 \/ stream_index p = 1)
                (packets (calls s0)) ->
              run evs s0 = Some s' ->
              Forall (fun p => stream_index p = 0 \/ stream_index p = 1)
                (packets (calls s'))).
    { induction evs as [|e rest IH]; cbn [run]; intros s0 s' Hs H.
      - some_inv. exact Hs.
      - unfold bind in H.
        destruct (step e s0) as [s1|] eqn:He; [|discriminate].
        apply (IH s1 s' (step_tags e s0 s1 He Hs) H). }
    apply (Hgen events (MediaRecorder_new url si time alloc_ok guess) s);
      [|exact Hrun].
    unfold MediaRecorder_new, init.
    destruct alloc_ok; [destruct guess|]; constructor.
  - intros Hne.
    destruct (m_videoStream s) eqn:Hv;
      [destruct (m_audioStream s) eqn:Ha; [split; discriminate|]|];
      exfalso; apply Hne;
      apply (no_stream_no_header url si time alloc_ok guess events s Hrun);
      auto.
  - intros ctx Hc.
    assert (Hvp : forall p, m_videoStream s = Some p ->
              exists vs,
                nth_error (AVFormatContext.streams ctx) p = Some vs /\
                AVStream.index vs = Z.of_nat p /\
                AVCodecContext.codec_type (AVStream.codec vs)
                = AVMEDIA_TYPE_VIDEO)
      by (intros p Hp; apply (inv_video_pointer _ HI p ctx Hp Hc)).
    assert (Hap : forall p, m_audioStream s = Some p ->
              exists au,
                nth_error (AVFormatContext.streams ctx) p = Some au /\
                AVStream.index au = Z.of_nat p /\
                AVCodecContext.codec_type (AVStream.codec au)
                = AVMEDIA_TYPE_AUDIO)
      by (intros p Hp; apply (inv_audio_pointer _ HI p ctx Hp Hc)).
    split; [|split].
    + intros p Hp. destruct (Hvp p Hp) as (vs & Hn & Hi & Hk).
      exists vs. unfold video_stream, stream_at, bind.
      rewrite Hp, Hc. auto.
    + intros p Hp. destruct (Hap p Hp) as (au & Hn & Hi & Hk).
      exists au. unfold audio_stream, stream_at, bind.
      rewrite Hp, Hc. auto.
    + intros Hlen Hv Ha.
      assert (Hfirst : first_is_video s).
      { apply (run_first_is_video events _ s HI0); [|exact Hrun].
        intros c st E Hn. exfalso. unfold MediaRecorder_new, init in E.
        destruct alloc_ok; [destruct guess|]; cbn in E; some_inv;
          cbn in Hn; discriminate. }
      destruct (m_videoStream s) as [pv|]; [|contradiction].
      destruct (m_audioStream s) as [pa|]; [|contradiction].
      destruct (Hvp pv eq_refl) as (vs & Hnv & _ & Hkv).
      destruct (Hap pa eq_refl) as (au & Hna & _ & Hka).
      assert (Hlv : (pv < 2)%nat)
        by (rewrite <- Hlen; apply nth_error_Some; congruence).
      assert (Hla : (pa < 2)%nat)
        by (rewrite <- Hlen; apply nth_error_Some; congruence).
      assert (Hpa : pa = 1%nat).
      { destruct pa as [|[|pa]]; [|reflexivity|lia].
        pose proof (Hfirst ctx au Hc Hna). congruence. }
      subst pa.
      assert (Hpv : pv = 0%nat).
      { destruct pv as [|[|pv]]; [reflexivity| |lia]. congruence. }
      subst pv. split; reflexivity.
Qed.


(** ** The theorems at concrete executions *)

Lemma header_written_at_most_once_witness :
  run video_first_session recorder0
    = Some (final_state video_first_session) /\
  (header_writes (calls (final_state video_first_session)) <= 1)%nat /\
  (m_status (final_state video_first_session) = Context_READY ->
   header_writes (calls (final_state video_first_session)) = 1%nat).
Proof.
  assert (H : run video_first_session recorder0
              = Some (final_state video_first_session))
    by (vm_compute; reflexivity).
  split; [exact H|].
  pose proof (header_written_at_most_once "/tmp/room.mkv" 0 start_time true
                (Some file_format) video_first_session _ H) as (H1 & H2 & _).
  split; [exact H1 | exact H2].
Defined.

Lemma audio_track_waits_for_video_witness :
  forallb (fun e => negb (is_video_arrival e)) audio_only_session = true /\
  exists s,
    run audio_only_session recorder0 = Some s /\
    MediaFrameQueue.m_queue (m_audioQueue s)
    = audio_arrivals audio_only_session recorder0 /\
    m_audioStream s = None /\ m_videoStream s = None /\
    count is_new_stream (calls s) = 0%nat.
Proof.
  assert (H : forallb (fun e => negb (is_video_arrival e)) audio_only_session
              = true) by reflexivity.
  split; [exact H|].
  destruct (proj1 (audio_track_waits_for_video "/tmp/room.mkv" 0 start_time
                     file_format audio_only_session H))
    as (s & A & B & C & D & E & _).
  exists s. repeat split; assumption.
Defined.

Lemma after_header_failure_witness :
  run before_header recorder0 = Some (final_state before_header) /\
  recordLoop_step (answers millisecond_muxer 3 true false)
    (final_state before_header)
    = Some (final_state header_failure_session) /\
  header_writes (calls (final_state header_failure_session))
    <> header_writes (calls (final_state before_header)) /\
  m_status (final_state header_failure_session) = Context_ERROR /\
  forall thread frame,
    step (OnFrame thread frame) (final_state header_failure_session)
    = Some (final_state header_failure_session).
Proof.
  assert (H1 : run before_header recorder0 = Some (final_state before_header))
    by (vm_compute; reflexivity).
  assert (H2 : recordLoop_step (answers millisecond_muxer 3 true false)
                 (final_state before_header)
               = Some (final_state header_failure_session))
    by (vm_compute; reflexivity).
  assert (H3 : header_writes (calls (final_state header_failure_session))
               <> header_writes (calls (final_state before_header)))
    by (vm_compute; lia).
  assert (H4 : m_status (final_state header_failure_session) = Context_ERROR)
    by reflexivity.
  split; [exact H1|]. split; [exact H2|]. split; [exact H3|].
  split; [exact H4|].
  exact (proj1 (after_header_failure "/tmp/room.mkv" 0 start_time true
                  (Some file_format) before_header _
                  (answers millisecond_muxer 3 true false) _
                  H1 H2 H3 H4)).
Defined.



Lemma audio_stream_implies_video_stream_witness :
  run video_first_session recorder0
    = Some (final_state video_first_session) /\
  (m_audioStream (final_state video_first_session) <> None ->
   m_videoStream (final_state video_first_session) <> None).
Proof.
  assert (H : run video_first_session recorder0
              = Some (final_state video_first_session))
    by (vm_compute; reflexivity).
  split; [exact H|].
  exact (proj1 (audio_stream_implies_video_stream "/tmp/room.mkv" 0
                  start_time true (Some file_format) video_first_session _
                  H)).
Defined.

Lemma scaling_divisor_from_video_time_base_witness :
  run video_first_session recorder0
    = Some (final_state video_first_session) /\
  video_time_base (final_state video_first_session)
    = Some {| num := 1; den := 1000 |} /\
  1 <= den {| num := 1; den := 1000 |} <= 1000 /\
  1 <= Z.quot 1000 (den {| num := 1; den := 1000 |}) <= 1000.
Proof.
  assert (H1 : run video_first_session recorder0
               = Some (final_state video_first_session))
    by (vm_compute; reflexivity).
  assert (H2 : video_time_base (final_state video_first_session)
               = Some {| num := 1; den := 1000 |})
    by (vm_compute; reflexivity).
  assert (H3 : 1 <= den {| num := 1; den := 1000 |} <= 1000)
    by (cbn; lia).
  split; [exact H1|]. split; [exact H2|]. split; [exact H3|].
  pose proof (scaling_divisor_from_video_time_base "/tmp/room.mkv" 0
                start_time true (Some file_format) video_first_session _ _
                H1 H2) as (_ & _ & _ & _ & H5).
  exact (proj1 (H5 H3)).
Defined.

Lemma frames_conserved_per_track_witness :
  run (ready_session ++ busy_drain) recorder0
    = Some (final_state (ready_session ++ busy_drain)) /\
  map packet_frame
    (track_packets 1 (calls (final_state (ready_session ++ busy_drain))))
  ++ map queued_frame
       (MediaFrameQueue.m_queue
          (m_audioQueue (final_state (ready_session ++ busy_drain))))
  = map queued_frame (audio_arrivals (ready_session ++ busy_drain) recorder0)
  /\
  map packet_frame
    (track_packets 0 (calls (final_state (ready_session ++ busy_drain))))
  ++ map queued_frame
       (MediaFrameQueue.m_queue
          (m_videoQueue (final_state (ready_session ++ busy_drain))))
  = map queued_frame (video_arrivals (ready_session ++ busy_drain) recorder0).
Proof.
  assert (H : run (ready_session ++ busy_drain) recorder0
              = Some (final_state (ready_session ++ busy_drain)))
    by (vm_compute; reflexivity).
  split; [exact H|].
  exact (frames_conserved_per_track "/tmp/room.mkv" 0 start_time true
           (Some file_format) (ready_session ++ busy_drain) _ H).
Defined.

Lemma quiet_iteration_writes_every_frame_witness :
  run ready_session recorder0 = Some (final_state ready_session) /\
  m_thread (final_state ready_session) = AtAudioDrain /\
  video_time_base (final_state ready_session)
    = Some {| num := 1; den := 1000 |} /\
  1 <= den {| num := 1; den := 1000 |} <= 1000 /\
  exists s',
    run (map WriterStep
           ([later 0] ++ later 1 :: [later 2; later 35; later 70]
            ++ [later 71]))
      (final_state ready_session) = Some s' /\
    m_thread s' = AtWhile /\
    MediaFrameQueue.m_queue (m_audioQueue s') = [] /\
    MediaFrameQueue.m_queue (m_videoQueue s') = [].
Proof.
  assert (H : run ready_session recorder0 = Some (final_state ready_session))
    by (vm_compute; reflexivity).
  assert (Hpc : m_thread (final_state ready_session) = AtAudioDrain)
    by (vm_compute; reflexivity).
  assert (Htb : video_time_base (final_state ready_session)
                = Some {| num := 1; den := 1000 |})
    by (vm_compute; reflexivity).
  assert (Hden : 1 <= den {| num := 1; den := 1000 |} <= 1000)
    by (cbn; lia).
  assert (Ha : List.length [later 0]
               = List.length (MediaFrameQueue.m_queue
                                (m_audioQueue (final_state ready_session))))
    by (vm_compute; reflexivity).
  assert (Hv : List.length [later 2; later 35; later 70]
               = List.length (MediaFrameQueue.m_queue
                                (m_videoQueue (final_state ready_session))))
    by (vm_compute; reflexivity).
  split; [exact H|]. split; [exact Hpc|]. split; [exact Htb|].
  split; [exact Hden|].
  destruct (quiet_iteration_writes_every_frame "/tmp/room.mkv" 0 start_time
              true (Some file_format) ready_session _ _ [later 0] (later 1)
              [later 2; later 35; later 70] (later 71) H Hpc Htb Hden Ha Hv)
    as (s' & A & B & _ & C & D & _).
  exists s'. repeat split; assumption.
Defined.

Lemma close_terminates_witness :
  run ready_session recorder0 = Some (final_state ready_session) /\
  owner (final_state ready_session) = Outside /\
  m_thread (final_state ready_session) <> Returned /\
  divisor_ok (final_state ready_session) = true /\
  Forall answer_ok
    [later 0; later 1; later 2; later 35; later 70; later 71;
     later 72; later 73; later 74] /\
  exists s',
    run (Close :: map WriterStep
                    [later 0; later 1; later 2; later 35; later 70; later 71;
                     later 72; later 73; later 74]
         ++ [JoinReturns])
      (final_state ready_session) = Some s' /\
    m_thread s' = Returned /\
    m_context s' = None /\
    owner s' = Outside /\
    context_frees (calls s') = 1%nat.
Proof.
  assert (H : run ready_session recorder0 = Some (final_state ready_session))
    by (vm_compute; reflexivity).
  assert (Ho : owner (final_state ready_session) = Outside)
    by (vm_compute; reflexivity).
  assert (Hpc : m_thread (final_state ready_session) <> Returned)
    by (vm_compute; discriminate).
  assert (Hd : divisor_ok (final_state ready_session) = true)
    by (vm_compute; reflexivity).
  assert (Hws : Forall answer_ok
                  [later 0; later 1; later 2; later 35; later 70; later 71;
                   later 72; later 73; later 74])
    by (repeat (apply Forall_cons; [intros stream; cbn; lia|]);
        apply Forall_nil).
  assert (Hlen :
    (List.length (MediaFrameQueue.m_queue
                    (m_audioQueue (final_state ready_session)))
     + List.length (MediaFrameQueue.m_queue
                      (m_videoQueue (final_state ready_session))) + 5
     <= List.length [later 0; later 1; later 2; later 35; later 70; later 71;
                     later 72; later 73; later 74])%nat)
    by (vm_compute; repeat constructor).
  split; [exact H|]. split; [exact Ho|]. split; [exact Hpc|].
  split; [exact Hd|]. split; [exact Hws|].
  exact (close_terminates "/tmp/room.mkv" 0 start_time true
           (Some file_format) ready_session _ _ H Ho Hpc Hd Hws Hlen).
Defined.

Lemma write_divides_by_zero_witness :
  run mpegts_session recorder0 = Some (final_state mpegts_session) /\
  video_time_base (final_state mpegts_session)
    = Some {| num := 1; den := 90000 |} /\
  1000 < den {| num := 1; den := 90000 |} /\
  m_thread (final_state mpegts_session) = AtAudioDrain /\
  MediaFrameQueue.m_queue (m_audioQueue (final_state mpegts_session)) <> [] /\
  step (WriterStep (answers mpegts_muxer 1000 true true))
    (final_state mpegts_session) = None.
Proof.
  assert (H : run mpegts_session recorder0 = Some (final_state mpegts_session))
    by (vm_compute; reflexivity).
  assert (Htb : video_time_base (final_state mpegts_session)
                = Some {| num := 1; den := 90000 |})
    by (vm_compute; reflexivity).
  assert (Hden : 1000 < den {| num := 1; den := 90000 |}) by (cbn; lia).
  assert (Ht : m_thread (final_state mpegts_session) = AtAudioDrain)
    by (vm_compute; reflexivity).
  assert (Hq : MediaFrameQueue.m_queue
                 (m_audioQueue (final_state mpegts_session)) <> [])
    by (vm_compute; discriminate).
  split; [exact H|]. split; [exact Htb|]. split; [exact Hden|].
  split; [exact Ht|]. split; [exact Hq|].
  exact (proj1 (proj2 (write_divides_by_zero "/tmp/room.mkv" 0 start_time
                         true (Some file_format) mpegts_session _ _
                         (answers mpegts_muxer 1000 true true) H Htb Hden))
           Ht Hq).
Defined.

Lemma writer_returns_only_when_stopped_or_failed_witness :
  run audio_only_session recorder0 = Some (final_state audio_only_session) /\
  m_thread (final_state audio_only_session) = Returned /\
  (m_muxing (final_state audio_only_session) = false \/
   m_status (final_state audio_only_session) = Context_ERROR).
Proof.
  assert (H : run audio_only_session recorder0
              = Some (final_state audio_only_session))
    by (vm_compute; reflexivity).
  assert (Hpc : m_thread (final_state audio_only_session) = Returned)
    by (vm_compute; reflexivity).
  split; [exact H|]. split; [exact Hpc|].
  exact (writer_returns_only_when_stopped_or_failed "/tmp/room.mkv" 0
           start_time file_format audio_only_session _ H Hpc).
Defined.

Lemma writer_leaves_after_error_witness :
  m_status (final_state video_failure_session) = Context_ERROR /\
  (m_thread (final_state video_failure_session) = AtWhile \/
   m_thread (final_state video_failure_session) = AtSwitch \/
   m_thread (final_state video_failure_session) = Returned) /\
  exists s',
    run [WriterStep (later 0); WriterStep (later 1)]
      (final_state video_failure_session) = Some s' /\
    m_thread s' = Returned /\ m_status s' = Context_ERROR /\
    calls s' = calls (final_state video_failure_session).
Proof.
  assert (He : m_status (final_state video_failure_session) = Context_ERROR)
    by (vm_compute; reflexivity).
  assert (Ht : m_thread (final_state video_failure_session) = AtWhile \/
               m_thread (final_state video_failure_session) = AtSwitch \/
               m_thread (final_state video_failure_session) = Returned)
    by (left; vm_compute; reflexivity).
  split; [exact He|]. split; [exact Ht|].
  destruct (proj1 (writer_leaves_after_error
                     (final_state video_failure_session) He Ht)
              (later 0) (later 1))
    as (s' & A & B & C & D & _).
  exists s'. repeat split; assumption.
Defined.

Lemma header_precedes_every_packet_witness :
  run video_first_session recorder0
    = Some (final_state video_first_session) /\
  calls (final_state video_first_session)
  = [avformat_new_stream true; avformat_new_stream true; avio_open true;
     av_dump_format; avformat_write_header true]
    ++ av_write_frame
         {| data := [4]; size := 1; pts := 1000; stream_index := 1 |}
       :: skipn 6 (calls (final_state video_first_session)) /\
  In (avformat_write_header true)
    [avformat_new_stream true; avformat_new_stream true; avio_open true;
     av_dump_format; avformat_write_header true].
Proof.
  assert (H : run video_first_session recorder0
              = Some (final_state video_first_session))
    by (vm_compute; reflexivity).
  assert (Hc : calls (final_state video_first_session)
               = [avformat_new_stream true; avformat_new_stream true;
                  avio_open true; av_dump_format; avformat_write_header true]
                 ++ av_write_frame
                      {| data := [4]; size := 1; pts := 1000;
                         stream_index := 1 |}
                    :: skipn 6 (calls (final_state video_first_session)))
    by (vm_compute; reflexivity).
  split; [exact H|]. split; [exact Hc|].
  exact (header_precedes_every_packet "/tmp/room.mkv" 0 start_time true
           (Some file_format) video_first_session _ _ _ _ H Hc).
Defined.

Lemma video_stream_allocation_failure_witness :
  run video_add_pending recorder0 = Some (final_state video_add_pending) /\
  producer_pc 1 (m_producers (final_state video_add_pending))
    = Some (AtAddVideo (video_frame 1)) /\
  m_thread (final_state video_add_pending) <> Returned /\
  exists s1 s2,
    step (ProducerStep 1 false) (final_state video_add_pending) = Some s1 /\
    m_status s1 = Context_ERROR /\
    m_videoStream s1 = m_videoStream (final_state video_add_pending) /\
    (forall ok, step (ProducerStep 1 ok) s1 = Some s2) /\
    MediaFrameQueue.m_queue (m_videoQueue s2)
    = MediaFrameQueue.m_queue (m_videoQueue (final_state video_add_pending))
      ++ [encode (video_frame 1)].
Proof.
  assert (H : run video_add_pending recorder0
              = Some (final_state video_add_pending))
    by (vm_compute; reflexivity).
  assert (H1 : producer_pc 1 (m_producers (final_state video_add_pending))
               = Some (AtAddVideo (video_frame 1)))
    by (vm_compute; reflexivity).
  assert (H2 : m_thread (final_state video_add_pending) <> Returned)
    by (vm_compute; discriminate).
  split; [exact H|]. split; [exact H1|]. split; [exact H2|].
  destruct (video_stream_allocation_failure "/tmp/room.mkv" 0 start_time true
              (Some file_format) video_add_pending _ 1 (video_frame 1)
              H H1 H2)
    as (s1 & s2 & E1 & E2 & E3 & _ & E5 & E6 & _).
  exists s1, s2. repeat split; assumption.
Defined.

Lemma audio_stream_allocation_failure_witness :
  run audio_add_pending recorder0 = Some (final_state audio_add_pending) /\
  producer_pc 2 (m_producers (final_state audio_add_pending))
    = Some (AtAddAudio (audio_frame 2)) /\
  m_thread (final_state audio_add_pending) <> Returned /\
  exists s1 s2,
    step (ProducerStep 2 false) (final_state audio_add_pending) = Some s1 /\
    m_status s1 = Context_ERROR /\
    m_audioStream s1 = m_audioStream (final_state audio_add_pending) /\
    (forall ok, step (ProducerStep 2 ok) s1 = Some s2) /\
    MediaFrameQueue.m_queue (m_audioQueue s2)
    = MediaFrameQueue.m_queue (m_audioQueue (final_state audio_add_pending))
      ++ [encode (audio_frame 2)].
Proof.
  assert (H : run audio_add_pending recorder0
              = Some (final_state audio_add_pending))
    by (vm_compute; reflexivity).
  assert (H1 : producer_pc 2 (m_producers (final_state audio_add_pending))
               = Some (AtAddAudio (audio_frame 2)))
    by (vm_compute; reflexivity).
  assert (H2 : m_thread (final_state audio_add_pending) <> Returned)
    by (vm_compute; discriminate).
  split; [exact H|]. split; [exact H1|]. split; [exact H2|].
  destruct (audio_stream_allocation_failure "/tmp/room.mkv" 0 start_time true
              (Some file_format) audio_add_pending _ 2 (audio_frame 2)
              H H1 H2)
    as (s1 & s2 & E1 & E2 & E3 & _ & E5 & E6 & _).
  exists s1, s2. repeat split; assumption.
Defined.

Lemma packets_tagged_with_existing_streams_witness :
  run video_first_session recorder0
    = Some (final_state video_first_session) /\
  Forall (fun p => stream_index p = 0 \/ stream_index p = 1)
    (packets (calls (final_state video_first_session))) /\
  (packets (calls (final_state video_first_session)) <> [] ->
   m_videoStream (final_state video_first_session) <> None /\
   m_audioStream (final_state video_first_session) <> None).
Proof.
  assert (H : run video_first_session recorder0
              = Some (final_state video_first_session))
    by (vm_compute; reflexivity).
  split; [exact H|].
  destruct (packets_tagged_with_existing_streams "/tmp/room.mkv" 0 start_time
              true (Some file_format) video_first_session _ H)
    as (A & B & _).
  split; [exact A | exact B].
Defined.

Lemma video_track_made_from_first_video_frame_witness :
  run video_add_pending recorder0 = Some (final_state video_add_pending) /\
  forall ctx,
    producer_pc 1 (m_producers (final_state video_add_pending))
      = Some (AtAddVideo (video_frame 1)) ->
    m_context (final_state video_add_pending) = Some ctx ->
    exists s1 vs,
      step (ProducerStep 1 true) (final_state video_add_pending) = Some s1 /\
      m_videoStream s1 = Some (List.length (AVFormatContext.streams ctx)) /\
      video_stream s1 = Some vs /\
      made_from_video (video_frame 1) vs /\
      AVStream.index vs
      = Z.of_nat (List.length (AVFormatContext.streams ctx)).
Proof.
  assert (H : run video_add_pending recorder0
              = Some (final_state video_add_pending))
    by (vm_compute; reflexivity).
  split; [exact H|].
  intros ctx.
  exact (proj1 (video_track_made_from_first_video_frame "/tmp/room.mkv" 0
                  start_time file_format video_add_pending _ H)
           1 (video_frame 1) ctx).
Defined.

Lemma audio_track_made_from_first_audio_frame_after_video_witness :
  run audio_add_pending recorder0 = Some (final_state audio_add_pending) /\
  forall ctx,
    producer_pc 2 (m_producers (final_state audio_add_pending))
      = Some (AtAddAudio (audio_frame 2)) ->
    m_context (final_state audio_add_pending) = Some ctx ->
    exists s1 au,
      step (ProducerStep 2 true) (final_state audio_add_pending) = Some s1 /\
      m_audioStream s1 = Some (List.length (AVFormatContext.streams ctx)) /\
      audio_stream s1 = Some au /\
      made_from_audio (audio_frame 2) au /\
      AVStream.index au
      = Z.of_nat (List.length (AVFormatContext.streams ctx)).
Proof.
  assert (H : run audio_add_pending recorder0
              = Some (final_state audio_add_pending))
    by (vm_compute; reflexivity).
  split; [exact H|].
  intros ctx.
  exact (proj1 (audio_track_made_from_first_audio_frame_after_video
                  "/tmp/room.mkv" 0 start_time file_format
                  audio_add_pending _ H)
           2 (audio_frame 2) ctx).
Defined.

Lemma failed_init_cannot_take_video_witness :
  (true = false \/ @None AVOutputFormat.t = None) /\
  run (delivery 2 (audio_frame 1) true) unguessed_recorder
    = Some (match run (delivery 2 (audio_frame 1) true) unguessed_recorder with
            | Some s => s
            | None => unguessed_recorder
            end) /\
  m_thread unguessed_recorder = Returned /\
  forall s ok rest,
    run (delivery 2 (audio_frame 1) true) unguessed_recorder = Some s ->
    producer_pc 1 (m_producers s) = None ->
    run (delivery 1 (video_frame 2) ok ++ rest) s = None.
Proof.
  assert (H1 : true = false \/ @None AVOutputFormat.t = None)
    by (right; reflexivity).
  assert (H2 : run (delivery 2 (audio_frame 1) true) unguessed_recorder
               = Some (match run (delivery 2 (audio_frame 1) true)
                               unguessed_recorder with
                       | Some s => s
                       | None => unguessed_recorder
                       end))
    by (vm_compute; reflexivity).
  split; [exact H1|]. split; [exact H2|].
  destruct (failed_init_cannot_take_video "/tmp/room.xyz" 0 start_time true
              None (delivery 2 (audio_frame 1) true) _ H1 H2)
    as (A & _).
  split; [exact A|].
  intros s ok rest Hs Hidle.
  destruct (failed_init_cannot_take_video "/tmp/room.xyz" 0 start_time true
              None (delivery 2 (audio_frame 1) true) s H1 Hs)
    as (_ & _ & _ & _ & B & _).
  apply (B 1 (video_frame 2) ok rest Hidle). reflexivity.
Defined.

Lemma nofile_format_never_opens_a_file_witness :
  Z.land (AVOutputFormat.flags nofile_format) AVFMT_NOFILE <> 0 /\
  run closed_session nofile_recorder
    = Some (nofile_final_state closed_session) /\
  count is_avio (calls (nofile_final_state closed_session)) = 0%nat.
Proof.
  assert (H1 : Z.land (AVOutputFormat.flags nofile_format) AVFMT_NOFILE <> 0)
    by (vm_compute; discriminate).
  assert (H2 : run closed_session nofile_recorder
               = Some (nofile_final_state closed_session))
    by (vm_compute; reflexivity).
  split; [exact H1|]. split; [exact H2|].
  exact (nofile_format_never_opens_a_file "rtp://10.0.0.1:5004" 0 start_time
           nofile_format closed_session _ H1 H2).
Defined.

Lemma file_is_opened_before_header_witness :
  Z.land (AVOutputFormat.flags file_format) AVFMT_NOFILE = 0 /\
  run video_first_session recorder0
    = Some (final_state video_first_session) /\
  (forall pre ok post,
     calls (final_state video_first_session)
     = pre ++ avformat_write_header ok :: post ->
     In (avio_open true) pre) /\
  (In (avio_open false) (calls (final_state video_first_session)) ->
   m_status (final_state video_first_session) = Context_ERROR /\
   header_writes (calls (final_state video_first_session)) = 0%nat).
Proof.
  assert (H1 : Z.land (AVOutputFormat.flags file_format) AVFMT_NOFILE = 0)
    by (vm_compute; reflexivity).
  assert (H2 : run video_first_session recorder0
               = Some (final_state video_first_session))
    by (vm_compute; reflexivity).
  split; [exact H1|]. split; [exact H2|].
  exact (file_is_opened_before_header "/tmp/room.mkv" 0 start_time
           file_format video_first_session _ H1 H2).
Defined.

Lemma pts_counts_33ms_ticks_witness :
  clock_range start_time /\
  clock_range (now (later 0)) /\
  clock_range (now (later 1000)) /\
  milliseconds start_time <= milliseconds (now (later 0))
    <= milliseconds (now (later 1000)) /\
  1 <= den {| num := 1; den := 30 |} <= 1000 /\
  exists p1 p2,
    timestampToWrite (now (later 0)) (milliseconds start_time)
      {| num := 1; den := 30 |} = Some p1 /\
    timestampToWrite (now (later 1000)) (milliseconds start_time)
      {| num := 1; den := 30 |} = Some p2 /\
    0 <= p1 <= p2 /\
    Z.quot 1000 30 * p1
      <= milliseconds (now (later 0)) - milliseconds start_time
      < Z.quot 1000 30 * p1 + Z.quot 1000 30.
Proof.
  assert (H1 : clock_range start_time) by (vm_compute; intuition discriminate).
  assert (H2 : clock_range (now (later 0)))
    by (vm_compute; intuition discriminate).
  assert (H3 : clock_range (now (later 1000)))
    by (vm_compute; intuition discriminate).
  assert (H4 : milliseconds start_time <= milliseconds (now (later 0))
               <= milliseconds (now (later 1000)))
    by (vm_compute; intuition discriminate).
  assert (H5 : 1 <= den {| num := 1; den := 30 |} <= 1000) by (cbn; lia).
  repeat (split; [assumption|]).
  destruct (pts_counts_33ms_ticks start_time (now (later 0))
              (now (later 1000)) {| num := 1; den := 30 |} H1 H2 H3 H4 H5)
    as (p1 & p2 & A & B & C & D & _).
  exists p1, p2. repeat split; try assumption; apply C || apply D.
Defined.

Lemma registrations_follow_the_members_witness :
  forallb well_formed source_ops = true /\
  exists s,
    source_run "/tmp/room.mkv" source_ops Sources_new = Some s /\
    registrations (dispatcher_calls s)
    = held (m_videoSource s) (m_videoId s)
      ++ held (m_audioSource s) (m_audioId s) /\
    (List.length (registrations (dispatcher_calls s)) <= 2)%nat.
Proof.
  assert (H : forallb well_formed source_ops = true) by reflexivity.
  split; [exact H|].
  exact (registrations_follow_the_members "/tmp/room.mkv" source_ops H).
Defined.

Lemma unsetMediaSource_clears_registrations_witness :
  registrations (dispatcher_calls registered_sources)
  = held (m_videoSource registered_sources) (m_videoId registered_sources)
    ++ held (m_audioSource registered_sources) (m_audioId registered_sources)
  /\
  registrations (dispatcher_calls (unsetMediaSource registered_sources)) = []
  /\
  unsetMediaSource (unsetMediaSource registered_sources)
  = unsetMediaSource registered_sources.
Proof.
  assert (H : registrations (dispatcher_calls registered_sources)
              = held (m_videoSource registered_sources)
                  (m_videoId registered_sources)
                ++ held (m_audioSource registered_sources)
                     (m_audioId registered_sources))
    by (vm_compute; reflexivity).
  split; [exact H|].
  exact (unsetMediaSource_clears_registrations registered_sources H).
Defined.

Lemma closed_ready_session_one_trailer_witness :
  run closed_session recorder0 = Some (final_state closed_session) /\
  m_status (final_state closed_session) = Context_READY /\
  m_context (final_state closed_session) = None /\
  trailer_writes (calls (final_state closed_session)) = 1%nat /\
  context_frees (calls (final_state closed_session)) = 1%nat.
Proof.
  assert (H : run closed_session recorder0
              = Some (final_state closed_session))
    by (vm_compute; reflexivity).
  assert (H1 : m_status (final_state closed_session) = Context_READY)
    by (vm_compute; reflexivity).
  assert (H2 : m_context (final_state closed_session) = None)
    by (vm_compute; reflexivity).
  split; [exact H|]. split; [exact H1|]. split; [exact H2|].
  exact (closed_ready_session_one_trailer "/tmp/room.mkv" 0 start_time true
           (Some file_format) closed_session _ H H1 H2).
Defined.

Lemma context_released_at_most_once_witness :
  run closed_session recorder0 = Some (final_state closed_session) /\
  (trailer_writes (calls (final_state closed_session))
   <= context_frees (calls (final_state closed_session)) <= 1)%nat.
Proof.
  assert (H : run closed_session recorder0
              = Some (final_state closed_session))
    by (vm_compute; reflexivity).
  split; [exact H|].
  exact (proj1 (context_released_at_most_once "/tmp/room.mkv" 0 start_time
                  true (Some file_format) closed_session _ H)).
Defined.

Lemma global_header_flag_follows_format_witness :
  run video_first_session recorder0
    = Some (final_state video_first_session) /\
  (forall vs, video_stream (final_state video_first_session) = Some vs ->
     AVCodecContext.flags (AVStream.codec vs)
     = if Z.land (AVOutputFormat.flags file_format) AVFMT_GLOBALHEADER =? 0
       then 0 else CODEC_FLAG_GLOBAL_HEADER) /\
  (forall au, audio_stream (final_state video_first_session) = Some au ->
     AVCodecContext.flags (AVStream.codec au)
     = if Z.land (AVOutputFormat.flags file_format) AVFMT_GLOBALHEADER =? 0
       then 0 else CODEC_FLAG_GLOBAL_HEADER).
Proof.
  assert (H : run video_first_session recorder0
              = Some (final_state video_first_session))
    by (vm_compute; reflexivity).
  split; [exact H|].
  destruct (global_header_flag_follows_format "/tmp/room.mkv" 0 start_time
              file_format video_first_session _ H) as (_ & H1 & H2 & _).
  split; [exact H1 | exact H2].
Defined.

Lemma destructor_after_close_does_nothing_witness :
  run closed_session recorder0 = Some (final_state closed_session) /\
  m_context (final_state closed_session) = None /\
  m_muxing (final_state closed_session) = false /\
  m_thread (final_state closed_session) = Returned /\
  step Destroy (final_state closed_session)
  = Some (final_state closed_session).
Proof.
  assert (H : run closed_session recorder0
              = Some (final_state closed_session))
    by (vm_compute; reflexivity).
  assert (H1 : m_context (final_state closed_session) = None)
    by (vm_compute; reflexivity).
  split; [exact H|]. split; [exact H1|].
  exact (destructor_after_close_does_nothing "/tmp/room.mkv" 0 start_time
           file_format closed_session _ H H1).
Defined.
